(** * Waste-audit store and scoring engine of the community audit app

    A shallow embedding of [src/lib/database.ts] (the entity-attribute-value
    store: [saveWasteAudit], [getWasteAudit], [updateWasteAudit]) and of
    [src/app/api/waste-audit/calculate/route.ts] (the scoring engine), with
    the properties the specification states about them.  The second half
    covers the rest of both files and the handlers built on them: the
    deletion, the existence check, the summaries and the statistics of the
    store; the alerts, the grant hints, the recommendations and the [POST]
    of the engine; the validation of the save route; and the save,
    auto-save and [[id]] routes.

    Modelling conventions
    - A JavaScript object used as a record is the list of its own
      properties in [Object.keys] order.
    - Objects and arrays nested inside a record are opaque: the store only
      hands them to [JSON.stringify] and gets them back from [JSON.parse],
      which are parameters of the development ([Js.Host]).
    - Numbers that reach the store's scalar paths are integers or [NaN];
      integers are exact, which is what binary64 does below 2^53.
    - A text is the sequence of its UTF-8 bytes, as SQLite holds it.
    - The SQLite file is a value: the [audits] identifiers, the rows of
      [waste_data] in rowid order, the AUTOINCREMENT counter and the
      [foreign_keys] pragma.  Exceptions are the [Throw] branch of
      [result]; [new Date().toISOString()] is an argument called [now].
    - The scoring engine is embedded twice.  [Calculate] and [Insights]
      compute on exact rationals ([Q]), for the properties that rounding
      does not touch: the checks, the lists and the ranges.  [Binary64]
      computes the metrics and the alerts on binary64 floats, for the
      properties that state the numbers returned. *)

From Stdlib Require Import ZArith QArith Qround String Ascii List Bool Lia Lqa.
From Stdlib Require Import DecimalString DecimalZ DecimalPos.
From Stdlib Require Import Permutation.
From Stdlib Require Floats.
Import ListNotations.

Local Open Scope string_scope.
Local Open Scope Z_scope.

(* ================================================================== *)
(** * JavaScript values                                                *)
(* ================================================================== *)

Module Js.

(** Outcome of an expression that may throw. *)
Inductive result (A : Type) : Type :=
| Ok (a : A)
| Throw (message : string).
Arguments Ok {A} a.
Arguments Throw {A} message.

Definition bind {A B : Type} (m : result A) (k : A -> result B) : result B :=
  match m with
  | Ok a => k a
  | Throw e => Throw e
  end.

(** [forEach] over an array with a callback that updates a state and may
    throw: the first exception ends the loop. *)
Fixpoint forEach {A S : Type} (l : list A) (f : A -> S -> result S) (s : S)
  : result S :=
  match l with
  | [] => Ok s
  | a :: l' => bind (f a s) (forEach l' f)
  end.

(** ** Numbers *)

Inductive number : Type :=
| Num (z : Z)
| NaN.

(** [Number.prototype.toString]: the decimal digits of an integer, which
    is what JavaScript prints for the integers a double holds exactly,
    the safe integers below 2^53 in absolute value among them. *)
Definition Number_toString (n : number) : string :=
  match n with
  | Num z => NilZero.string_of_int (Z.to_int z)
  | NaN => "NaN"
  end.

(** ** [parseInt] (ECMA-262, 19.2.5), without a radix argument *)

(** The ASCII members of StrWhiteSpaceChar: TAB, LF, VT, FF, CR, SP. *)
Definition is_white_space (c : ascii) : bool :=
  let n := N_of_ascii c in
  ((9 <=? n) && (n <=? 13))%N || (n =? 32)%N.

(** The other members, as the UTF-8 bytes of the text: U+00A0 in two
    bytes; U+1680, U+2000 to U+200A, U+2028, U+2029, U+202F, U+205F,
    U+3000 and U+FEFF in three. *)
Definition is_lead_byte (c : ascii) : bool :=
  let n := N_of_ascii c in
  ((n =? 194) || (n =? 225) || (n =? 226) || (n =? 227) || (n =? 239))%N.

Definition is_white_space2 (c c1 : ascii) : bool :=
  ((N_of_ascii c =? 194) && (N_of_ascii c1 =? 160))%N.

Definition is_white_space3 (c c1 c2 : ascii) : bool :=
  let n := N_of_ascii c in
  let n1 := N_of_ascii c1 in
  let n2 := N_of_ascii c2 in
  ((n =? 225) && (n1 =? 154) && (n2 =? 128)
   || (n =? 226) && (n1 =? 128)
      && ((128 <=? n2) && (n2 <=? 138)
          || (n2 =? 168) || (n2 =? 169) || (n2 =? 175))
   || (n =? 226) && (n1 =? 129) && (n2 =? 159)
   || (n =? 227) && (n1 =? 128) && (n2 =? 128)
   || (n =? 239) && (n1 =? 187) && (n2 =? 191))%N.

(** The text without its leading StrWhiteSpaceChar. *)
Fixpoint trim_start (s : string) : string :=
  match s with
  | String c r =>
      if is_white_space c then trim_start r
      else if is_lead_byte c then
        match r with
        | String c1 r1 =>
            if is_white_space2 c c1 then trim_start r1
            else
              match r1 with
              | String c2 r2 =>
                  if is_white_space3 c c1 c2 then trim_start r2 else s
              | EmptyString => s
              end
        | EmptyString => s
        end
      else s
  | EmptyString => s
  end.

(** Value of a character as a digit: 0-9, then a-z or A-Z for 10-35. *)
Definition digit_value (c : ascii) : option Z :=
  let n := Z.of_N (N_of_ascii c) in
  if (48 <=? n) && (n <=? 57) then Some (n - 48)
  else if (97 <=? n) && (n <=? 122) then Some (n - 87)
  else if (65 <=? n) && (n <=? 90) then Some (n - 55)
  else None.

(** The longest prefix of [s] made of digits of the radix, accumulated
    from [acc]; [None] as long as no digit was read. *)
Fixpoint parse_digits (radix : Z) (s : string) (acc : option Z) : option Z :=
  match s with
  | String c s' =>
      match digit_value c with
      | Some d =>
          if d <? radix
          then parse_digits radix s'
                 (Some (match acc with Some a => a * radix + d | None => d end))
          else acc
      | None => acc
      end
  | EmptyString => acc
  end.

(** The integer of the digits, exact; JavaScript returns the double next
    to it, the same number below 2^53. *)
Definition parseInt (input : string) : number :=
  let s := trim_start input in
  let '(sign, s) :=
    match s with
    | String "-" r => (-1, r)
    | String "+" r => (1, r)
    | _ => (1, s)
    end in
  let '(radix, s) :=
    match s with
    | String "0" (String "x" r) => (16, r)
    | String "0" (String "X" r) => (16, r)
    | _ => (10, s)
    end in
  match parse_digits radix s None with
  | Some n => Num (sign * n)
  | None => NaN
  end.

Definition is_decimal_digit (c : ascii) : bool :=
  let n := N_of_ascii c in ((48 <=? n) && (n <=? 57))%N.

(** A text is not numeric when, its leading white space and one sign
    skipped, it does not start with a decimal digit. *)
Definition non_numeric (text : string) : bool :=
  let s := trim_start text in
  let s :=
    match s with
    | String "-" r => r
    | String "+" r => r
    | _ => s
    end in
  match s with
  | String c _ => negb (is_decimal_digit c)
  | EmptyString => true
  end.

(** ** Values *)

Section Values.

(** [J] is the type of non-null objects and arrays. *)
Context {J : Type}.

Inductive value : Type :=
| VUndefined
| VNull
| VBool (b : bool)
| VNum (n : number)
| VStr (s : string)
| VObj (o : J).

(** An object as the list of its own properties. *)
Definition object : Type := list (string * value).

Definition Object_keys (o : object) : list string := map fst o.

(** Property read [o[k]]: [undefined] when [o] has no such property. *)
Fixpoint get (o : object) (k : string) : value :=
  match o with
  | [] => VUndefined
  | (k', v) :: o' => if String.eqb k k' then v else get o' k
  end.

(** ToBoolean. *)
Definition truthy (v : value) : bool :=
  match v with
  | VUndefined | VNull => false
  | VBool b => b
  | VNum (Num z) => negb (z =? 0)
  | VNum NaN => false
  | VStr s => negb (String.eqb s "")
  | VObj _ => true
  end.

Definition is_undefined (v : value) : bool :=
  match v with VUndefined => true | _ => false end.

(** [typeof v === 'object'] *)
Definition typeof_object (v : value) : bool :=
  match v with VNull | VObj _ => true | _ => false end.

End Values.
Arguments value J : clear implicits.
Arguments object J : clear implicits.

(** What the host provides and this development does not look into. *)
Class Host (J : Type) : Type := {
  (** [JSON.stringify], applied to defined values only *)
  JSON_stringify : value J -> string;
  (** [JSON.parse]; [None] is the SyntaxError *)
  JSON_parse : string -> option (value J);
  (** [toString] of an object or an array *)
  Object_toString : J -> string;
  (** What a TEXT column holds after better-sqlite3 bound a value that is
      not a string, or the exception its binder throws. *)
  bind_other : value J -> result string
}.

Section Conversions.

Context {J : Type} {H : Host J}.

(** [v.toString()] *)
Definition toString (v : value J) : result string :=
  match v with
  | VUndefined =>
      Throw "Cannot read properties of undefined (reading 'toString')"
  | VNull => Throw "Cannot read properties of null (reading 'toString')"
  | VBool true => Ok "true"
  | VBool false => Ok "false"
  | VNum n => Ok (Number_toString n)
  | VStr s => Ok s
  | VObj o => Ok (Object_toString o)
  end.

(** A statement parameter bound to a TEXT column. *)
Definition bind_text (v : value J) : result string :=
  match v with
  | VStr s => Ok s
  | _ => bind_other v
  end.

End Conversions.

End Js.

(* ================================================================== *)
(** * The SQLite file behind [db]                                      *)
(* ================================================================== *)

Module Sqlite.
Import Js.

(** A row of
    [waste_data(id INTEGER PRIMARY KEY AUTOINCREMENT, audit_id INTEGER NOT NULL,
                item_key TEXT NOT NULL, response TEXT, notes TEXT,
                FOREIGN KEY (audit_id) REFERENCES audits(id) ON DELETE CASCADE)].
    The primary key is the only uniqueness constraint of the table. *)
Record row : Type := {
  row_id : Z;
  audit_id : Z;
  item_key : string;
  response : string;
  notes : string
}.

Record database : Type := {
  (** [db.pragma('foreign_keys = ON')] *)
  foreign_keys : bool;
  (** the [id] column of [audits] *)
  audits : list Z;
  (** the rows of [waste_data], in the order a scan of the table visits
      them *)
  waste_data : list row;
  (** the [sqlite_sequence] entry of [waste_data] *)
  waste_data_seq : Z
}.

Definition with_waste_data (db : database) (rows : list row) (seq : Z)
  : database :=
  {| foreign_keys := foreign_keys db;
     audits := audits db;
     waste_data := rows;
     waste_data_seq := seq |}.

Definition audit_exists (db : database) (auditId : Z) : bool :=
  existsb (Z.eqb auditId) (audits db).

(** The child-key check of an INSERT into [waste_data]. *)
Definition foreign_key_ok (db : database) (auditId : Z) : bool :=
  negb (foreign_keys db) || audit_exists db auditId.

(** AUTOINCREMENT: one more than the largest rowid the table ever held. *)
Definition max_rowid (rows : list row) : Z :=
  fold_right (fun r m => Z.max (row_id r) m) 0 rows.

Definition next_rowid (db : database) : Z :=
  Z.max (waste_data_seq db) (max_rowid (waste_data db)) + 1.

(** [INSERT INTO waste_data (audit_id, item_key, response, notes)
     VALUES (?, ?, ?, ?)], with [or_replace] for [INSERT OR REPLACE]: rows
    in conflict with the new one on a uniqueness constraint, that is on
    [id], are deleted before it is inserted; without the clause the
    conflict is an error. *)
Definition insert (or_replace : bool) (db : database)
    (auditId : Z) (key resp note : string) : result database :=
  if foreign_key_ok db auditId then
    let rid := next_rowid db in
    let new_row := {| row_id := rid; audit_id := auditId; item_key := key;
                      response := resp; notes := note |} in
    let conflict := fun r => row_id r =? rid in
    if or_replace then
      Ok (with_waste_data db
            (filter (fun r => negb (conflict r)) (waste_data db) ++ [new_row])
            rid)
    else if existsb conflict (waste_data db) then
      Throw "UNIQUE constraint failed: waste_data.id"
    else
      Ok (with_waste_data db (waste_data db ++ [new_row]) rid)
  else Throw "FOREIGN KEY constraint failed".

(** [DELETE FROM waste_data WHERE audit_id = ?] *)
Definition delete (db : database) (auditId : Z) : database :=
  with_waste_data db
    (filter (fun r => negb (audit_id r =? auditId)) (waste_data db))
    (waste_data_seq db).

(** [SELECT item_key, response FROM waste_data WHERE audit_id = ?]: a scan
    of the table in rowid order. *)
Definition select (db : database) (auditId : Z) : list (string * string) :=
  map (fun r => (item_key r, response r))
      (filter (fun r => audit_id r =? auditId) (waste_data db)).

(** [db.transaction(fn)]: commit when [fn] returns, roll back and rethrow
    when it throws. *)
Definition transaction {A : Type}
    (fn : database -> result (database * A)) (db : database)
  : database * result A :=
  match fn db with
  | Ok (db', a) => (db', Ok a)
  | Throw e => (db, Throw e)
  end.

(** The rows [entries] appended for [auditId], each with the next rowid. *)
Definition append_row (db : database) (auditId : Z)
    (entry : string * string * string) : database :=
  let '(key, resp, note) := entry in
  with_waste_data db
    (waste_data db ++
       [{| row_id := next_rowid db; audit_id := auditId; item_key := key;
           response := resp; notes := note |}])
    (next_rowid db).

Definition append_rows (db : database) (auditId : Z)
    (entries : list (string * string * string)) : database :=
  fold_left (fun db e => append_row db auditId e) entries db.

Definition entry_of (e : string * string * string) : string * string :=
  (fst (fst e), snd (fst e)).

(** Without the parent audit a statement either throws or leaves the
    table as closed to the audit as it was. *)
Definition blocked (id : Z) (r : result database) : Prop :=
  match r with
  | Ok db => foreign_key_ok db id = false
  | Throw _ => True
  end.

End Sqlite.

(* ================================================================== *)
(** * [src/lib/database.ts]                                            *)
(* ================================================================== *)

Module Database.
Import Js Sqlite.

Notation "x <- m ;; k" := (bind m (fun x => k))
  (at level 61, m at next level, right associativity).

(** [SaveWasteAuditResponse], without the fields the store never sets. *)
Record SaveWasteAuditResponse : Type := {
  success : bool;
  wasteAuditId : option Z;
  validationErrors : option (list string)
}.

Section Store.

Context {J : Type} {H : Host J}.

(** The record [getWasteAudit] builds: [{ auditId }], then one
    property per decoded row. *)
Record WasteAuditData : Type := {
  auditId : Z;
  facilityInfrastructure : option (value J);
  wasteStreamsAssessment : option (value J);
  specialWasteManagement : option (value J);
  organicWasteComposting : option (value J);
  wastePreventionMeasures : option (value J);
  behavioralTraining : option (value J);
  completedSections : option number;
  isQuickMode : option bool;
  lastSaved : option string;
  syncStatus : option string
}.

Definition sections : list string :=
  [ "facilityInfrastructure"; "wasteStreamsAssessment";
    "specialWasteManagement"; "organicWasteComposting";
    "wastePreventionMeasures"; "behavioralTraining" ].

(** An [if] without [else] around a statement. *)
Definition when (c : bool) (stmt : database -> result database)
    (db : database) : result database :=
  if c then stmt db else Ok db.

(** The function wrapped by [db.transaction] in [saveWasteAudit]. *)
Definition saveTransaction (auditId : Z) (data : object J) (now : string)
    (db : database) : result (database * SaveWasteAuditResponse) :=
  let db := delete db auditId in
  db <- forEach sections (fun section =>
          when (truthy (get data section))
            (fun db => insert false db auditId section
                         (JSON_stringify (get data section))
                         ("Waste audit section: " ++ section))) db ;;
  db <- when (negb (is_undefined (get data "completedSections")))
          (fun db =>
             s <- toString (get data "completedSections") ;;
             insert false db auditId "completedSections" s
               "Number of completed sections") db ;;
  db <- when (negb (is_undefined (get data "isQuickMode")))
          (fun db =>
             s <- toString (get data "isQuickMode") ;;
             insert false db auditId "isQuickMode" s "Quick mode flag") db ;;
  db <- when (truthy (get data "syncStatus"))
          (fun db =>
             s <- bind_text (get data "syncStatus") ;;
             insert false db auditId "syncStatus" s
               "Synchronization status") db ;;
  db <- insert false db auditId "lastSaved" now "Last saved timestamp" ;;
  Ok (db, {| success := true;
             wasteAuditId := Some auditId;
             validationErrors := None |}).

Definition saveWasteAudit (db : database) (auditId : Z) (data : object J)
    (now : string) : database * SaveWasteAuditResponse :=
  match transaction (saveTransaction auditId data now) db with
  | (db', Ok r) => (db', r)
  | (db', Throw message) =>
      (db', {| success := false;
               wasteAuditId := None;
               validationErrors :=
                 Some ["Failed to save waste audit: " ++ message] |})
  end.

(** ** Reconstruction *)

Definition empty_record (auditId : Z) : WasteAuditData :=
  {| auditId := auditId;
     facilityInfrastructure := None; wasteStreamsAssessment := None;
     specialWasteManagement := None; organicWasteComposting := None;
     wastePreventionMeasures := None; behavioralTraining := None;
     completedSections := None; isQuickMode := None;
     lastSaved := None; syncStatus := None |}.

(** [wasteAuditData[item_key] = v] for one of the six section names. *)
Definition set_section (d : WasteAuditData) (item_key : string)
    (v : value J) : WasteAuditData :=
  if String.eqb item_key "facilityInfrastructure" then
    {| auditId := auditId d;
       facilityInfrastructure := Some v;
       wasteStreamsAssessment := wasteStreamsAssessment d;
       specialWasteManagement := specialWasteManagement d;
       organicWasteComposting := organicWasteComposting d;
       wastePreventionMeasures := wastePreventionMeasures d;
       behavioralTraining := behavioralTraining d;
       completedSections := completedSections d;
       isQuickMode := isQuickMode d;
       lastSaved := lastSaved d; syncStatus := syncStatus d |}
  else if String.eqb item_key "wasteStreamsAssessment" then
    {| auditId := auditId d;
       facilityInfrastructure := facilityInfrastructure d;
       wasteStreamsAssessment := Some v;
       specialWasteManagement := specialWasteManagement d;
       organicWasteComposting := organicWasteComposting d;
       wastePreventionMeasures := wastePreventionMeasures d;
       behavioralTraining := behavioralTraining d;
       completedSections := completedSections d;
       isQuickMode := isQuickMode d;
       lastSaved := lastSaved d; syncStatus := syncStatus d |}
  else if String.eqb item_key "specialWasteManagement" then
    {| auditId := auditId d;
       facilityInfrastructure := facilityInfrastructure d;
       wasteStreamsAssessment := wasteStreamsAssessment d;
       specialWasteManagement := Some v;
       organicWasteComposting := organicWasteComposting d;
       wastePreventionMeasures := wastePreventionMeasures d;
       behavioralTraining := behavioralTraining d;
       completedSections := completedSections d;
       isQuickMode := isQuickMode d;
       lastSaved := lastSaved d; syncStatus := syncStatus d |}
  else if String.eqb item_key "organicWasteComposting" then
    {| auditId := auditId d;
       facilityInfrastructure := facilityInfrastructure d;
       wasteStreamsAssessment := wasteStreamsAssessment d;
       specialWasteManagement := specialWasteManagement d;
       organicWasteComposting := Some v;
       wastePreventionMeasures := wastePreventionMeasures d;
       behavioralTraining := behavioralTraining d;
       completedSections := completedSections d;
       isQuickMode := isQuickMode d;
       lastSaved := lastSaved d; syncStatus := syncStatus d |}
  else if String.eqb item_key "wastePreventionMeasures" then
    {| auditId := auditId d;
       facilityInfrastructure := facilityInfrastructure d;
       wasteStreamsAssessment := wasteStreamsAssessment d;
       specialWasteManagement := specialWasteManagement d;
       organicWasteComposting := organicWasteComposting d;
       wastePreventionMeasures := Some v;
       behavioralTraining := behavioralTraining d;
       completedSections := completedSections d;
       isQuickMode := isQuickMode d;
       lastSaved := lastSaved d; syncStatus := syncStatus d |}
  else if String.eqb item_key "behavioralTraining" then
    {| auditId := auditId d;
       facilityInfrastructure := facilityInfrastructure d;
       wasteStreamsAssessment := wasteStreamsAssessment d;
       specialWasteManagement := specialWasteManagement d;
       organicWasteComposting := organicWasteComposting d;
       wastePreventionMeasures := wastePreventionMeasures d;
       behavioralTraining := Some v;
       completedSections := completedSections d;
       isQuickMode := isQuickMode d;
       lastSaved := lastSaved d; syncStatus := syncStatus d |}
  else d.

(** The body of [records.forEach] in [getWasteAudit]. *)
Definition decode_record (d : WasteAuditData) (record : string * string)
  : WasteAuditData :=
  let '(item_key, response) := record in
  if existsb (String.eqb item_key) sections then
    match JSON_parse response with
    | Some v => set_section d item_key v
    | None => d  (* console.error; the exception is swallowed *)
    end
  else if String.eqb item_key "completedSections" then
    {| auditId := auditId d;
       facilityInfrastructure := facilityInfrastructure d;
       wasteStreamsAssessment := wasteStreamsAssessment d;
       specialWasteManagement := specialWasteManagement d;
       organicWasteComposting := organicWasteComposting d;
       wastePreventionMeasures := wastePreventionMeasures d;
       behavioralTraining := behavioralTraining d;
       completedSections := Some (parseInt response);
       isQuickMode := isQuickMode d;
       lastSaved := lastSaved d; syncStatus := syncStatus d |}
  else if String.eqb item_key "isQuickMode" then
    {| auditId := auditId d;
       facilityInfrastructure := facilityInfrastructure d;
       wasteStreamsAssessment := wasteStreamsAssessment d;
       specialWasteManagement := specialWasteManagement d;
       organicWasteComposting := organicWasteComposting d;
       wastePreventionMeasures := wastePreventionMeasures d;
       behavioralTraining := behavioralTraining d;
       completedSections := completedSections d;
       isQuickMode := Some (String.eqb response "true");
       lastSaved := lastSaved d; syncStatus := syncStatus d |}
  else if String.eqb item_key "syncStatus" then
    {| auditId := auditId d;
       facilityInfrastructure := facilityInfrastructure d;
       wasteStreamsAssessment := wasteStreamsAssessment d;
       specialWasteManagement := specialWasteManagement d;
       organicWasteComposting := organicWasteComposting d;
       wastePreventionMeasures := wastePreventionMeasures d;
       behavioralTraining := behavioralTraining d;
       completedSections := completedSections d;
       isQuickMode := isQuickMode d;
       lastSaved := lastSaved d; syncStatus := Some response |}
  else if String.eqb item_key "lastSaved" then
    {| auditId := auditId d;
       facilityInfrastructure := facilityInfrastructure d;
       wasteStreamsAssessment := wasteStreamsAssessment d;
       specialWasteManagement := specialWasteManagement d;
       organicWasteComposting := organicWasteComposting d;
       wastePreventionMeasures := wastePreventionMeasures d;
       behavioralTraining := behavioralTraining d;
       completedSections := completedSections d;
       isQuickMode := isQuickMode d;
       lastSaved := Some response; syncStatus := syncStatus d |}
  else d.

(** [null] is [None]; nothing inside the [try] throws once the rows are
    read, since the only throwing call, [JSON.parse], has its own
    handler. *)
Definition getWasteAudit (db : database) (auditId : Z)
  : option WasteAuditData :=
  let records := select db auditId in
  if (length records =? 0)%nat then None
  else Some (fold_left decode_record records (empty_record auditId)).

(** The function wrapped by [db.transaction] in [updateWasteAudit]. *)
Definition updateTransaction (auditId : Z) (updates : object J)
    (now : string) (db : database) : result (database * unit) :=
  db <- forEach (Object_keys updates) (fun key db =>
          let value := get updates key in
          if negb (is_undefined value) then
            if typeof_object value then
              insert true db auditId key (JSON_stringify value)
                ("Updated: " ++ key)
            else
              s <- toString value ;;
              insert true db auditId key s ("Updated: " ++ key)
          else Ok db) db ;;
  db <- insert true db auditId "lastSaved" now "Last updated timestamp" ;;
  Ok (db, tt).

Definition updateWasteAudit (db : database) (auditId : Z)
    (updates : object J) (now : string) : database * bool :=
  match transaction (updateTransaction auditId updates now) db with
  | (db', Ok _) => (db', true)
  | (db', Throw _) => (db', false)
  end.

(** ** Reading a record *)

(** [d[name]] for one of the six section names. *)
Definition get_section (d : WasteAuditData) (name : string)
  : option (value J) :=
  if String.eqb name "facilityInfrastructure" then facilityInfrastructure d
  else if String.eqb name "wasteStreamsAssessment" then wasteStreamsAssessment d
  else if String.eqb name "specialWasteManagement" then specialWasteManagement d
  else if String.eqb name "organicWasteComposting" then organicWasteComposting d
  else if String.eqb name "wastePreventionMeasures" then wastePreventionMeasures d
  else if String.eqb name "behavioralTraining" then behavioralTraining d
  else None.

(** The record without its [lastSaved] property. *)
Definition without_lastSaved (d : WasteAuditData) : WasteAuditData :=
  {| auditId := auditId d;
     facilityInfrastructure := facilityInfrastructure d;
     wasteStreamsAssessment := wasteStreamsAssessment d;
     specialWasteManagement := specialWasteManagement d;
     organicWasteComposting := organicWasteComposting d;
     wastePreventionMeasures := wastePreventionMeasures d;
     behavioralTraining := behavioralTraining d;
     completedSections := completedSections d;
     isQuickMode := isQuickMode d;
     lastSaved := None; syncStatus := syncStatus d |}.


(** The item keys [decode_record] has a branch for. *)
Definition known_key (item_key : string) : bool :=
  existsb (String.eqb item_key)
    (sections ++ ["completedSections"; "isQuickMode"; "syncStatus"; "lastSaved"])%list.

(** ** The loop of [getWasteAudit], one property at a time

    Each property of the result is assigned by the rows of one item key
    and ends with what the last of them that assigns it decoded to. *)

Definition last_some {A : Type} (f : string * string -> option A)
    (records : list (string * string)) (init : option A) : option A :=
  fold_left (fun acc r => match f r with Some v => Some v | None => acc end)
            records init.

Definition decode_section (name : string) (record : string * string)
  : option (value J) :=
  if String.eqb (fst record) name then JSON_parse (snd record) else None.

Definition decode_completedSections (record : string * string)
  : option number :=
  if String.eqb (fst record) "completedSections"
  then Some (parseInt (snd record)) else None.

Definition decode_isQuickMode (record : string * string) : option bool :=
  if String.eqb (fst record) "isQuickMode"
  then Some (String.eqb (snd record) "true") else None.

Definition decode_text (name : string) (record : string * string)
  : option string :=
  if String.eqb (fst record) name then Some (snd record) else None.

Definition decode_fields (d : WasteAuditData)
    (records : list (string * string)) : WasteAuditData :=
  {| auditId := auditId d;
     facilityInfrastructure :=
       last_some (decode_section "facilityInfrastructure") records
                 (facilityInfrastructure d);
     wasteStreamsAssessment :=
       last_some (decode_section "wasteStreamsAssessment") records
                 (wasteStreamsAssessment d);
     specialWasteManagement :=
       last_some (decode_section "specialWasteManagement") records
                 (specialWasteManagement d);
     organicWasteComposting :=
       last_some (decode_section "organicWasteComposting") records
                 (organicWasteComposting d);
     wastePreventionMeasures :=
       last_some (decode_section "wastePreventionMeasures") records
                 (wastePreventionMeasures d);
     behavioralTraining :=
       last_some (decode_section "behavioralTraining") records
                 (behavioralTraining d);
     completedSections :=
       last_some decode_completedSections records (completedSections d);
     isQuickMode := last_some decode_isQuickMode records (isQuickMode d);
     lastSaved := last_some (decode_text "lastSaved") records (lastSaved d);
     syncStatus :=
       last_some (decode_text "syncStatus") records (syncStatus d) |}.

(** ** The rows a call writes *)

(** The text [updateWasteAudit] stores for a defined value. *)
Definition update_text (v : value J) : string :=
  if typeof_object v then JSON_stringify v
  else match toString v with Ok s => s | Throw _ => "" end.

(** The rows the [forEach] of [updateWasteAudit] writes: item key,
    response and note, in the order of the keys. *)
Definition update_entries (updates : object J)
  : list (string * string * string) :=
  flat_map (fun key =>
              if is_undefined (get updates key) then []
              else [(key, update_text (get updates key),
                     "Updated: " ++ key)])
           (Object_keys updates).

(** The rows the [forEach] of [saveWasteAudit] writes. *)
Definition section_entries (data : object J)
  : list (string * string * string) :=
  flat_map (fun section =>
              if truthy (get data section)
              then [(section, JSON_stringify (get data section),
                     "Waste audit section: " ++ section)]
              else [])
           sections.

(** ** Valid partial records *)

(** [Number.isSafeInteger] *)
Definition isSafeInteger (n : number) : bool :=
  match n with
  | Num z => Z.abs z <? 2 ^ 53
  | NaN => false
  end.

(** A section is absent or an object that survives [JSON]. *)
Definition valid_section (v : value J) : Prop :=
  v = VUndefined \/
  exists o, v = VObj o /\ JSON_parse (JSON_stringify (VObj o)) = Some (VObj o).

(** A partial record of the declared types: each of the six sections is
    absent or an object, [completedSections] an integer, [isQuickMode] a
    boolean and [syncStatus] one of its three literals. *)
Definition valid_partial (r : object J) : Prop :=
  (forall section, In section sections -> valid_section (get r section))
  /\ (get r "completedSections" = VUndefined \/
      exists z, get r "completedSections" = VNum (Num z)
                /\ isSafeInteger (Num z) = true)
  /\ (get r "isQuickMode" = VUndefined \/
      exists b, get r "isQuickMode" = VBool b)
  /\ (get r "syncStatus" = VUndefined \/
      exists s, get r "syncStatus" = VStr s
                /\ In s ["synced"; "pending"; "offline"]).

Definition defined (v : value J) : option (value J) :=
  match v with VUndefined => None | _ => Some v end.

(** The record made of the sections and the metadata of [r], of the audit
    identifier and of the time of the save, and of nothing else. *)
Definition saved_record (id : Z) (r : object J) (now : string)
  : WasteAuditData :=
  {| auditId := id;
     facilityInfrastructure := defined (get r "facilityInfrastructure");
     wasteStreamsAssessment := defined (get r "wasteStreamsAssessment");
     specialWasteManagement := defined (get r "specialWasteManagement");
     organicWasteComposting := defined (get r "organicWasteComposting");
     wastePreventionMeasures := defined (get r "wastePreventionMeasures");
     behavioralTraining := defined (get r "behavioralTraining");
     completedSections :=
       match get r "completedSections" with VNum n => Some n | _ => None end;
     isQuickMode :=
       match get r "isQuickMode" with VBool b => Some b | _ => None end;
     lastSaved := Some now;
     syncStatus :=
       match get r "syncStatus" with VStr s => Some s | _ => None end |}.

(** The metadata rows [saveWasteAudit] writes for a valid record. *)
Definition metadata_entries (r : object J) (now : string)
  : list (string * string * string) :=
  (match get r "completedSections" with
   | VNum n => [("completedSections", Number_toString n,
                 "Number of completed sections")]
   | _ => []
   end
   ++ match get r "isQuickMode" with
      | VBool b => [("isQuickMode", if b then "true" else "false",
                     "Quick mode flag")]
      | _ => []
      end
   ++ match get r "syncStatus" with
      | VStr s => [("syncStatus", s, "Synchronization status")]
      | _ => []
      end
   ++ [("lastSaved", now, "Last saved timestamp")])%list.

(** ** The invariant of the table *)

Fixpoint all_distinct (keys : list string) : bool :=
  match keys with
  | [] => true
  | k :: keys' => negb (existsb (String.eqb k) keys') && all_distinct keys'
  end.

(** At most one entry per item key for the audit. *)
Definition unique_keys (db : database) (auditId : Z) : bool :=
  all_distinct (map fst (select db auditId)).

End Store.
Arguments WasteAuditData J : clear implicits.

End Database.

(* ================================================================== *)
(** * A host to run the store on                                       *)
(* ================================================================== *)

(** A [JSON] for the examples: [null], booleans, integers, strings,
    arrays and objects.  A number with a fraction or an exponent and a
    [\u] escape above U+007F are outside the fragment: [parse] refuses
    them.  The theorems below hold for every [Js.Host]; this one
    instantiates them. *)
Module JsonFragment.
Import Js.

#[warnings="-register-all"]
Inductive json : Type :=
| JNull
| JBool (b : bool)
| JInt (z : Z)
| JStr (s : string)
| JArr (elements : list json)
| JObj (members : list (string * json)).

(** The quotation mark, U+0022. *)
Definition quotation_mark : ascii := ascii_of_nat 34.

Definition hex_digit (n : N) : ascii :=
  if (n <? 10)%N then ascii_of_N (48 + n) else ascii_of_N (87 + n).

(** QuoteJSONString: the quote, the backslash and the control characters
    are escaped. *)
Definition escape_char (c : ascii) : string :=
  let n := N_of_ascii c in
  if Ascii.eqb c quotation_mark then String "\" (String quotation_mark "")
  else if Ascii.eqb c "\" then "\\"
  else if (n =? 8)%N then "\b"
  else if (n =? 9)%N then "\t"
  else if (n =? 10)%N then "\n"
  else if (n =? 12)%N then "\f"
  else if (n =? 13)%N then "\r"
  else if (n <? 32)%N
  then "\u00" ++ String (hex_digit (n / 16)) (String (hex_digit (n mod 16)) "")
  else String c "".

Fixpoint escape (s : string) : string :=
  match s with
  | String c s' => escape_char c ++ escape s'
  | EmptyString => EmptyString
  end.

(** The character a one-letter escape stands for. *)
Definition unescape (e : ascii) : option ascii :=
  if Ascii.eqb e quotation_mark then Some e
  else if Ascii.eqb e "\" then Some e
  else if Ascii.eqb e "/" then Some e
  else if Ascii.eqb e "b" then Some (ascii_of_N 8)
  else if Ascii.eqb e "t" then Some (ascii_of_N 9)
  else if Ascii.eqb e "n" then Some (ascii_of_N 10)
  else if Ascii.eqb e "f" then Some (ascii_of_N 12)
  else if Ascii.eqb e "r" then Some (ascii_of_N 13)
  else None.

(** The character of four hexadecimal digits, up to U+007F. *)
Definition unescape_hex (a b c d : ascii) : option ascii :=
  match digit_value a, digit_value b, digit_value c, digit_value d with
  | Some x, Some y, Some z, Some w =>
      if (x <? 16) && (y <? 16) && (z <? 16) && (w <? 16)
         && (((x * 16 + y) * 16 + z) * 16 + w <? 128)
      then Some (ascii_of_N (Z.to_N (z * 16 + w)))
      else None
  | _, _, _, _ => None
  end.

Definition quote (s : string) : string :=
  String quotation_mark (escape s ++ String quotation_mark "").

Definition join (sep : string) (l : list string) : string :=
  match l with
  | [] => ""
  | x :: l' => fold_left (fun acc y => acc ++ sep ++ y) l' x
  end.

Fixpoint print (j : json) : string :=
  match j with
  | JNull => "null"
  | JBool true => "true"
  | JBool false => "false"
  | JInt z => Number_toString (Num z)
  | JStr s => quote s
  | JArr l => "[" ++ join "," (map print l) ++ "]"
  | JObj l =>
      "{" ++ join "," (map (fun kv => quote (fst kv) ++ ":" ++ print (snd kv)) l)
          ++ "}"
  end.

(** The characters of a string literal after its opening quote. *)
Fixpoint read_string (s : string) (acc : string) : option (string * string) :=
  match s with
  | String c s' =>
      if Ascii.eqb c quotation_mark then Some (acc, s')
      else if Ascii.eqb c "\" then
        match s' with
        | String "u" (String a (String b (String c (String d s'')))) =>
            match unescape_hex a b c d with
            | Some e => read_string s'' (acc ++ String e "")
            | None => None
            end
        | String e s'' =>
            match unescape e with
            | Some e' => read_string s'' (acc ++ String e' "")
            | None => None
            end
        | EmptyString => None
        end
      else if (N_of_ascii c <? 32)%N then None
      else read_string s' (acc ++ String c "")
  | EmptyString => None
  end.

Fixpoint drop_digits (s : string) : string :=
  match s with
  | String c s' =>
      match digit_value c with
      | Some d => if d <? 10 then drop_digits s' else s
      | None => s
      end
  | EmptyString => s
  end.

(** A zero followed by a digit: no number starts so. *)
Definition leading_zero (s : string) : bool :=
  match s with
  | String "0" (String c _) => is_decimal_digit c
  | _ => false
  end.

(** A fraction or an exponent follows the digits. *)
Definition more_follows (s : string) : bool :=
  match s with
  | String c _ => (Ascii.eqb c "." || Ascii.eqb c "e" || Ascii.eqb c "E")%char
  | EmptyString => false
  end.

Definition read_int (s : string) : option (json * string) :=
  let '(sign, s) :=
    match s with String "-" r => (-1, r) | _ => (1, s) end in
  if leading_zero s || more_follows (drop_digits s) then None
  else
    match parse_digits 10 s None with
    | Some n => Some (JInt (sign * n), drop_digits s)
    | None => None
    end.

Definition starts_with (p s : string) : option string :=
  if String.prefix p s
  then Some (String.substring (String.length p)
               (String.length s - String.length p) s)
  else None.

Definition read_literal (s : string) : option (json * string) :=
  match starts_with "null" s, starts_with "true" s, starts_with "false" s with
  | Some r, _, _ => Some (JNull, r)
  | _, Some r, _ => Some (JBool true, r)
  | _, _, Some r => Some (JBool false, r)
  | _, _, _ => read_int s
  end.

(** The white space of JSON: TAB, LF, CR and SP. *)
Definition is_json_white_space (c : ascii) : bool :=
  let n := N_of_ascii c in
  ((n =? 9) || (n =? 10) || (n =? 13) || (n =? 32))%N.

Fixpoint skip_white_space (s : string) : string :=
  match s with
  | String c s' => if is_json_white_space c then skip_white_space s' else s
  | EmptyString => s
  end.

Definition next_is (c : ascii) (s : string) : option string :=
  match skip_white_space s with
  | String c' r => if Ascii.eqb c c' then Some r else None
  | EmptyString => None
  end.

Fixpoint read_value (fuel : nat) (s : string) : option (json * string) :=
  match fuel with
  | O => None
  | S fuel =>
      match next_is "[" s, next_is "{" s, next_is quotation_mark s with
      | Some r, _, _ =>
          match next_is "]" r with
          | Some r' => Some (JArr [], r')
          | None =>
              match read_elements fuel r with
              | Some (l, r') => Some (JArr l, r')
              | None => None
              end
          end
      | _, Some r, _ =>
          match next_is "}" r with
          | Some r' => Some (JObj [], r')
          | None =>
              match read_members fuel r with
              | Some (l, r') => Some (JObj l, r')
              | None => None
              end
          end
      | _, _, Some r =>
          match read_string r "" with
          | Some (str, r') => Some (JStr str, r')
          | None => None
          end
      | _, _, _ => read_literal (skip_white_space s)
      end
  end

with read_elements (fuel : nat) (s : string) : option (list json * string) :=
  match fuel with
  | O => None
  | S fuel =>
      match read_value fuel s with
      | Some (j, r) =>
          match next_is "," r, next_is "]" r with
          | Some r', _ =>
              match read_elements fuel r' with
              | Some (l, r'') => Some (j :: l, r'')
              | None => None
              end
          | _, Some r' => Some ([j], r')
          | _, _ => None
          end
      | None => None
      end
  end

with read_members (fuel : nat) (s : string)
  : option (list (string * json) * string) :=
  match fuel with
  | O => None
  | S fuel =>
      match next_is quotation_mark s with
      | Some r =>
          match read_string r "" with
          | Some (k, r1) =>
              match next_is ":" r1 with
              | Some r2 =>
                  match read_value fuel r2 with
                  | Some (j, r3) =>
                      match next_is "," r3, next_is "}" r3 with
                      | Some r4, _ =>
                          match read_members fuel r4 with
                          | Some (l, r5) => Some ((k, j) :: l, r5)
                          | None => None
                          end
                      | _, Some r4 => Some ([(k, j)], r4)
                      | _, _ => None
                      end
                  | None => None
                  end
              | None => None
              end
          | None => None
          end
      | None => None
      end
  end.

Definition to_value (j : json) : value json :=
  match j with
  | JNull => VNull
  | JBool b => VBool b
  | JInt z => VNum (Num z)
  | JStr s => VStr s
  | _ => VObj j
  end.

Definition stringify (v : value json) : string :=
  match v with
  | VUndefined => "undefined"
  | VNull => "null"
  | VBool b => print (JBool b)
  | VNum (Num z) => print (JInt z)
  | VNum NaN => "null"
  | VStr s => quote s
  | VObj j => print j
  end.

Definition parse (s : string) : option (value json) :=
  match read_value (S (String.length s)) s with
  | Some (j, rest) =>
      match skip_white_space rest with
      | EmptyString => Some (to_value j)
      | _ => None
      end
  | None => None
  end.

Fixpoint element_toString (j : json) : string :=
  match j with
  | JNull => ""
  | JBool true => "true"
  | JBool false => "false"
  | JInt z => Number_toString (Num z)
  | JStr s => s
  | JArr l => join "," (map element_toString l)
  | JObj _ => "[object Object]"
  end.

(** better-sqlite3 binds a number as a double, which the TEXT column
    turns into text: an integer below 10^15 gets its digits and [.0].  It
    refuses booleans, objects and arrays. *)
Definition bound_text (v : value json) : result string :=
  match v with
  | VNum (Num z) => Ok (Number_toString (Num z) ++ ".0")
  | VNum NaN => Throw "NOT NULL constraint failed: waste_data.response"
  | _ =>
      Throw "SQLite3 can only bind numbers, strings, bigints, buffers, and null"
  end.

#[export] Instance host : Host json := {|
  JSON_stringify := stringify;
  JSON_parse := parse;
  Object_toString := element_toString;
  bind_other := bound_text
|}.

End JsonFragment.

(* ================================================================== *)
(** * [src/app/api/waste-audit/calculate/route.ts]                     *)
(* ================================================================== *)

Module Calculate.

Local Open Scope Q_scope.

(** The functions embedded are [calculateWasteMetrics],
    [generateQuickWins], [calculatePreventionScore] and
    [calculateOverallScore]; the alerts, the grant hints and the
    recommendation tiers are not needed below. *)

(** ** The types of [src/types/waste.ts] the engine reads

    Of each interface only the fields one of these functions reads are
    kept.  A field the code guards with [?.] or [||] is an [option]. *)

Inductive BinType : Type :=
| BinType_GENERAL_WASTE | BinType_DRY_RECYCLABLES | BinType_ORGANIC_COMPOST
| BinType_GLASS | BinType_BATTERIES | BinType_WEEE.

Inductive WasteStream : Type :=
| WasteStream_GENERAL | WasteStream_DRY_RECYCLABLES | WasteStream_ORGANIC
| WasteStream_GLASS | WasteStream_HAZARDOUS.

Inductive CompostingSystem : Type :=
| CompostingSystem_NONE | CompostingSystem_TRADITIONAL
| CompostingSystem_BOKASHI | CompostingSystem_WORM_FARM
| CompostingSystem_OTHER.

Inductive ImplementationLevel : Type :=
| NOT_IMPLEMENTED | PLANNED | PARTIAL | FULL.

Inductive MonitoringFrequency : Type :=
| NEVER | OCCASIONALLY | MONTHLY | WEEKLY.

Record BinInventoryItem : Type := {
  binType : BinType;
  signagePresent : bool;
  signageQuality : Q
}.

Record FacilityWasteInfrastructure : Type := {
  binInventory : option (list BinInventoryItem)
}.

Record WasteStreamAssessment : Type := {
  wasteStream : WasteStream;
  estimatedWeeklyVolumeLitres : option Q;
  contaminationLevel : option Q;
  annualCostEuros : option Q
}.

Record WasteStreamsAssessment : Type := {
  assessments : option (list WasteStreamAssessment)
}.

Record OrganicWasteComposting : Type := {
  kitchenPresent : bool;
  compostingSystem : CompostingSystem
}.

Record WastePreventionMeasures : Type := {
  procurementPolicy : option ImplementationLevel;
  reusableCupsBottles : option ImplementationLevel;
  waterFountainsRefillStations : option ImplementationLevel;
  paperlessCommunication : option ImplementationLevel;
  donationSystem : option ImplementationLevel;
  repairCafe : option ImplementationLevel;
  bulkBuying : option ImplementationLevel;
  eliminateSingleUse : option ImplementationLevel
}.

Record BehavioralTraining : Type := {
  wasteChampionAppointed : bool;
  userEducationMaterialsDisplayed : bool;
  wasteMonitoringRecordsKept : MonitoringFrequency
}.

(** [Partial<WasteAuditData>] as the engine sees it. *)
Record WasteAuditData : Type := {
  facilityInfrastructure : option FacilityWasteInfrastructure;
  wasteStreamsAssessment : option WasteStreamsAssessment;
  organicWasteComposting : option OrganicWasteComposting;
  wastePreventionMeasures : option WastePreventionMeasures;
  behavioralTraining : option BehavioralTraining
}.

Record WasteAuditCalculations : Type := {
  estimatedAnnualWasteCost : Q;
  potentialSavingsFromContaminationReduction : Q;
  recyclingRateEstimate : Q;
  weeklyWastePerUser : Q;
  carbonFootprintEstimate : Q
}.

Inductive ImpactLevel : Type := low | medium | high.

Inductive Category : Type :=
| infrastructure | contamination | prevention | training.

Record QuickWin : Type := {
  id : string;
  title : string;
  description : string;
  estimatedCostEuros : Q;
  estimatedSavingsEuros : Q;
  impactLevel : ImpactLevel;
  priority : Z;
  category : Category
}.

(** ** Operators *)

Definition Qltb (x y : Q) : bool := negb (Qle_bool y x).

(** [x > c] for a property that may be [undefined]: the comparison with
    [undefined] is [false]. *)
Definition gt (x : option Q) (c : Q) : bool :=
  match x with Some q => Qltb c q | None => false end.

(** A number is truthy when it is not zero. *)
Definition nonzero (q : Q) : bool := negb (Qeq_bool q 0).

(** [x || c] for a numeric property. *)
Definition or_default (x : option Q) (c : Q) : Q :=
  match x with
  | Some q => if nonzero q then q else c
  | None => c
  end.

(** [Math.round]: the nearest integer, a tie going up. *)
Definition Math_round (x : Q) : Q := inject_Z (Qfloor (x + (1 # 2))).

Definition Math_min (x y : Q) : Q := if Qle_bool x y then x else y.

Definition is_dry_recyclables_bin (bin : BinInventoryItem) : bool :=
  match binType bin with BinType_DRY_RECYCLABLES => true | _ => false end.

(** [stream.wasteStream === 'dry_recyclables' || stream.wasteStream === 'organic'] *)
Definition is_recyclable_stream (stream : WasteStreamAssessment) : bool :=
  match wasteStream stream with
  | WasteStream_DRY_RECYCLABLES | WasteStream_ORGANIC => true
  | _ => false
  end.

(** ** [calculateWasteMetrics] *)

(** The four variables the [forEach] over the assessments updates. *)
Record totals : Type := {
  totalAnnualCost : Q;
  totalWeeklyVolume : Q;
  recyclableVolume : Q;
  contaminationIssues : Z
}.

Definition metrics_step (t : totals) (stream : WasteStreamAssessment)
  : totals :=
  {| totalAnnualCost :=
       match annualCostEuros stream with
       | Some c => if nonzero c then totalAnnualCost t + c
                   else totalAnnualCost t
       | None => totalAnnualCost t
       end;
     totalWeeklyVolume :=
       totalWeeklyVolume t + or_default (estimatedWeeklyVolumeLitres stream) 0;
     recyclableVolume :=
       if is_recyclable_stream stream
       then recyclableVolume t
            + or_default (estimatedWeeklyVolumeLitres stream) 0
       else recyclableVolume t;
     contaminationIssues :=
       if gt (contaminationLevel stream) 3
       then (contaminationIssues t + 1)%Z
       else contaminationIssues t |}.

(** [data.wasteStreamsAssessment?.assessments] *)
Definition assessments_of (data : WasteAuditData)
  : option (list WasteStreamAssessment) :=
  match wasteStreamsAssessment data with
  | Some w => assessments w
  | None => None
  end.

Definition calculateWasteMetrics (data : WasteAuditData) (userCount : Q)
  : WasteAuditCalculations :=
  let t0 := {| totalAnnualCost := 0; totalWeeklyVolume := 0;
               recyclableVolume := 0; contaminationIssues := 0 |} in
  let t :=
    match assessments_of data with
    | Some streams => fold_left metrics_step streams t0
    | None => t0
    end in
  let recyclingRate :=
    if Qltb 0 (totalWeeklyVolume t)
    then (recyclableVolume t / totalWeeklyVolume t) * 100
    else 0 in
  let potentialSavings :=
    if (0 <? contaminationIssues t)%Z
    then totalAnnualCost t * (15 # 100)
    else 0 in
  let weeklyWastePerUser :=
    if Qltb 0 userCount
    then (totalWeeklyVolume t * (1 # 2)) / userCount
    else 0 in
  let carbonFootprint := (totalWeeklyVolume t * (1 # 2) * 52) * (1 # 2) in
  {| estimatedAnnualWasteCost := totalAnnualCost t;
     potentialSavingsFromContaminationReduction := potentialSavings;
     recyclingRateEstimate := Math_round (recyclingRate * 100) / 100;
     weeklyWastePerUser := Math_round (weeklyWastePerUser * 100) / 100;
     carbonFootprintEstimate := Math_round carbonFootprint |}.

(** ** [generateQuickWins] *)

(** [Array.prototype.sort((a, b) => a.priority - b.priority)]: a stable
    sort, here by insertion. *)
Fixpoint insert_by_priority (x : QuickWin) (l : list QuickWin)
  : list QuickWin :=
  match l with
  | [] => [x]
  | y :: l' =>
      if (priority x <=? priority y)%Z then x :: l
      else y :: insert_by_priority x l'
  end.

Definition sort_by_priority (l : list QuickWin) : list QuickWin :=
  fold_right insert_by_priority [] l.

(** [data.facilityInfrastructure?.binInventory] *)
Definition binInventory_of (data : WasteAuditData)
  : option (list BinInventoryItem) :=
  match facilityInfrastructure data with
  | Some f => binInventory f
  | None => None
  end.

Definition poor_signage (bin : BinInventoryItem) : bool :=
  signagePresent bin && Qltb (signageQuality bin) 3.

(** The state of the function body: the array and the counter that
    [priority++] reads and advances. *)
Definition push (c : bool) (mk : Z -> QuickWin) (st : list QuickWin * Z)
  : list QuickWin * Z :=
  if c then ((fst st ++ [mk (snd st)])%list, (snd st + 1)%Z) else st.

Definition generateQuickWins (data : WasteAuditData) : list QuickWin :=
  let st := ([], 1%Z) in
  let binInventory :=
    match binInventory_of data with Some l => l | None => [] end in
  let hasRecyclingBins := existsb is_dry_recyclables_bin binInventory in
  let st := push (negb hasRecyclingBins) (fun p =>
    {| id := "add-recycling-bins";
       title := "Add Recycling Bins";
       description := "No recycling bins detected. Adding clearly labelled recycling bins can reduce general waste costs.";
       estimatedCostEuros := 150;
       estimatedSavingsEuros := 500;
       impactLevel := high;
       priority := p;
       category := infrastructure |}) st in
  let poorSignageBins := filter poor_signage binInventory in
  let st := push (0 <? length poorSignageBins)%nat (fun p =>
    {| id := "improve-signage";
       title := "Improve Bin Signage";
       description :=
         (Js.Number_toString (Js.Num (Z.of_nat (length poorSignageBins)))
          ++ " bins have poor signage quality. Clear signage reduces contamination.")%string;
       estimatedCostEuros := 50;
       estimatedSavingsEuros := 200;
       impactLevel := medium;
       priority := p;
       category := infrastructure |}) st in
  let contaminatedStreams :=
    match assessments_of data with
    | Some streams =>
        filter (fun stream => gt (contaminationLevel stream) 3) streams
    | None => []
    end in
  let st := push (0 <? length contaminatedStreams)%nat (fun p =>
    {| id := "contamination-training";
       title := "Staff Waste Training";
       description := "High contamination levels detected. Staff training can reduce collection costs.";
       estimatedCostEuros := 100;
       estimatedSavingsEuros := 400;
       impactLevel := high;
       priority := p;
       category := training |}) st in
  let st :=
    push (negb match behavioralTraining data with
               | Some b => wasteChampionAppointed b
               | None => false
               end) (fun p =>
    {| id := "appoint-champion";
       title := "Appoint Waste Champion";
       description := "Designate a staff member as waste champion to drive improvements.";
       estimatedCostEuros := 0;
       estimatedSavingsEuros := 300;
       impactLevel := medium;
       priority := p;
       category := training |}) st in
  let st :=
    push match organicWasteComposting data with
         | Some o =>
             kitchenPresent o &&
             match compostingSystem o with
             | CompostingSystem_NONE => true
             | _ => false
             end
         | None => false
         end (fun p =>
    {| id := "start-composting";
       title := "Start Composting System";
       description := "Kitchen present but no composting. A simple system could reduce organic waste costs.";
       estimatedCostEuros := 200;
       estimatedSavingsEuros := 600;
       impactLevel := high;
       priority := p;
       category := prevention |}) st in
  firstn 5 (sort_by_priority (fst st)).

(** ** [calculatePreventionScore] *)

Definition measures : list (WastePreventionMeasures -> option ImplementationLevel) :=
  [ procurementPolicy; reusableCupsBottles; waterFountainsRefillStations;
    paperlessCommunication; donationSystem; repairCafe; bulkBuying;
    eliminateSingleUse ].

Definition measure_points (value : option ImplementationLevel) : Q :=
  match value with
  | Some FULL => 4
  | Some PARTIAL => 2
  | Some PLANNED => 1
  | _ => 0
  end.

Definition calculatePreventionScore (prevention : option WastePreventionMeasures)
  : Q :=
  match prevention with
  | None => 0
  | Some p =>
      let score :=
        fold_left (fun score measure => score + measure_points (measure p))
                  measures 0 in
      (score / (inject_Z (Z.of_nat (length measures)) * 4)) * 100
  end.

(** ** [calculateOverallScore] *)

Definition calculateOverallScore (data : WasteAuditData) : Q :=
  let score := 0 in
  let maxScore := 0 in
  (* infrastructure *)
  let binCount :=
    match binInventory_of data with
    | Some l => inject_Z (Z.of_nat (length l))
    | None => 0
    end in
  let recyclingBins :=
    match binInventory_of data with
    | Some l => length (filter is_dry_recyclables_bin l)
    | None => O
    end in
  let score := score + Math_min (binCount * 2) 10 in
  let score := score + (if (0 <? recyclingBins)%nat then 10 else 0) in
  let maxScore := maxScore + 20 in
  (* prevention *)
  let preventionScore :=
    calculatePreventionScore (wastePreventionMeasures data) in
  let score := score + (preventionScore / 100) * 30 in
  let maxScore := maxScore + 30 in
  (* training *)
  let '(score, maxScore) :=
    match behavioralTraining data with
    | Some b =>
        let score :=
          if wasteChampionAppointed b then score + 10 else score in
        let score :=
          if userEducationMaterialsDisplayed b then score + 10 else score in
        let score :=
          match wasteMonitoringRecordsKept b with
          | NEVER => score
          | _ => score + 5
          end in
        (score, maxScore + 25)
    | None => (score, maxScore)
    end in
  (* contamination *)
  let streams :=
    match assessments_of data with Some l => l | None => [] end in
  let '(score, maxScore) :=
    if (0 <? length streams)%nat then
      let avgContamination :=
        fold_left (fun sum s => sum + or_default (contaminationLevel s) 5)
                  streams 0
        / inject_Z (Z.of_nat (length streams)) in
      (score + ((5 - avgContamination) / 4) * 25, maxScore + 25)
    else (score, maxScore) in
  if Qltb 0 maxScore then Math_round ((score / maxScore) * 100) else 0.

(** ** The contract of the engine, in the specification's words *)

(** The bins and the streams of a record, none when the section or its
    list is missing. *)
Definition bins_of (data : WasteAuditData) : list BinInventoryItem :=
  match binInventory_of data with Some l => l | None => [] end.

Definition streams_of (data : WasteAuditData) : list WasteStreamAssessment :=
  match assessments_of data with Some l => l | None => [] end.

(** The five checks of the quick wins. *)
Definition no_dry_recyclables_bin (data : WasteAuditData) : bool :=
  forallb (fun bin => negb (is_dry_recyclables_bin bin)) (bins_of data).

Definition some_poor_signage (data : WasteAuditData) : bool :=
  existsb poor_signage (bins_of data).

Definition some_contaminated_stream (data : WasteAuditData) : bool :=
  existsb (fun stream => gt (contaminationLevel stream) 3) (streams_of data).

Definition no_champion (data : WasteAuditData) : bool :=
  match behavioralTraining data with
  | Some b => negb (wasteChampionAppointed b)
  | None => true
  end.

Definition kitchen_without_composting (data : WasteAuditData) : bool :=
  match organicWasteComposting data with
  | Some o =>
      kitchenPresent o &&
      match compostingSystem o with CompostingSystem_NONE => true | _ => false end
  | None => false
  end.

(** One identifier per check that holds, in the order of declaration. *)
Definition expected_quick_wins (data : WasteAuditData) : list string :=
  map snd
    (filter fst
       [ (no_dry_recyclables_bin data, "add-recycling-bins");
         (some_poor_signage data, "improve-signage");
         (some_contaminated_stream data, "contamination-training");
         (no_champion data, "appoint-champion");
         (kitchen_without_composting data, "start-composting") ]).

(** The sums of the metrics. *)
Definition Qsum (l : list Q) : Q := fold_right Qplus 0 l.

Definition volume (stream : WasteStreamAssessment) : Q :=
  match estimatedWeeklyVolumeLitres stream with Some v => v | None => 0 end.

Definition cost (stream : WasteStreamAssessment) : Q :=
  match annualCostEuros stream with Some c => c | None => 0 end.

Definition total_volume (data : WasteAuditData) : Q :=
  Qsum (map volume (streams_of data)).

Definition recyclable_volume (data : WasteAuditData) : Q :=
  Qsum (map volume (filter is_recyclable_stream (streams_of data))).

Definition total_cost (data : WasteAuditData) : Q :=
  Qsum (map cost (streams_of data)).

Definition round_to_2_decimals (x : Q) : Q := Math_round (x * 100) / 100.

(** Every contamination level that is given lies on the 1-5 scale of
    [WasteStreamAssessment]. *)
Definition contamination_on_scale (data : WasteAuditData) : Prop :=
  forall stream, In stream (streams_of data) ->
    match contaminationLevel stream with
    | Some level => 1 <= level /\ level <= 5
    | None => True
    end.

(** ** Records used as examples *)

Definition record_of_streams (streams : list WasteStreamAssessment)
  : WasteAuditData :=
  {| facilityInfrastructure := None;
     wasteStreamsAssessment := Some {| assessments := Some streams |};
     organicWasteComposting := None;
     wastePreventionMeasures := None;
     behavioralTraining := None |}.

(** One stream: 500 L a week of dry recyclables, contamination level 2,
    1000 euros a year. *)
Definition single_stream : WasteAuditData :=
  record_of_streams
    [ {| wasteStream := WasteStream_DRY_RECYCLABLES;
         estimatedWeeklyVolumeLitres := Some 500;
         contaminationLevel := Some 2;
         annualCostEuros := Some 1000 |} ].

(** A stream entered with a negative volume. *)
Definition negative_volume : WasteAuditData :=
  record_of_streams
    [ {| wasteStream := WasteStream_DRY_RECYCLABLES;
         estimatedWeeklyVolumeLitres := Some (-10);
         contaminationLevel := Some 2;
         annualCostEuros := Some 1000 |} ].


(** A dry-recyclables bin without signage, and a training section in
    which no champion is appointed. *)
Definition recycling_bin_no_champion : WasteAuditData :=
  {| facilityInfrastructure :=
       Some {| binInventory :=
                 Some [ {| binType := BinType_DRY_RECYCLABLES;
                           signagePresent := false;
                           signageQuality := 1 |} ] |};
     wasteStreamsAssessment := None;
     organicWasteComposting := None;
     wastePreventionMeasures := None;
     behavioralTraining :=
       Some {| wasteChampionAppointed := false;
               userEducationMaterialsDisplayed := true;
               wasteMonitoringRecordsKept := MONTHLY |} |}.


End Calculate.

(* ================================================================== *)
(** * Stored states and records used as examples                       *)
(* ================================================================== *)

Module Examples.
Import Js Sqlite Database JsonFragment.

(** One audit is registered and nothing is stored for it. *)
Definition registered : database :=
  {| foreign_keys := true; audits := [1]; waste_data := [];
     waste_data_seq := 0 |}.

(** No audit is registered. *)
Definition unregistered : database :=
  {| foreign_keys := true; audits := []; waste_data := [];
     waste_data_seq := 0 |}.

Definition training : value json :=
  VObj (JObj [("wasteChampionAppointed", JBool true);
              ("userEducationMaterialsDisplayed", JBool false);
              ("wasteMonitoringRecordsKept", JStr "monthly")]).

Definition infrastructure : value json :=
  VObj (JObj [("binInventory",
               JArr [JObj [("binType", JStr "dry_recyclables");
                           ("signagePresent", JBool false);
                           ("signageQuality", JInt 1)]]);
              ("totalBins", JInt 1);
              ("outdoorBinsPresent", JBool false)]).

(** The rows of audit 1, with rowids from 1. *)
Definition stored (entries : list (string * string)) : database :=
  {| foreign_keys := true; audits := [1];
     waste_data :=
       map (fun ie =>
              {| row_id := Z.of_nat (S (fst ie)); audit_id := 1;
                 item_key := fst (snd ie); response := snd (snd ie);
                 notes := "" |})
           (combine (seq 0 (length entries)) entries);
     waste_data_seq := Z.of_nat (length entries) |}.




(** A row a later version of the application might write. *)
Definition foreign_row : row :=
  {| row_id := 1; audit_id := 1; item_key := "auditorSignature";
     response := "J. Murphy"; notes := "" |}.

(** The record the save route passes on: a partial record, then
    [syncStatus] and [lastSaved]. *)
Definition partial_record : object json :=
  [ ("behavioralTraining", training);
    ("completedSections", VNum (Num 1));
    ("isQuickMode", VBool false);
    ("syncStatus", VStr "synced");
    ("lastSaved", VStr "2024-03-01T09:00:00.000Z") ].

(** The record the autosave route passes on. *)
Definition autosave_record : object json :=
  [ ("facilityInfrastructure", infrastructure);
    ("syncStatus", VStr "pending");
    ("lastSaved", VStr "2024-03-01T09:05:00.000Z") ].

End Examples.

(* ================================================================== *)
(** * [src/lib/database.ts], the other operations                      *)
(* ================================================================== *)

Module Operations.
Import Js Sqlite Database.

(** A row of
    [images(id INTEGER PRIMARY KEY AUTOINCREMENT, audit_id INTEGER NOT NULL,
            related_item TEXT, image_path TEXT NOT NULL, uploaded_at TEXT,
            FOREIGN KEY (audit_id) REFERENCES audits(id) ON DELETE CASCADE)]. *)
Record image : Type := {
  image_id : Z;
  image_audit_id : Z;
  related_item : option string;
  image_path : string;
  uploaded_at : string
}.

(** [wasteAuditExists]: [SELECT COUNT( * ) ... WHERE audit_id = ?], then
    [result.count > 0]. *)
Definition wasteAuditExists (db : database) (auditId : Z) : bool :=
  let count :=
    length (filter (fun r => audit_id r =? auditId) (waste_data db)) in
  (0 <? count)%nat.

(** [DELETE FROM images WHERE audit_id = ?] *)
Definition delete_images (images : list image) (auditId : Z) : list image :=
  filter (fun i => negb (image_audit_id i =? auditId)) images.

(** [deleteWasteAudit]: the two DELETE statements in one transaction.
    Neither can violate a constraint, so the function returns [true]. *)
Definition deleteWasteAudit (db : database) (images : list image)
    (auditId : Z) : database * list image * bool :=
  (delete db auditId, delete_images images auditId, true).

Section Writers.

Context {J : Type} {H : Host J}.

(** The row an [if] around an INSERT writes, when its text can be
    computed. *)
Definition optional_entry (c : bool) (text : result string)
    (key note : string) : result (list (string * string * string)) :=
  if c then s <- text ;; Ok [(key, s, note)] else Ok [].

(** All the rows [saveWasteAudit] writes for a record, or the exception
    that [toString] or the binder raises on the way. *)
Definition save_entries (data : object J) (now : string)
  : result (list (string * string * string)) :=
  m1 <- optional_entry (negb (is_undefined (get data "completedSections")))
          (toString (get data "completedSections"))
          "completedSections" "Number of completed sections" ;;
  m2 <- optional_entry (negb (is_undefined (get data "isQuickMode")))
          (toString (get data "isQuickMode"))
          "isQuickMode" "Quick mode flag" ;;
  m3 <- optional_entry (truthy (get data "syncStatus"))
          (bind_text (get data "syncStatus"))
          "syncStatus" "Synchronization status" ;;
  Ok (section_entries data ++ m1 ++ m2 ++ m3
      ++ [("lastSaved", now, "Last saved timestamp")])%list.

End Writers.

End Operations.

(* ================================================================== *)
(** * [src/lib/database.ts], summaries and statistics                  *)
(* ================================================================== *)

Module Listing.
Import Js Sqlite.

(** A row of
    [audits(id INTEGER PRIMARY KEY AUTOINCREMENT, centre_name TEXT NOT NULL,
            audit_date TEXT NOT NULL, auditor_name TEXT NOT NULL,
            created_at TEXT DEFAULT CURRENT_TIMESTAMP)]. *)
Record audit : Type := {
  audits_id : Z;
  centre_name : string;
  audit_date : string;
  auditor_name : string;
  created_at : string
}.

(** [WasteAuditSummary] *)
Record WasteAuditSummary : Type := {
  id : Z;
  auditId : Z;
  centreName : string;
  auditDate : string;
  auditorName : string;
  completedSections : number;
  lastModified : string;
  syncStatus : string
}.

(** A row of the SELECT of [getAllWasteAudits]: the audit and the three
    joined responses, [None] for NULL. *)
Record joined : Type := {
  joined_audit : audit;
  completed_sections : option string;
  sync_status : option string;
  last_modified : option string
}.

(** [LEFT JOIN waste_data wd ON a.id = wd.audit_id AND wd.item_key = key]:
    the responses of the rows that match, or one NULL when none does. *)
Definition left_join (db : database) (a : audit) (key : string)
  : list (option string) :=
  match filter (fun r => (audit_id r =? audits_id a)
                         && String.eqb (item_key r) key) (waste_data db) with
  | [] => [None]
  | rows => map (fun r => Some (response r)) rows
  end.

(** The rows of [waste_data] one LEFT JOIN of the summaries matches. *)
Definition matches (db : database) (a : audit) (key : string) : nat :=
  length (filter (fun r => (audit_id r =? audits_id a)
                           && String.eqb (item_key r) key) (waste_data db)).

(** The rows the three joins produce for one audit. *)
Definition join (db : database) (a : audit) : list joined :=
  flat_map (fun completed =>
    flat_map (fun sync =>
      map (fun saved =>
             {| joined_audit := a;
                completed_sections := completed;
                sync_status := sync;
                last_modified := saved |})
          (left_join db a "lastSaved"))
      (left_join db a "syncStatus"))
    (left_join db a "completedSections").

(** [ORDER BY a.audit_date DESC, a.created_at DESC], text compared byte by
    byte: [x] sorts at or before [y]. *)
Definition sorts_before (x y : joined) : bool :=
  let dx := audit_date (joined_audit x) in
  let dy := audit_date (joined_audit y) in
  String.ltb dy dx
  || (String.eqb dx dy
      && String.leb (created_at (joined_audit y))
                    (created_at (joined_audit x))).

Fixpoint insert_sorted (x : joined) (l : list joined) : list joined :=
  match l with
  | [] => [x]
  | y :: l' => if sorts_before x y then x :: l else y :: insert_sorted x l'
  end.

(** Rows that tie stay in the order of the join; SQLite promises no
    order among them. *)
Definition order_by (l : list joined) : list joined :=
  fold_right insert_sorted [] l.

(** [value || fallback] for a text column. *)
Definition text_or (value : option string) (fallback : string) : string :=
  match value with
  | Some s => if String.eqb s "" then fallback else s
  | None => fallback
  end.

(** The callback of [results.map]. *)
Definition to_summary (row : joined) : WasteAuditSummary :=
  let a := joined_audit row in
  {| id := audits_id a;
     auditId := audits_id a;
     centreName := centre_name a;
     auditDate := audit_date a;
     auditorName := auditor_name a;
     completedSections :=
       match completed_sections row with
       | Some s => if String.eqb s "" then Num 0 else parseInt s
       | None => Num 0
       end;
     lastModified := text_or (last_modified row) (created_at a);
     syncStatus := text_or (sync_status row) "offline" |}.

Definition getAllWasteAudits (audits : list audit) (db : database)
  : list WasteAuditSummary :=
  map to_summary (order_by (flat_map (join db) audits)).

(** The row of an audit each of whose joins matches one row at most: the
    response of the row, or NULL. *)
Definition joined_once (db : database) (a : audit) : joined :=
  {| joined_audit := a;
     completed_sections := hd None (left_join db a "completedSections");
     sync_status := hd None (left_join db a "syncStatus");
     last_modified := hd None (left_join db a "lastSaved") |}.

(** The same query with [WHERE a.centre_name = ?]. *)
Definition getWasteAuditsByCenter (centerName : string)
    (audits : list audit) (db : database) : list WasteAuditSummary :=
  map to_summary
    (order_by
       (flat_map (join db)
          (filter (fun a => String.eqb (centre_name a) centerName) audits))).

(** ** [getWasteAuditStats] *)

(** [CAST(response AS INTEGER)]: leading spaces (TAB, LF, VT, FF, CR and
    SP, no other) are skipped and the longest prefix that reads as a
    decimal integer is taken, within 64 bits; 0 when there is none. *)
Fixpoint skip_spaces (s : string) : string :=
  match s with
  | String c s' => if is_white_space c then skip_spaces s' else s
  | EmptyString => s
  end.

Definition cast_integer (text : string) : Z :=
  let s := skip_spaces text in
  let '(sign, s) :=
    match s with
    | String "-" r => (-1, r)
    | String "+" r => (1, r)
    | _ => (1, s)
    end in
  match parse_digits 10 s None with
  | Some n => Z.max (- 2 ^ 63) (Z.min (2 ^ 63 - 1) (sign * n))
  | None => 0
  end.

(** [COUNT(DISTINCT audit_id)] *)
Definition count_distinct (ids : list Z) : nat :=
  length (nodup Z.eq_dec ids).

(** The rows [WHERE item_key = 'completedSections'] keeps. *)
Definition completedSections_rows (db : database) : list row :=
  filter (fun r => String.eqb (item_key r) "completedSections")
         (waste_data db).

Record WasteAuditStats : Type := {
  totalAudits : nat;
  completedAudits : nat;
  averageCompletion : Q;
  auditsWithPhotos : nat
}.

(** [AVG] is NULL over no row, and [avg_completion || 0] is then 0.
    Over some rows [averageCompletion] is the exact quotient of the sum
    by the number of rows; SQLite returns the double nearest to it, as
    long as the sum is below 2^53 and so exact. *)
Definition getWasteAuditStats (db : database)
    (images : list Operations.image) : WasteAuditStats :=
  {| totalAudits := count_distinct (map audit_id (waste_data db));
     completedAudits :=
       count_distinct
         (map audit_id
            (filter (fun r => cast_integer (response r) =? 6)
                    (completedSections_rows db)));
     averageCompletion :=
       let rows := completedSections_rows db in
       match rows with
       | [] => 0%Q
       | _ :: _ =>
           (inject_Z (fold_right Z.add 0%Z
                        (map (fun r => cast_integer (response r)) rows))
            / inject_Z (Z.of_nat (length rows)))%Q
       end;
     auditsWithPhotos :=
       count_distinct (map Operations.image_audit_id images) |}.

End Listing.

(* ================================================================== *)
(** * What a caller reads from the store                               *)
(* ================================================================== *)

Module Reading.
Import Js Sqlite Database.

Section Properties.

Context {J : Type} {H : Host J}.

(** [(await getWasteAudit(id))?.[section]] *)
Definition read_section (db : database) (id : Z) (section : string)
  : option (value J) :=
  match getWasteAudit db id with
  | Some d => get_section d section
  | None => None
  end.

(** [(await getWasteAudit(id))?.completedSections] and the like. *)
Definition read_completedSections (db : database) (id : Z) : option number :=
  match getWasteAudit db id with
  | Some d => completedSections d
  | None => None
  end.

Definition read_isQuickMode (db : database) (id : Z) : option bool :=
  match getWasteAudit db id with
  | Some d => isQuickMode d
  | None => None
  end.

Definition read_syncStatus (db : database) (id : Z) : option string :=
  match getWasteAudit db id with
  | Some d => syncStatus d
  | None => None
  end.

Definition read_lastSaved (db : database) (id : Z) : option string :=
  match getWasteAudit db id with
  | Some d => lastSaved d
  | None => None
  end.

(** [a ?? b] on what was read. *)
Definition or_else {A : Type} (a b : option A) : option A :=
  match a with
  | Some v => Some v
  | None => b
  end.

End Properties.

End Reading.

(* ================================================================== *)
(** * Tables and records the properties are run on                     *)
(* ================================================================== *)

Module Scenarios.
Import Js Sqlite Database JsonFragment Operations.

(** Audit 1 after the save route stored [Examples.partial_record]. *)
Definition saved : database :=
  fst (saveWasteAudit Examples.registered 1 Examples.partial_record
         "2024-03-01T09:00:01.000Z").

(** Audits 1, 2 and 3 registered; 1 and 2 saved once. *)
Definition two_audits : database :=
  let db := {| foreign_keys := true; audits := [1; 2; 3]; waste_data := [];
               waste_data_seq := 0 |} in
  let db := fst (saveWasteAudit db 1 Examples.partial_record
                   "2024-03-01T09:00:01.000Z") in
  fst (saveWasteAudit db 2 Examples.autosave_record
         "2024-03-02T10:00:01.000Z").

(** The rows of [audits] for them. *)
Definition first_audit : Listing.audit :=
  {| Listing.audits_id := 1;
     Listing.centre_name := "Ballina Family Resource Centre";
     Listing.audit_date := "2024-03-01";
     Listing.auditor_name := "J. Murphy";
     Listing.created_at := "2024-03-01 08:55:00" |}.

Definition second_audit : Listing.audit :=
  {| Listing.audits_id := 2;
     Listing.centre_name := "Westport Community Hall";
     Listing.audit_date := "2024-03-02";
     Listing.auditor_name := "A. Walsh";
     Listing.created_at := "2024-03-02 09:50:00" |}.

Definition third_audit : Listing.audit :=
  {| Listing.audits_id := 3;
     Listing.centre_name := "Ballina Family Resource Centre";
     Listing.audit_date := "2024-03-04";
     Listing.auditor_name := "J. Murphy";
     Listing.created_at := "2024-03-04 11:20:00" |}.

Definition centre_audits : list Listing.audit :=
  [first_audit; second_audit; third_audit].

(** A record with all six sections counted as completed. *)
Definition complete_record : object json :=
  [ ("behavioralTraining", Examples.training);
    ("completedSections", VNum (Num 6));
    ("syncStatus", VStr "synced") ].

(** A record whose counter is [null]. *)
Definition null_counter : object json :=
  [ ("facilityInfrastructure", Examples.infrastructure);
    ("completedSections", VNull) ].

(** One photograph per audit. *)
Definition photos : list image :=
  [ {| image_id := 1; image_audit_id := 1;
       related_item := Some "facilityInfrastructure";
       image_path := "/uploads/audit-1/bins.jpg";
       uploaded_at := "2024-03-01 09:02:00" |};
    {| image_id := 2; image_audit_id := 2;
       related_item := None;
       image_path := "/uploads/audit-2/yard.jpg";
       uploaded_at := "2024-03-02 10:02:00" |} ].

End Scenarios.

(* ================================================================== *)
(** * [calculate/route.ts], alerts, grants, recommendations, [POST]    *)
(* ================================================================== *)

Module Insights.
Import Calculate.

Local Open Scope Q_scope.

Inductive YesNoPlanned : Type :=
| YesNoPlanned_YES | YesNoPlanned_NO | YesNoPlanned_PLANNED.

(** [SpecialWasteItem], of which the engine reads nothing: it only asks
    whether [weeeCollection] is there. *)
Record SpecialWasteItem : Type := {
  status : YesNoPlanned
}.

Record SpecialWasteManagement : Type := {
  weeeCollection : option SpecialWasteItem
}.

(** [body.wasteAuditData]: the sections of [Calculate.WasteAuditData] and
    the one section only the alerts read. *)
Record AuditData : Type := {
  scored : WasteAuditData;
  specialWasteManagement : option SpecialWasteManagement
}.

Definition is_hazardous_stream (stream : WasteStreamAssessment) : bool :=
  match wasteStream stream with WasteStream_HAZARDOUS => true | _ => false end.

(** [data.organicWasteComposting?.compostingSystem === 'none'] *)
Definition composting_is_none (data : WasteAuditData) : bool :=
  match organicWasteComposting data with
  | Some o =>
      match compostingSystem o with CompostingSystem_NONE => true | _ => false end
  | None => false
  end.

(** ** [generateComplianceAlerts] *)

Definition hazardous_alert : string :=
  "Hazardous waste detected but no WEEE collection arrangement documented".

Definition large_facility_alert : string :=
  "Large facility (>1000L/week) should consider organic waste separation".

Definition generateComplianceAlerts (data : AuditData) : list string :=
  let alerts := [] in
  let hasHazardous :=
    match assessments_of (scored data) with
    | Some streams => existsb is_hazardous_stream streams
    | None => false
    end in
  let weee :=
    match specialWasteManagement data with
    | Some s => match weeeCollection s with Some _ => true | None => false end
    | None => false
    end in
  let alerts :=
    if hasHazardous && negb weee then (alerts ++ [hazardous_alert])%list
    else alerts in
  let totalVolume :=
    match assessments_of (scored data) with
    | Some streams =>
        fold_left (fun sum stream =>
                     sum + or_default (estimatedWeeklyVolumeLitres stream) 0)
                  streams 0
    | None => 0
    end in
  let alerts :=
    if Qltb 1000 totalVolume && composting_is_none (scored data)
    then (alerts ++ [large_facility_alert])%list
    else alerts in
  alerts.

(** ** [generateGrantOpportunities] *)

Definition seai_grant : string :=
  "Eligible for SEAI Community Grant - waste prevention measures scoring low".

Definition circular_economy_grant : string :=
  "Circular Economy Programme funding available for repair initiatives".

Definition composting_grant : string :=
  "Community Foundation grants available for composting projects".

Definition generateGrantOpportunities (data : WasteAuditData) : list string :=
  let opportunities := [] in
  let preventionScore :=
    calculatePreventionScore (wastePreventionMeasures data) in
  let opportunities :=
    if Qltb preventionScore 50 then (opportunities ++ [seai_grant])%list
    else opportunities in
  let opportunities :=
    if match wastePreventionMeasures data with
       | Some p =>
           match repairCafe p with
           | Some NOT_IMPLEMENTED => true
           | _ => false
           end
       | None => false
       end
    then (opportunities ++ [circular_economy_grant])%list
    else opportunities in
  let opportunities :=
    if match organicWasteComposting data with
       | Some o =>
           kitchenPresent o &&
           match compostingSystem o with
           | CompostingSystem_NONE => true
           | _ => false
           end
       | None => false
       end
    then (opportunities ++ [composting_grant])%list
    else opportunities in
  opportunities.

(** ** [generateRecommendations] *)

Definition generateRecommendations (data : WasteAuditData) : list string :=
  let overallScore := calculateOverallScore data in
  if Qltb overallScore 40 then
    [ "Priority: Focus on basic infrastructure - ensure adequate bins and signage";
      "Consider appointing a waste champion to drive improvements" ]
  else if Qltb overallScore 70 then
    [ "Good foundation - focus on contamination reduction through training";
      "Implement waste prevention measures to reduce overall volumes" ]
  else
    [ "Excellent waste management - consider sharing best practices with other centers";
      "Explore advanced initiatives like circular economy projects" ].

(** ** [POST] *)

Record CalculateRequest : Type := {
  wasteAuditData : option AuditData;
  userCount : option Q
}.

Record CalculateResponse : Type := {
  calculations : WasteAuditCalculations;
  quickWins : list QuickWin;
  complianceAlerts : list string;
  grantOpportunities : list string;
  overallScore : Q;
  recommendations : list string;
  calculatedAt : string
}.

Inductive reply : Type :=
| Json (status : Z) (response : CalculateResponse)
| Error (status : Z) (error : string).

(** [request] is [None] when the body is not JSON: [request.json()]
    throws and the handler answers 500. *)
Definition POST (request : option CalculateRequest) (now : string) : reply :=
  match request with
  | None => Error 500 "Failed to calculate waste audit metrics"
  | Some body =>
      match wasteAuditData body with
      | None => Error 400 "Waste audit data is required"
      | Some data =>
          Json 200
            {| calculations :=
                 calculateWasteMetrics (scored data)
                   (or_default (userCount body) 100);
               quickWins := generateQuickWins (scored data);
               complianceAlerts := generateComplianceAlerts data;
               grantOpportunities := generateGrantOpportunities (scored data);
               overallScore := calculateOverallScore (scored data);
               recommendations := generateRecommendations (scored data);
               calculatedAt := now |}
      end
  end.

(** ** Records used as examples *)

(** A kitchen without composting, hazardous waste among 1200 L a week,
    bins without a dry-recyclables one, and a WEEE arrangement whose
    status is no. *)
Definition community_kitchen : AuditData :=
  {| scored :=
       {| facilityInfrastructure :=
            Some {| binInventory :=
                      Some [ {| binType := BinType_GENERAL_WASTE;
                                signagePresent := true;
                                signageQuality := 2 |} ] |};
          wasteStreamsAssessment :=
            Some {| assessments :=
                      Some [ {| wasteStream := WasteStream_GENERAL;
                                estimatedWeeklyVolumeLitres := Some 1100;
                                contaminationLevel := Some 4;
                                annualCostEuros := Some 2400 |};
                             {| wasteStream := WasteStream_HAZARDOUS;
                                estimatedWeeklyVolumeLitres := Some 100;
                                contaminationLevel := Some 1;
                                annualCostEuros := None |} ] |};
          organicWasteComposting :=
            Some {| kitchenPresent := true;
                    compostingSystem := CompostingSystem_NONE |};
          wastePreventionMeasures := None;
          behavioralTraining := None |};
     specialWasteManagement :=
       Some {| weeeCollection := Some {| status := YesNoPlanned_NO |} |} |}.

(** All eight prevention measures fully in place. *)
Definition all_measures_full : WastePreventionMeasures :=
  {| procurementPolicy := Some FULL; reusableCupsBottles := Some FULL;
     waterFountainsRefillStations := Some FULL;
     paperlessCommunication := Some FULL; donationSystem := Some FULL;
     repairCafe := Some FULL; bulkBuying := Some FULL;
     eliminateSingleUse := Some FULL |}.

End Insights.

(* ================================================================== *)
(** * [save/route.ts], the validation                                  *)
(* ================================================================== *)

Module Validation.

Local Open Scope Q_scope.

(** The quantities of [OrganicWasteComposting]. *)
Record OrganicWasteComposting : Type := {
  foodWasteVolumeKgPerWeek : option Q;
  compostingCapacityLitres : option Q
}.

(** [body.wasteAuditData] as the validation reads it: three sections,
    and of the third the two quantities. *)
Record WasteAuditData : Type := {
  facilityInfrastructure : option Calculate.FacilityWasteInfrastructure;
  wasteStreamsAssessment : option Calculate.WasteStreamsAssessment;
  organicWasteComposting : option OrganicWasteComposting
}.

(** [x < c] for a property that may be [undefined]. *)
Definition lt (x : option Q) (c : Q) : bool :=
  match x with Some q => Calculate.Qltb q c | None => false end.

(** [x && x < 0] *)
Definition negative (x : option Q) : bool :=
  match x with
  | Some q => Calculate.nonzero q && Calculate.Qltb q 0
  | None => false
  end.

Definition stream_label (index : nat) : string :=
  ("Waste stream " ++ Js.Number_toString (Js.Num (Z.of_nat index + 1)))%string.

(** The body of the [forEach] over the assessments. *)
Definition stream_errors (index : nat)
    (stream : Calculate.WasteStreamAssessment) : list string :=
  ((if lt (Calculate.estimatedWeeklyVolumeLitres stream) 0
    then [(stream_label index ++ ": Volume cannot be negative")%string]
    else [])
   ++ (if lt (Calculate.contaminationLevel stream) 1
          || Calculate.gt (Calculate.contaminationLevel stream) 5
       then [(stream_label index
              ++ ": Contamination level must be between 1 and 5")%string]
       else [])
   ++ (if negative (Calculate.annualCostEuros stream)
       then [(stream_label index ++ ": Annual cost cannot be negative")%string]
       else []))%list.

Fixpoint streams_errors (index : nat)
    (streams : list Calculate.WasteStreamAssessment) : list string :=
  match streams with
  | [] => []
  | stream :: streams' =>
      (stream_errors index stream ++ streams_errors (S index) streams')%list
  end.

(** Lines 41 to 79 of the route: the array [validationErrors]. *)
Definition validationErrors (data : WasteAuditData) (isAutoSave : bool)
  : list string :=
  ((match facilityInfrastructure data with
    | Some infrastructure =>
        match Calculate.binInventory infrastructure with
        | Some bins =>
            if (length bins =? 0)%nat && negb isAutoSave
            then ["At least one bin must be documented in facility infrastructure"]
            else []
        | None => []
        end
    | None => []
    end)
   ++ (match wasteStreamsAssessment data with
       | Some assessment =>
           match Calculate.assessments assessment with
           | Some streams => streams_errors 0 streams
           | None => []
           end
       | None => []
       end)
   ++ (match organicWasteComposting data with
       | Some organic =>
           ((if negative (foodWasteVolumeKgPerWeek organic)
             then ["Food waste volume cannot be negative"] else [])
            ++ (if negative (compostingCapacityLitres organic)
                then ["Composting capacity cannot be negative"] else []))%list
       | None => []
       end))%list.

(** The validation lets the request through. *)
Definition accepted (data : WasteAuditData) (isAutoSave : bool) : bool :=
  negb ((0 <? length (validationErrors data isAutoSave))%nat
        && negb isAutoSave).

End Validation.

(* ================================================================== *)
(** * The route handlers over the store                                *)
(* ================================================================== *)

Module Routes.
Import Js Sqlite Operations.

(** The body of a reply that carries an error or a message only. *)
Record Message : Type := {
  message_status : Z;
  message_text : string
}.

Section Handlers.

Context {J : Type} {H : Host J}.

(** [body.wasteAuditData] read as the types declare it, for the
    validation of the save route. *)
Context (checked : object J -> Validation.WasteAuditData).

(** [{ ...o, key: v }]: the property is replaced where it is, or added
    after the others. *)
Fixpoint set (o : object J) (key : string) (v : value J) : object J :=
  match o with
  | [] => [(key, v)]
  | (k, w) :: o' =>
      if String.eqb k key then (k, v) :: o' else (k, w) :: set o' key v
  end.

(** [SaveWasteAuditRequest]: [auditId] and [wasteAuditData] are [None]
    when the body has none, [isAutoSave] is [false] then. *)
Record SaveWasteAuditRequest : Type := {
  auditId : option Z;
  wasteAuditData : option (object J);
  isAutoSave : bool
}.

(** ** [POST /api/waste-audit/save]

    [body] is [None] when the request is not JSON; [route_now] and
    [store_now] are the times the route and the store read. *)
Definition save_POST (db : database) (body : option SaveWasteAuditRequest)
    (route_now store_now : string)
  : database * (Z * Database.SaveWasteAuditResponse) :=
  let refuse status errors :=
    (db, (status, {| Database.success := false;
                     Database.wasteAuditId := None;
                     Database.validationErrors := Some errors |})) in
  match body with
  | None => refuse 500 ["Internal server error occurred while saving audit"]
  | Some body =>
      match auditId body with
      | None | Some 0 => refuse 400 ["Audit ID is required"]
      | Some id =>
          match wasteAuditData body with
          | None => refuse 400 ["Waste audit data is required"]
          | Some data =>
              let validationErrors :=
                Validation.validationErrors (checked data) (isAutoSave body) in
              if (0 <? length validationErrors)%nat && negb (isAutoSave body)
              then refuse 400 validationErrors
              else
                let dataToSave :=
                  set (set data "syncStatus" (VStr "synced"))
                      "lastSaved" (VStr route_now) in
                let saveResult :=
                  Database.saveWasteAudit db id dataToSave store_now in
                if negb (Database.success (snd saveResult))
                then (fst saveResult, (500, snd saveResult))
                else
                  (fst saveResult,
                   (200, {| Database.success := true;
                            Database.wasteAuditId := Some id;
                            Database.validationErrors :=
                              if (0 <? length validationErrors)%nat
                              then Some validationErrors else None |}))
          end
      end
  end.

(** ** [POST /api/waste-audit/autosave] *)

Record AutosaveResponse : Type := {
  autosave_success : bool;
  autosave_error : option string;
  autosave_timestamp : option string;
  autosave_message : option string
}.

Definition autosave_failure (error : string) : AutosaveResponse :=
  {| autosave_success := false; autosave_error := Some error;
     autosave_timestamp := None; autosave_message := None |}.

(** [reply_now] is the time read for the reply. *)
Definition autosave_POST (db : database)
    (body : option SaveWasteAuditRequest)
    (route_now store_now reply_now : string)
  : database * (Z * AutosaveResponse) :=
  match body with
  | None =>
      (db, (200, autosave_failure "Auto-save failed, data stored locally"))
  | Some body =>
      match auditId body with
      | None | Some 0 => (db, (400, autosave_failure "Audit ID is required"))
      | Some id =>
          match wasteAuditData body with
          | None =>
              (db, (400, autosave_failure "Waste audit data is required"))
          | Some data =>
              let dataToSave :=
                set (set data "syncStatus" (VStr "pending"))
                    "lastSaved" (VStr route_now) in
              let updateResult :=
                Database.updateWasteAudit db id dataToSave store_now in
              if negb (snd updateResult)
              then (fst updateResult,
                    (500, autosave_failure
                            "Failed to auto-save waste audit data"))
              else
                (fst updateResult,
                 (200, {| autosave_success := true;
                          autosave_error := None;
                          autosave_timestamp := Some reply_now;
                          autosave_message := Some "Auto-save completed" |}))
          end
      end
  end.

(** ** [GET] and [DELETE /api/waste-audit/[id]] *)

Inductive found : Type :=
| Audit (wasteAudit : Database.WasteAuditData J)
| Failure (error : string).

Definition id_GET (db : database) (id : string) : Z * found :=
  match parseInt id with
  | NaN => (400, Failure "Invalid audit ID format")
  | Num auditId =>
      match Database.getWasteAudit db auditId with
      | None => (404, Failure "Waste audit not found")
      | Some wasteAudit => (200, Audit wasteAudit)
      end
  end.

Definition id_DELETE (db : database) (images : list image) (id : string)
  : database * list image * Message :=
  match parseInt id with
  | NaN =>
      (db, images, {| message_status := 400;
                      message_text := "Invalid audit ID format" |})
  | Num auditId =>
      match Database.getWasteAudit db auditId with
      | None =>
          (db, images, {| message_status := 404;
                          message_text := "Waste audit not found" |})
      | Some _ =>
          let '(db', images', deleteResult) :=
            deleteWasteAudit db images auditId in
          if negb deleteResult
          then (db', images', {| message_status := 500;
                                 message_text :=
                                   "Failed to delete waste audit" |})
          else (db', images', {| message_status := 200;
                                 message_text :=
                                   "Waste audit deleted successfully" |})
      end
  end.

End Handlers.

(** The record of [Insights.community_kitchen] as the validation of the
    save route reads it. *)
Definition checked_kitchen : Validation.WasteAuditData :=
  {| Validation.facilityInfrastructure :=
       Calculate.facilityInfrastructure
         (Insights.scored Insights.community_kitchen);
     Validation.wasteStreamsAssessment :=
       Calculate.wasteStreamsAssessment
         (Insights.scored Insights.community_kitchen);
     Validation.organicWasteComposting :=
       Some {| Validation.foodWasteVolumeKgPerWeek := Some (12 # 1);
               Validation.compostingCapacityLitres := None |} |}.

(** A record with a stream of negative volume. *)
Definition checked_negative : Validation.WasteAuditData :=
  {| Validation.facilityInfrastructure := None;
     Validation.wasteStreamsAssessment :=
       Calculate.wasteStreamsAssessment Calculate.negative_volume;
     Validation.organicWasteComposting := None |}.

End Routes.

(* ================================================================== *)
(** * [calculate/route.ts] in binary64                                 *)
(* ================================================================== *)

(** [calculateWasteMetrics] and [generateComplianceAlerts] once more, on
    the numbers JavaScript computes with: every sum, product, quotient
    and comparison is the IEEE 754 binary64 one, NaN, the infinities and
    the two zeros included. *)
Module Binary64.
Import Floats.

Local Open Scope bool_scope.
Local Open Scope float_scope.

Record WasteStreamAssessment : Type := {
  wasteStream : Calculate.WasteStream;
  estimatedWeeklyVolumeLitres : option float;
  contaminationLevel : option float;
  annualCostEuros : option float
}.

Record WasteStreamsAssessment : Type := {
  assessments : option (list WasteStreamAssessment)
}.

(** [Partial<WasteAuditData>] as the two functions see it. *)
Record WasteAuditData : Type := {
  wasteStreamsAssessment : option WasteStreamsAssessment;
  organicWasteComposting : option Calculate.OrganicWasteComposting;
  specialWasteManagement : option Insights.SpecialWasteManagement
}.

Record WasteAuditCalculations : Type := {
  estimatedAnnualWasteCost : float;
  potentialSavingsFromContaminationReduction : float;
  recyclingRateEstimate : float;
  weeklyWastePerUser : float;
  carbonFootprintEstimate : float
}.

(** ** Operators *)

Definition is_nan (x : float) : bool := negb (x =? x).

(** A number is truthy unless it is 0, -0 or NaN. *)
Definition truthy (x : float) : bool := negb (is_nan x) && negb (x =? 0).

(** [x || c] for a numeric property. *)
Definition or_default (x : option float) (c : float) : float :=
  match x with
  | Some q => if truthy q then q else c
  | None => c
  end.

(** [x > c] for a property that may be [undefined]; [undefined] converts
    to NaN, and no comparison with NaN holds. *)
Definition gt (x : option float) (c : float) : bool :=
  match x with Some q => c <? q | None => false end.

(** [Math.round]: the nearest integer, a tie going up; NaN, the
    infinities and the numbers from 2^52 on, integers all, are returned
    as they are, and so is -0; a number between -0.5 and 0 gives -0.
    Below 2^52 adding and subtracting 2^52 rounds to an integer next to
    [x], from which the floor, or the ceiling of [-x], is one step at
    most; the differences to them are exact. *)
Definition Math_round (x : float) : float :=
  if is_nan x then x
  else if 0x1p52 <=? abs x then x
  else if (0 <? x) || (match classify x with PZero => true | _ => false end)
  then
    let n := (x + 0x1p52) - 0x1p52 in
    let floor := if x <? n then n - 1 else n in
    if 0.5 <=? x - floor then floor + 1 else floor
  else
    let y := - x in
    let n := (y + 0x1p52) - 0x1p52 in
    let ceil := if n <? y then n + 1 else n in
    if 0.5 <=? ceil - y then - (ceil - 1) else - ceil.

(** [stream.wasteStream === 'dry_recyclables' || stream.wasteStream === 'organic'] *)
Definition is_recyclable_stream (stream : WasteStreamAssessment) : bool :=
  match wasteStream stream with
  | Calculate.WasteStream_DRY_RECYCLABLES | Calculate.WasteStream_ORGANIC =>
      true
  | _ => false
  end.

(** ** [calculateWasteMetrics] *)

(** The four variables the [forEach] over the assessments updates; the
    counter of [contaminationIssues++] is an integer. *)
Record totals : Type := {
  totalAnnualCost : float;
  totalWeeklyVolume : float;
  recyclableVolume : float;
  contaminationIssues : Z
}.

Definition metrics_step (t : totals) (stream : WasteStreamAssessment)
  : totals :=
  {| totalAnnualCost :=
       match annualCostEuros stream with
       | Some c => if truthy c then totalAnnualCost t + c
                   else totalAnnualCost t
       | None => totalAnnualCost t
       end;
     totalWeeklyVolume :=
       totalWeeklyVolume t + or_default (estimatedWeeklyVolumeLitres stream) 0;
     recyclableVolume :=
       if is_recyclable_stream stream
       then recyclableVolume t
            + or_default (estimatedWeeklyVolumeLitres stream) 0
       else recyclableVolume t;
     contaminationIssues :=
       if gt (contaminationLevel stream) 3
       then (contaminationIssues t + 1)%Z
       else contaminationIssues t |}.

(** [data.wasteStreamsAssessment?.assessments] *)
Definition assessments_of (data : WasteAuditData)
  : option (list WasteStreamAssessment) :=
  match wasteStreamsAssessment data with
  | Some w => assessments w
  | None => None
  end.

(** The double of the literal [0.15]. *)
Definition fifteen_percent : float := 0x1.3333333333333p-3.

Definition calculateWasteMetrics (data : WasteAuditData) (userCount : float)
  : WasteAuditCalculations :=
  let t0 := {| totalAnnualCost := 0; totalWeeklyVolume := 0;
               recyclableVolume := 0; contaminationIssues := 0 |} in
  let t :=
    match assessments_of data with
    | Some streams => fold_left metrics_step streams t0
    | None => t0
    end in
  let recyclingRate :=
    if 0 <? totalWeeklyVolume t
    then (recyclableVolume t / totalWeeklyVolume t) * 100
    else 0 in
  let potentialSavings :=
    if (0 <? contaminationIssues t)%Z
    then totalAnnualCost t * fifteen_percent
    else 0 in
  let weeklyWastePerUser :=
    if 0 <? userCount
    then (totalWeeklyVolume t * 0.5) / userCount
    else 0 in
  let carbonFootprint := (totalWeeklyVolume t * 0.5 * 52) * 0.5 in
  {| estimatedAnnualWasteCost := totalAnnualCost t;
     potentialSavingsFromContaminationReduction := potentialSavings;
     recyclingRateEstimate := Math_round (recyclingRate * 100) / 100;
     weeklyWastePerUser := Math_round (weeklyWastePerUser * 100) / 100;
     carbonFootprintEstimate := Math_round carbonFootprint |}.

(** ** [generateComplianceAlerts] *)

Definition is_hazardous_stream (stream : WasteStreamAssessment) : bool :=
  match wasteStream stream with
  | Calculate.WasteStream_HAZARDOUS => true
  | _ => false
  end.

(** [data.organicWasteComposting?.compostingSystem === 'none'] *)
Definition composting_is_none (data : WasteAuditData) : bool :=
  match organicWasteComposting data with
  | Some o =>
      match Calculate.compostingSystem o with
      | Calculate.CompostingSystem_NONE => true
      | _ => false
      end
  | None => false
  end.

Definition generateComplianceAlerts (data : WasteAuditData) : list string :=
  let alerts := [] in
  let hasHazardous :=
    match assessments_of data with
    | Some streams => existsb is_hazardous_stream streams
    | None => false
    end in
  let weee :=
    match specialWasteManagement data with
    | Some s =>
        match Insights.weeeCollection s with Some _ => true | None => false end
    | None => false
    end in
  let alerts :=
    if hasHazardous && negb weee
    then (alerts ++ [Insights.hazardous_alert])%list
    else alerts in
  let totalVolume :=
    match assessments_of data with
    | Some streams =>
        let sum :=
          fold_left (fun sum stream =>
                       sum + or_default (estimatedWeeklyVolumeLitres stream) 0)
                    streams 0 in
        if truthy sum then sum else 0
    | None => 0
    end in
  let alerts :=
    if (1000 <? totalVolume) && composting_is_none data
    then (alerts ++ [Insights.large_facility_alert])%list
    else alerts in
  alerts.

(** ** The quantities the specification names *)

Definition streams_of (data : WasteAuditData) : list WasteStreamAssessment :=
  match assessments_of data with Some l => l | None => [] end.

(** The sum of the numbers in their order, from 0. *)
Definition sum (l : list float) : float := fold_left add l 0.

(** The weekly volume of a stream, 0 for one that gives none. *)
Definition volume (stream : WasteStreamAssessment) : float :=
  or_default (estimatedWeeklyVolumeLitres stream) 0.

(** The streams that give an annual cost. *)
Definition has_cost (stream : WasteStreamAssessment) : bool :=
  match annualCostEuros stream with Some c => truthy c | None => false end.

Definition cost (stream : WasteStreamAssessment) : float :=
  match annualCostEuros stream with Some c => c | None => 0 end.

Definition total_volume (data : WasteAuditData) : float :=
  sum (map volume (streams_of data)).

Definition recyclable_volume (data : WasteAuditData) : float :=
  sum (map volume (filter is_recyclable_stream (streams_of data))).

Definition total_cost (data : WasteAuditData) : float :=
  sum (map cost (filter has_cost (streams_of data))).

Definition some_contaminated_stream (data : WasteAuditData) : bool :=
  existsb (fun stream => gt (contaminationLevel stream) 3) (streams_of data).

Definition round_to_2_decimals (x : float) : float :=
  Math_round (x * 100) / 100.

(** ** Records used as examples *)

Definition record_of_streams (streams : list WasteStreamAssessment)
    (composting : option Calculate.CompostingSystem) : WasteAuditData :=
  {| wasteStreamsAssessment := Some {| assessments := Some streams |};
     organicWasteComposting :=
       option_map (fun system =>
                     {| Calculate.kitchenPresent := true;
                        Calculate.compostingSystem := system |})
                  composting;
     specialWasteManagement := None |}.

(** The scenario of the specification: 500 L of dry recyclables a week,
    contamination 2, 1000 euros a year. *)
Definition single_stream : WasteAuditData :=
  record_of_streams
    [ {| wasteStream := Calculate.WasteStream_DRY_RECYCLABLES;
         estimatedWeeklyVolumeLitres := Some 500;
         contaminationLevel := Some 2;
         annualCostEuros := Some 1000 |} ] None.

(** 23 L of contaminated dry recyclables at 3 euros a year and 137 L of
    general waste. *)
Definition two_streams : WasteAuditData :=
  record_of_streams
    [ {| wasteStream := Calculate.WasteStream_DRY_RECYCLABLES;
         estimatedWeeklyVolumeLitres := Some 23;
         contaminationLevel := Some 4;
         annualCostEuros := Some 3 |};
      {| wasteStream := Calculate.WasteStream_GENERAL;
         estimatedWeeklyVolumeLitres := Some 137;
         contaminationLevel := Some 2;
         annualCostEuros := None |} ] None.

(** A stream entered with a negative volume. *)
Definition negative_volume : WasteAuditData :=
  record_of_streams
    [ {| wasteStream := Calculate.WasteStream_DRY_RECYCLABLES;
         estimatedWeeklyVolumeLitres := Some (-10);
         contaminationLevel := Some 2;
         annualCostEuros := Some 1000 |} ] None.

(** Two recyclable streams whose volumes add up to more than a double
    holds. *)
Definition overflowing : WasteAuditData :=
  record_of_streams
    [ {| wasteStream := Calculate.WasteStream_ORGANIC;
         estimatedWeeklyVolumeLitres := Some 0x1p1023;
         contaminationLevel := None;
         annualCostEuros := None |};
      {| wasteStream := Calculate.WasteStream_ORGANIC;
         estimatedWeeklyVolumeLitres := Some 0x1p1023;
         contaminationLevel := None;
         annualCostEuros := None |} ] None.

(** 1000 L of general waste and a trace, without composting: the trace
    is lost in the sum. *)
Definition just_not_large : WasteAuditData :=
  record_of_streams
    [ {| wasteStream := Calculate.WasteStream_GENERAL;
         estimatedWeeklyVolumeLitres := Some 1000;
         contaminationLevel := None;
         annualCostEuros := None |};
      {| wasteStream := Calculate.WasteStream_GENERAL;
         estimatedWeeklyVolumeLitres := Some 0x1p-70;
         contaminationLevel := None;
         annualCostEuros := None |} ]
    (Some Calculate.CompostingSystem_NONE).

(** A hazardous stream and 1200 L of general waste, without composting
    and without a collection of electrical waste. *)
Definition large_and_hazardous : WasteAuditData :=
  record_of_streams
    [ {| wasteStream := Calculate.WasteStream_HAZARDOUS;
         estimatedWeeklyVolumeLitres := None;
         contaminationLevel := None;
         annualCostEuros := None |};
      {| wasteStream := Calculate.WasteStream_GENERAL;
         estimatedWeeklyVolumeLitres := Some 1200;
         contaminationLevel := None;
         annualCostEuros := None |} ]
    (Some Calculate.CompostingSystem_NONE).

End Binary64.

(* ================================================================== *)
(** * Facts about numbers and their text                               *)
(* ================================================================== *)

Module JsFacts.
Import Js.

(** One step of [parse_digits] on the character of a decimal digit. *)
Ltac read_digit :=
  cbn [NilEmpty.string_of_uint parse_digits Pos.of_uint_acc Pos.of_uint];
  match goal with
  | |- context [digit_value ?c] =>
      let v := eval vm_compute in (digit_value c) in
      change (digit_value c) with v
  end;
  cbv iota beta;
  match goal with
  | |- context [?k <? 10] => change (k <? 10) with true
  end;
  cbv iota beta.

Lemma parse_digits_pos (d : Decimal.uint) (p : positive) :
  parse_digits 10 (NilEmpty.string_of_uint d) (Some (Z.pos p))
  = Some (Z.pos (Pos.of_uint_acc d p)).
Proof.
  revert p. induction d; intros p; [reflexivity | ..];
    read_digit; rewrite <- IHd; do 2 f_equal; lia.
Qed.

Lemma parse_digits_zero (d : Decimal.uint) :
  parse_digits 10 (NilEmpty.string_of_uint d) (Some 0)
  = Some (Z.of_N (Pos.of_uint d)).
Proof.
  induction d; [reflexivity | ..]; read_digit;
    first [ exact IHd | apply parse_digits_pos ].
Qed.

Lemma parse_digits_uint (d : Decimal.uint) :
  d <> Decimal.Nil ->
  parse_digits 10 (NilEmpty.string_of_uint d) None
  = Some (Z.of_N (Pos.of_uint d)).
Proof.
  destruct d; intros Hd; [congruence | ..]; read_digit;
    first [ apply parse_digits_zero | apply parse_digits_pos ].
Qed.

(** Nothing is trimmed from a text that starts with a sign or a digit. *)
Lemma trim_start_digit (c : ascii) (r : string) :
  (is_white_space c || is_lead_byte c = false)%bool ->
  trim_start (String c r) = String c r.
Proof.
  intros H. apply orb_false_elim in H. destruct H as [Hw Hl].
  cbn [trim_start]. rewrite Hw, Hl. reflexivity.
Qed.

(** The digits of a numeral are read back as decimal: they start with no
    white space, no sign and no [0x]. *)
Lemma parseInt_uint (d : Decimal.uint) :
  d <> Decimal.Nil ->
  parseInt (NilEmpty.string_of_uint d) = Num (Z.of_N (Pos.of_uint d))
  /\ parseInt (String "-" (NilEmpty.string_of_uint d))
     = Num (- Z.of_N (Pos.of_uint d)).
Proof.
  intros Hd. pose proof (parse_digits_uint d Hd) as Hp.
  assert (Hsign : forall n, 1 * Z.of_N n = Z.of_N n
                            /\ -1 * Z.of_N n = - Z.of_N n) by (intros; lia).
  destruct d as [|d|d|d|d|d|d|d|d|d|d]; [congruence | destruct d | ..];
    split; unfold parseInt; cbn [NilEmpty.string_of_uint] in *;
    rewrite trim_start_digit by reflexivity;
    cbn -[parse_digits Z.mul Z.opp Z.of_N Pos.of_uint];
    rewrite Hp; f_equal; apply Hsign.
Qed.



(** White space, a no-break space included, and a sign are read past. *)
Lemma parseInt_reads_past_white_space :
  parseInt " 12" = Num 12
  /\ parseInt "-7" = Num (-7)
  /\ parseInt "+7" = Num 7
  /\ parseInt (String "194" (String "160" "42")) = Num 42
  /\ non_numeric (String "194" (String "160" "42")) = false.
Proof. repeat split. Qed.

(** An integer printed by [toString] is read back by [parseInt]. *)
Lemma parseInt_toString (z : Z) : parseInt (Number_toString (Num z)) = Num z.
Proof.
  unfold Number_toString, NilZero.string_of_int, NilZero.string_of_uint.
  destruct z as [|p|p]; cbn [Z.to_int].
  - reflexivity.
  - pose proof (DecimalPos.Unsigned.to_uint_nonnil p) as Hnn.
    destruct (parseInt_uint (Pos.to_uint p) Hnn) as [Hpos _].
    rewrite DecimalPos.Unsigned.of_to in Hpos.
    destruct (Pos.to_uint p); try congruence; exact Hpos.
  - pose proof (DecimalPos.Unsigned.to_uint_nonnil p) as Hnn.
    destruct (parseInt_uint (Pos.to_uint p) Hnn) as [_ Hneg].
    rewrite DecimalPos.Unsigned.of_to in Hneg.
    destruct (Pos.to_uint p); try congruence; exact Hneg.
Qed.

End JsFacts.

(* ================================================================== *)
(** * Facts about the table                                            *)
(* ================================================================== *)

Module SqliteFacts.
Import Js Sqlite.
Local Open Scope list_scope.

Lemma max_rowid_ge (rows : list row) (r : row) :
  In r rows -> row_id r <= max_rowid rows.
Proof.
  induction rows as [|r' rows IH]; simpl; intros HIn.
  - contradiction.
  - destruct HIn as [-> | HIn]; [lia | specialize (IH HIn); lia].
Qed.

Lemma next_rowid_fresh (db : database) (r : row) :
  In r (waste_data db) -> (row_id r =? next_rowid db) = false.
Proof.
  intros HIn. apply max_rowid_ge in HIn. unfold next_rowid.
  apply Z.eqb_neq. lia.
Qed.

Lemma filter_no_conflict (db : database) :
  filter (fun r => negb (row_id r =? next_rowid db)) (waste_data db)
  = waste_data db.
Proof.
  pose proof (next_rowid_fresh db) as Hfresh.
  induction (waste_data db) as [|r rows IH]; simpl; [reflexivity|].
  rewrite Hfresh by (left; reflexivity). simpl.
  f_equal. apply IH. intros r' Hr'. apply Hfresh. right; exact Hr'.
Qed.

Lemma existsb_no_conflict (db : database) :
  existsb (fun r => row_id r =? next_rowid db) (waste_data db) = false.
Proof.
  pose proof (next_rowid_fresh db) as Hfresh.
  induction (waste_data db) as [|r rows IH]; simpl; [reflexivity|].
  rewrite Hfresh by (left; reflexivity). simpl.
  apply IH. intros r' Hr'. apply Hfresh. right; exact Hr'.
Qed.

(** The rowid of a new row is fresh, so no INSERT finds a conflict: with
    or without [OR REPLACE] it appends. *)
Lemma insert_ok (or_replace : bool) (db : database) (auditId : Z)
    (key resp note : string) :
  foreign_key_ok db auditId = true ->
  insert or_replace db auditId key resp note
  = Ok (append_row db auditId (key, resp, note)).
Proof.
  intros Hfk. unfold insert, append_row. rewrite Hfk.
  destruct or_replace.
  - rewrite filter_no_conflict. reflexivity.
  - rewrite existsb_no_conflict. reflexivity.
Qed.

Lemma insert_foreign_key (or_replace : bool) (db : database) (auditId : Z)
    (key resp note : string) :
  foreign_key_ok db auditId = false ->
  insert or_replace db auditId key resp note
  = Throw "FOREIGN KEY constraint failed".
Proof. intros Hfk. unfold insert. rewrite Hfk. reflexivity. Qed.

Lemma foreign_key_ok_append_row db auditId e a :
  foreign_key_ok (append_row db auditId e) a = foreign_key_ok db a.
Proof. destruct e as [[k r] n]. reflexivity. Qed.

Lemma foreign_key_ok_append_rows db auditId es a :
  foreign_key_ok (append_rows db auditId es) a = foreign_key_ok db a.
Proof.
  unfold append_rows. revert db.
  induction es as [|e es IH]; intros db; simpl; [reflexivity|].
  rewrite IH. apply foreign_key_ok_append_row.
Qed.

Lemma foreign_key_ok_delete db auditId a :
  foreign_key_ok (delete db auditId) a = foreign_key_ok db a.
Proof. reflexivity. Qed.

Lemma select_append_row db auditId e :
  select (append_row db auditId e) auditId
  = select db auditId ++ [entry_of e].
Proof.
  destruct e as [[k r] n]. unfold select, append_row, entry_of. simpl.
  rewrite filter_app, map_app. simpl. rewrite Z.eqb_refl. reflexivity.
Qed.

Lemma select_append_rows db auditId es :
  select (append_rows db auditId es) auditId
  = select db auditId ++ map entry_of es.
Proof.
  unfold append_rows. revert db.
  induction es as [|e es IH]; intros db; simpl.
  - rewrite app_nil_r. reflexivity.
  - rewrite IH, select_append_row, <- app_assoc. reflexivity.
Qed.

Lemma append_rows_app db auditId es es' :
  append_rows db auditId (es ++ es')
  = append_rows (append_rows db auditId es) auditId es'.
Proof. unfold append_rows. apply fold_left_app. Qed.

Lemma select_delete db auditId : select (delete db auditId) auditId = [].
Proof.
  unfold select, delete. simpl.
  induction (waste_data db) as [|r rows IH]; simpl; [reflexivity|].
  destruct (audit_id r =? auditId) eqn:E; simpl; [exact IH|].
  rewrite E. exact IH.
Qed.

End SqliteFacts.

(* ================================================================== *)
(** * Facts about the store                                            *)
(* ================================================================== *)

Module DatabaseFacts.
Import Js Sqlite SqliteFacts Database.
Local Open Scope list_scope.

Section Reconstruction.

Context {J : Type} {H : Host J}.

(** ** The loop of [getWasteAudit] *)

Lemma decode_record_fields (d : WasteAuditData J) (record : string * string) :
  decode_record d record = decode_fields d [record].
Proof.
  destruct record as [k r].
  unfold decode_record, decode_fields, last_some, set_section,
    decode_section, decode_completedSections, decode_isQuickMode,
    decode_text, sections.
  cbn [fold_left fst snd existsb].
  repeat match goal with
  | |- context [String.eqb k ?s] =>
      destruct (String.eqb_spec k s) as [->|];
      [ cbn; try destruct (JSON_parse r); destruct d; reflexivity | ]
  end.
  cbn. destruct d; reflexivity.
Qed.

Lemma decode_fields_fold (records : list (string * string))
    (d : WasteAuditData J) :
  fold_left decode_record records d = decode_fields d records.
Proof.
  revert d. induction records as [|r records IH]; intros d.
  - destruct d; reflexivity.
  - simpl. rewrite IH, decode_record_fields. reflexivity.
Qed.

Lemma last_some_app {A : Type} (f : string * string -> option A) l l' init :
  last_some f (l ++ l') init = last_some f l' (last_some f l init).
Proof. apply fold_left_app. Qed.

Lemma last_some_cons {A : Type} (f : string * string -> option A) r l init :
  last_some f (r :: l) init
  = last_some f l (match f r with Some v => Some v | None => init end).
Proof. reflexivity. Qed.

Lemma last_some_init {A : Type} (f : string * string -> option A) l init :
  last_some f l init
  = match last_some f l None with Some v => Some v | None => init end.
Proof.
  revert init. induction l as [|r l IH]; intros init; [reflexivity|].
  rewrite !last_some_cons, IH, (IH (match f r with Some v => _ | None => _ end)).
  destruct (last_some f l None); [reflexivity|].
  destruct (f r); reflexivity.
Qed.

Lemma last_some_none {A : Type} (f : string * string -> option A) l init :
  (forall r, In r l -> f r = None) -> last_some f l init = init.
Proof.
  revert init. induction l as [|r l IH]; intros init Hnone; [reflexivity|].
  rewrite last_some_cons, (Hnone r) by (left; reflexivity).
  apply IH. intros r' Hr'. apply Hnone. right; exact Hr'.
Qed.


Lemma last_some_snoc_none {A : Type} (f : string * string -> option A)
    e r init :
  f r = None -> last_some f (e ++ [r]) init = last_some f e init.
Proof.
  intros Hr. rewrite last_some_app, last_some_cons, Hr. reflexivity.
Qed.

Lemma last_some_idem {A : Type} (f : string * string -> option A) e init :
  last_some f e (last_some f e init) = last_some f e init.
Proof.
  rewrite (last_some_init f e (last_some f e init)), (last_some_init f e init).
  destruct (last_some f e None); reflexivity.
Qed.

(** Writing the same rows a second time changes no property they
    assign. *)
Lemma last_some_repeat {A : Type} (f : string * string -> option A)
    l e l1 l2 init :
  f l1 = None -> f l2 = None ->
  last_some f (l ++ (e ++ [l1]) ++ (e ++ [l2])) init
  = last_some f (l ++ (e ++ [l1])) init.
Proof.
  intros H1 H2.
  rewrite (last_some_app f l), (last_some_app f (e ++ [l1])), (last_some_app f l).
  rewrite !last_some_snoc_none by assumption.
  apply last_some_idem.
Qed.

Lemma last_some_absent {A : Type} (g : string -> option A) name l init :
  ~ In name (map fst l) ->
  last_some (fun r : string * string =>
               if String.eqb (fst r) name then g (snd r) else None) l init
  = init.
Proof.
  intros Habs. apply last_some_none. intros [k r] Hr. simpl.
  destruct (String.eqb_spec k name) as [->|]; [|reflexivity].
  exfalso. apply Habs. apply in_map_iff. exists (name, r). auto.
Qed.

(** A row that decodes to nothing leaves no trace in the record. *)
Lemma decode_record_ignores (d : WasteAuditData J) (k r : string) :
  known_key k = false \/
  (existsb (String.eqb k) sections = true /\ JSON_parse r = None) ->
  decode_record d (k, r) = d.
Proof.
  unfold known_key, decode_record, sections. cbn [existsb app].
  intros [Hk | [Hk Hr]].
  - repeat match goal with
    | _ : context [String.eqb k ?s] |- _ =>
        destruct (String.eqb k s); [discriminate Hk|]
    end.
    reflexivity.
  - cbn [existsb] in Hk. rewrite Hk, Hr. reflexivity.
Qed.

Lemma fold_decode_ignores (pre post : list (string * string))
    (k r : string) (d : WasteAuditData J) :
  known_key k = false \/
  (existsb (String.eqb k) sections = true /\ JSON_parse r = None) ->
  fold_left decode_record (pre ++ (k, r) :: post) d
  = fold_left decode_record (pre ++ post) d.
Proof.
  intros Hign. rewrite !fold_left_app. cbn [fold_left].
  rewrite decode_record_ignores by exact Hign. reflexivity.
Qed.

Lemma get_section_decode_fields (d : WasteAuditData J) records name :
  existsb (String.eqb name) sections = true ->
  get_section (decode_fields d records) name
  = last_some (decode_section name) records (get_section d name).
Proof.
  unfold sections, get_section. cbn [existsb].
  repeat match goal with
  | |- context [String.eqb name ?s] =>
      destruct (String.eqb_spec name s) as [->|]; [reflexivity|]
  end.
  discriminate.
Qed.

Lemma getWasteAudit_nonempty (db : database) (id : Z) :
  select db id <> [] ->
  getWasteAudit db id
  = Some (fold_left decode_record (select db id) (empty_record id)).
Proof.
  unfold getWasteAudit. destruct (select db id); [congruence|reflexivity].
Qed.

(** ** The writers when the audit is registered *)

Lemma updateTransaction_ok (db : database) (id : Z) (updates : object J)
    (now : string) :
  foreign_key_ok db id = true ->
  updateTransaction id updates now db
  = Ok (append_rows db id
          (update_entries updates
           ++ [("lastSaved", now, "Last updated timestamp")]), tt).
Proof.
  intros Hfk. unfold updateTransaction, update_entries.
  assert (Hloop : forall keys db0,
    foreign_key_ok db0 id = true ->
    forEach keys (fun key db =>
        let value := get updates key in
        if negb (is_undefined value) then
          if typeof_object value then
            insert true db id key (JSON_stringify value)
              ("Updated: " ++ key)%string
          else
            s <- toString value ;;
            insert true db id key s ("Updated: " ++ key)%string
        else Ok db) db0
    = Ok (append_rows db0 id
            (flat_map (fun key =>
               if is_undefined (get updates key) then []
               else [(key, update_text (get updates key),
                      ("Updated: " ++ key)%string)]) keys))).
  { induction keys as [|key keys IH]; intros db0 Hfk0; [reflexivity|].
    cbn [forEach flat_map]. rewrite append_rows_app.
    destruct (get updates key) as [| |b|n|s|o];
      cbn [negb is_undefined typeof_object toString bind update_text];
      [ apply IH; exact Hfk0 | | destruct b; cbn [toString bind] | | | ];
      rewrite insert_ok by exact Hfk0; cbn [bind];
      apply IH;
      first [ rewrite foreign_key_ok_append_row
            | rewrite foreign_key_ok_append_rows ]; exact Hfk0. }
  rewrite Hloop by exact Hfk. cbn [bind].
  rewrite insert_ok by (rewrite foreign_key_ok_append_rows; exact Hfk).
  cbn [bind]. rewrite append_rows_app. reflexivity.
Qed.

Lemma updateWasteAudit_ok (db : database) (id : Z) (updates : object J)
    (now : string) :
  foreign_key_ok db id = true ->
  updateWasteAudit db id updates now
  = (append_rows db id
       (update_entries updates
        ++ [("lastSaved", now, "Last updated timestamp")]), true).
Proof.
  intros Hfk. unfold updateWasteAudit, transaction.
  rewrite updateTransaction_ok by exact Hfk. reflexivity.
Qed.

Lemma forEach_sections_ok (db : database) (id : Z) (data : object J) :
  foreign_key_ok db id = true ->
  forEach sections (fun section =>
      when (truthy (get data section))
        (fun db => insert false db id section
                     (JSON_stringify (get data section))
                     ("Waste audit section: " ++ section)%string)) db
  = Ok (append_rows db id (section_entries data)).
Proof.
  unfold section_entries. generalize sections as keys. intros keys. revert db.
  induction keys as [|key keys IH]; intros db Hfk; [reflexivity|].
  cbn [forEach flat_map]. rewrite append_rows_app. unfold when at 1.
  destruct (truthy (get data key)).
  - rewrite insert_ok by exact Hfk. cbn [bind]. apply IH.
    rewrite foreign_key_ok_append_rows. exact Hfk.
  - cbn [bind]. apply IH. exact Hfk.
Qed.

Lemma saveTransaction_ok (db : database) (id : Z) (r : object J)
    (now : string) :
  valid_partial r ->
  foreign_key_ok db id = true ->
  saveTransaction id r now db
  = Ok (append_rows (delete db id) id
          (section_entries r ++ metadata_entries r now),
        {| success := true; wasteAuditId := Some id;
           validationErrors := None |}).
Proof.
  intros (_ & Hcs & Hqm & Hsync) Hfk.
  unfold saveTransaction, metadata_entries.
  rewrite forEach_sections_ok by exact Hfk. cbn [bind].
  rewrite append_rows_app.
  set (db1 := append_rows (delete db id) id (section_entries r)).
  assert (Hfk1 : foreign_key_ok db1 id = true)
    by (unfold db1; rewrite foreign_key_ok_append_rows; exact Hfk).
  clearbody db1.
  destruct Hcs as [-> | (z & -> & _)];
  destruct Hqm as [-> | (b & ->)];
  destruct Hsync as [-> | (s & -> & Hs)];
    try (assert (Htruthy : negb (String.eqb s "") = true)
           by (destruct Hs as [<-|[<-|[<-|[]]]]; reflexivity));
    cbn [when negb is_undefined truthy toString bind_text bind app];
    try rewrite Htruthy; try destruct b; cbn [when bind toString];
    repeat (rewrite insert_ok
              by (rewrite ?foreign_key_ok_append_row; exact Hfk1);
            cbn [bind]);
    reflexivity.
Qed.

Lemma section_entries_keys (r : object J) (k : string) :
  In k (map fst (map entry_of (section_entries r))) -> In k sections.
Proof.
  unfold section_entries. generalize sections as keys.
  induction keys as [|key keys IH]; [intros []|].
  cbn [flat_map]. rewrite !map_app, in_app_iff. intros [Hk | Hk].
  - destruct (truthy (get r key)); [|destruct Hk].
    destruct Hk as [<- | []]. left; reflexivity.
  - right. apply IH. exact Hk.
Qed.

Lemma metadata_entries_keys (r : object J) (now k : string) :
  In k (map fst (map entry_of (metadata_entries r now))) ->
  In k ["completedSections"; "isQuickMode"; "syncStatus"; "lastSaved"].
Proof.
  unfold metadata_entries.
  destruct (get r "completedSections"), (get r "isQuickMode"),
    (get r "syncStatus"); cbn; intuition.
Qed.

(** Among the rows of the sections, the one of [name] decides what the
    record holds under [name]. *)
Lemma last_some_section_entries (r : object J) (name : string)
    (init : option (value J)) :
  In name sections ->
  last_some (decode_section name) (map entry_of (section_entries r)) init
  = if truthy (get r name)
    then match JSON_parse (JSON_stringify (get r name)) with
         | Some v => Some v
         | None => init
         end
    else init.
Proof.
  assert (Hone : forall (c : bool) (e : string * string * string) x,
    last_some (decode_section name)
      (map entry_of (if c then [e] else [])) x
    = if c then match decode_section name (entry_of e) with
                | Some v => Some v
                | None => x
                end
      else x) by (intros [|] e x; reflexivity).
  assert (Hsame : forall (c : bool) (x : option (value J)),
             (if c then x else x) = x) by (intros [|] x; reflexivity).
  unfold section_entries, sections. cbn [flat_map In].
  rewrite !map_app, !last_some_app, !Hone.
  intros Hin. unfold decode_section, entry_of. cbn [fst snd map last_some fold_left].
  destruct Hin as [Hn|[Hn|[Hn|[Hn|[Hn|[Hn|[]]]]]]]; subst name;
    cbn [String.eqb Ascii.eqb Bool.eqb]; rewrite ?Hsame; reflexivity.
Qed.

(** ** The writers when it is not *)

Lemma forEach_blocked {A : Type} (id : Z) (l : list A)
    (f : A -> database -> result database) (db : database) :
  (forall a db0, foreign_key_ok db0 id = false -> blocked id (f a db0)) ->
  foreign_key_ok db id = false ->
  blocked id (forEach l f db).
Proof.
  intros Hf. revert db.
  induction l as [|a l IH]; intros db Hfk; [exact Hfk|].
  cbn [forEach]. specialize (Hf a db Hfk).
  destruct (f a db) as [db1|e]; cbn; [apply IH; exact Hf | exact I].
Qed.

(** One conditional statement of [saveTransaction] on: [lemma] says what
    it returns, and the case where it threw is left to the caller. *)
Ltac run_when lemma id Hdb Hnext :=
  match goal with
  | |- context [when ?c (fun db => s <- ?t ;; insert false db id ?k s ?n) ?d] =>
      pose proof (lemma id c t k n d Hdb) as Hnext;
      destruct (when c (fun db => s <- t ;; insert false db id k s n) d)
  end; cbn [bind].

Lemma when_insert_blocked (id : Z) (c : bool) (text : result string)
    (key note : string) (db : database) :
  foreign_key_ok db id = false ->
  blocked id (when c (fun db => s <- text ;; insert false db id key s note) db).
Proof.
  intros Hfk. unfold when. destruct c; [|exact Hfk].
  destruct text as [s|e]; cbn [bind]; [|exact I].
  rewrite insert_foreign_key by exact Hfk. exact I.
Qed.

Lemma updateWasteAudit_foreign_key (db : database) (id : Z)
    (updates : object J) (now : string) :
  foreign_key_ok db id = false ->
  updateWasteAudit db id updates now = (db, false).
Proof.
  intros Hfk. unfold updateWasteAudit, transaction, updateTransaction.
  match goal with
  | |- context [forEach ?keys ?f db] =>
      pose proof (forEach_blocked id keys f db) as Hloop;
      destruct (forEach keys f db) as [db1|e]
  end; [|reflexivity].
  cbn [bind]. rewrite insert_foreign_key; [reflexivity|].
  apply Hloop; [|exact Hfk]. intros key db0 Hfk0. cbv beta zeta.
  destruct (get updates key) as [| |b|n|s|o];
    cbn [negb is_undefined typeof_object toString bind];
    try exact Hfk0; try (destruct b; cbn [toString bind]);
    rewrite insert_foreign_key by exact Hfk0; exact I.
Qed.

Lemma saveWasteAudit_foreign_key (db : database) (id : Z)
    (data : object J) (now : string) :
  foreign_key_ok db id = false ->
  exists message,
    saveWasteAudit db id data now
    = (db, {| success := false; wasteAuditId := None;
              validationErrors := Some [message] |}).
Proof.
  intros Hfk. unfold saveWasteAudit, transaction, saveTransaction.
  assert (Hfk0 : foreign_key_ok (delete db id) id = false) by exact Hfk.
  match goal with
  | |- context [forEach ?keys ?f ?d] =>
      pose proof (forEach_blocked id keys f d) as Hloop;
      destruct (forEach keys f d) as [db1|e]
  end; [|eexists; reflexivity].
  assert (Hfk1 : foreign_key_ok db1 id = false).
  { apply Hloop; [|exact Hfk0]. intros section db0 Hfk'.
    unfold when. destruct (truthy (get data section)); [|exact Hfk'].
    rewrite insert_foreign_key by exact Hfk'. exact I. }
  clear Hloop. cbn [bind].
  run_when when_insert_blocked id Hfk1 Hfk2; [|eexists; reflexivity].
  run_when when_insert_blocked id Hfk2 Hfk3; [|eexists; reflexivity].
  run_when when_insert_blocked id Hfk3 Hfk4; [|eexists; reflexivity].
  rewrite insert_foreign_key by exact Hfk4.
  eexists; reflexivity.
Qed.

(** ** The properties of the specification *)

(** C2.  For a valid partial record [r], [getWasteAudit] right after a
    [saveWasteAudit] of [r] that succeeded returns the record made of
    exactly the sections and the metadata present in [r], with the values
    saved, of the audit identifier and of the fresh [lastSaved]. *)
Theorem save_then_get_round_trip (db : database) (id : Z) (r : object J)
    (now : string) :
  valid_partial r ->
  success (snd (saveWasteAudit db id r now)) = true ->
  getWasteAudit (fst (saveWasteAudit db id r now)) id
  = Some (saved_record id r now).
Proof.
  intros Hvalid Hsuccess.
  destruct (foreign_key_ok db id) eqn:Hfk.
  2: { destruct (saveWasteAudit_foreign_key db id r now Hfk) as [m Hm].
       rewrite Hm in Hsuccess. discriminate. }
  clear Hsuccess. unfold saveWasteAudit, transaction.
  rewrite saveTransaction_ok by assumption. cbn [fst].
  assert (Hsel : select (append_rows (delete db id) id
                           (section_entries r ++ metadata_entries r now)) id
                 = map entry_of (section_entries r)
                   ++ map entry_of (metadata_entries r now)).
  { rewrite select_append_rows, select_delete, map_app. reflexivity. }
  rewrite getWasteAudit_nonempty.
  2: { rewrite Hsel. unfold metadata_entries. rewrite !map_app.
       intros Heq. repeat (apply app_eq_nil in Heq; destruct Heq as [_ Heq]).
       discriminate. }
  rewrite Hsel, decode_fields_fold. clear Hsel.
  unfold decode_fields, saved_record. cbn [empty_record auditId
    facilityInfrastructure wasteStreamsAssessment specialWasteManagement
    organicWasteComposting wastePreventionMeasures behavioralTraining
    completedSections isQuickMode lastSaved syncStatus].
  assert (Hmeta : forall name init,
            In name sections ->
            last_some (decode_section name)
              (map entry_of (metadata_entries r now)) init = init).
  { intros name init Hname. unfold decode_section.
    apply last_some_absent. intros Hk.
    apply metadata_entries_keys in Hk.
    unfold sections in Hname. cbn [In] in Hname, Hk.
    repeat destruct Hname as [<- | Hname]; try contradiction;
      repeat destruct Hk as [Hk | Hk]; try discriminate; contradiction. }
  assert (Hsection : forall name,
            In name sections ->
            last_some (decode_section name)
              (map entry_of (section_entries r)
               ++ map entry_of (metadata_entries r now)) None
            = defined (get r name)).
  { intros name Hname.
    rewrite last_some_app, Hmeta, last_some_section_entries by exact Hname.
    destruct Hvalid as (Hsections & _).
    destruct (Hsections name Hname) as [-> | (o & -> & Hround)];
      [reflexivity|].
    cbn [truthy]. rewrite Hround. reflexivity. }
  assert (Hnosection : forall {A : Type} (g : string -> option A) name init,
            ~ In name sections ->
            last_some (fun record : string * string =>
                         if String.eqb (fst record) name
                         then g (snd record) else None)
              (map entry_of (section_entries r)) init = init).
  { intros A g name init Hname. apply last_some_absent. intros Hk.
    apply Hname. apply section_entries_keys with (r := r). exact Hk. }
  assert (Hnot : forall name,
            In name ["completedSections"; "isQuickMode"; "syncStatus";
                     "lastSaved"] -> ~ In name sections).
  { intros name Hname Hin. unfold sections in Hin. cbn [In] in Hname, Hin.
    repeat destruct Hname as [<- | Hname]; try contradiction;
      repeat destruct Hin as [Hin | Hin]; try discriminate; contradiction. }
  destruct Hvalid as (_ & Hcs & Hqm & Hsync).
  f_equal. f_equal; try (apply Hsection; unfold sections; cbn [In]; tauto).
  - rewrite last_some_app.
    unfold decode_completedSections at 2.
    rewrite (Hnosection _ (fun s => Some (parseInt s)))
      by (apply Hnot; cbn [In]; tauto).
    unfold metadata_entries.
    destruct Hcs as [-> | (z & -> & _)];
    destruct Hqm as [-> | (b & ->)];
    destruct Hsync as [-> | (s & -> & _)];
      cbn -[Number_toString parseInt];
      rewrite ?JsFacts.parseInt_toString; reflexivity.
  - rewrite last_some_app.
    unfold decode_isQuickMode at 2.
    rewrite (Hnosection _ (fun s => Some (String.eqb s "true")))
      by (apply Hnot; cbn [In]; tauto).
    unfold metadata_entries.
    destruct Hcs as [-> | (z & -> & _)];
    destruct Hqm as [-> | (b & ->)];
    destruct Hsync as [-> | (s & -> & _)]; cbn;
      try destruct b; reflexivity.
  - rewrite last_some_app.
    unfold decode_text at 2.
    rewrite (Hnosection _ (fun s => Some s))
      by (apply Hnot; cbn [In]; tauto).
    unfold metadata_entries.
    destruct Hcs as [-> | (z & -> & _)];
    destruct Hqm as [-> | (b & ->)];
    destruct Hsync as [-> | (s & -> & _)]; reflexivity.
  - rewrite last_some_app.
    unfold decode_text at 2.
    rewrite (Hnosection _ (fun s => Some s))
      by (apply Hnot; cbn [In]; tauto).
    unfold metadata_entries.
    destruct Hcs as [-> | (z & -> & _)];
    destruct Hqm as [-> | (b & ->)];
    destruct Hsync as [-> | (s & -> & _)]; reflexivity.
Qed.


(** C4.  Applying [updateWasteAudit] with the same partial record twice
    in succession leaves [getWasteAudit] with the same record as applying
    it once, up to the [lastSaved] timestamp. *)
Theorem update_twice_reads_as_once (db : database) (id : Z)
    (updates : object J) (now1 now2 : string) :
  let db1 := fst (updateWasteAudit db id updates now1) in
  let db2 := fst (updateWasteAudit db1 id updates now2) in
  option_map without_lastSaved (getWasteAudit db2 id)
  = option_map without_lastSaved (getWasteAudit db1 id).
Proof.
  cbv zeta. destruct (foreign_key_ok db id) eqn:Hfk.
  - rewrite (updateWasteAudit_ok db) by exact Hfk. cbn [fst].
    rewrite updateWasteAudit_ok
      by (rewrite foreign_key_ok_append_rows; exact Hfk).
    cbn [fst].
    set (l1 := ("lastSaved", now1, "Last updated timestamp")).
    set (l2 := ("lastSaved", now2, "Last updated timestamp")).
    assert (Hne : forall (l e : list (string * string)) x, l ++ e ++ [x] <> []).
    { intros l e x Heq. apply app_eq_nil in Heq. destruct Heq as [_ Heq].
      apply app_eq_nil in Heq. destruct Heq as [_ Heq]. discriminate. }
    rewrite !getWasteAudit_nonempty;
      rewrite ?select_append_rows, ?map_app, <- ?app_assoc;
      try apply Hne.
    2: { rewrite (app_assoc (map entry_of (update_entries updates))).
         rewrite app_assoc. apply Hne. }
    cbn [option_map]. f_equal. rewrite !decode_fields_fold.
    rewrite (app_assoc (map entry_of (update_entries updates)) (map entry_of [l1])).
    unfold without_lastSaved, decode_fields. cbn -[last_some].
    f_equal; apply last_some_repeat; reflexivity.
  - repeat (rewrite (updateWasteAudit_foreign_key db) by exact Hfk; cbn [fst]).
    reflexivity.
Qed.


(** C9, as amended.  Adding an entry whose item key is none of the six
    section names and none of [completedSections], [isQuickMode],
    [syncStatus], [lastSaved] changes the result of [getWasteAudit] for no
    audit that already has an entry, and makes it fail for none; for an
    audit without entries the added entry turns not-found into the bare
    record [{ auditId }].  [updateWasteAudit] writes an entry for every
    key of its argument that holds a defined value, whatever the key. *)
Theorem unknown_key_is_ignored (db db' : database) (pre post : list row)
    (new_row : row) (a : Z)
    (stored : database) (id : Z) (updates : object J) (now key : string) :
  (waste_data db = pre ++ post ->
   waste_data db' = pre ++ new_row :: post ->
   known_key (item_key new_row) = false ->
   (select db a <> [] -> getWasteAudit db' a = getWasteAudit db a)
   /\ (select db a = [] ->
       getWasteAudit db' a
       = if a =? audit_id new_row then Some (empty_record a) else None))
  /\ (foreign_key_ok stored id = true ->
      In key (Object_keys updates) ->
      is_undefined (get updates key) = false ->
      In key (map fst (select (fst (updateWasteAudit stored id updates now))
                              id))).
Proof.
  split.
  - intros Hdb Hdb' Hkey.
    assert (Hsel : select db' a
                   = if audit_id new_row =? a
                     then map (fun r => (item_key r, response r))
                              (filter (fun r => audit_id r =? a) pre)
                          ++ (item_key new_row, response new_row)
                          :: map (fun r => (item_key r, response r))
                               (filter (fun r => audit_id r =? a) post)
                     else select db a).
    { unfold select. rewrite Hdb, Hdb', !filter_app. cbn [filter].
      destruct (audit_id new_row =? a); [|reflexivity].
      rewrite map_app. reflexivity. }
    assert (Hsel0 : select db a
                    = map (fun r => (item_key r, response r))
                          (filter (fun r => audit_id r =? a) pre)
                      ++ map (fun r => (item_key r, response r))
                           (filter (fun r => audit_id r =? a) post)).
    { unfold select. rewrite Hdb, filter_app, map_app. reflexivity. }
    rewrite (Z.eqb_sym a). unfold getWasteAudit at 1 3. rewrite Hsel.
    destruct (audit_id new_row =? a).
    + split.
      * intros Hne. rewrite getWasteAudit_nonempty by exact Hne.
        rewrite fold_decode_ignores by (left; exact Hkey).
        rewrite <- Hsel0.
        rewrite length_app. cbn [length]. rewrite Nat.add_succ_r.
        reflexivity.
      * intros Hnil. rewrite fold_decode_ignores by (left; exact Hkey).
        rewrite <- Hsel0, Hnil.
        rewrite length_app. cbn [length]. rewrite Nat.add_succ_r.
        reflexivity.
    + split.
      * intros _. reflexivity.
      * intros Hnil. rewrite Hnil. reflexivity.
  - intros Hfk Hin Hdef. rewrite updateWasteAudit_ok by exact Hfk.
    cbn [fst]. rewrite select_append_rows, !map_app.
    apply in_or_app. right. apply in_or_app. left.
    unfold update_entries. rewrite !map_map.
    apply in_map_iff.
    exists (key, update_text (get updates key), ("Updated: " ++ key)%string).
    split; [reflexivity|].
    apply in_flat_map. exists key. split; [exact Hin|].
    rewrite Hdef. left; reflexivity.
Qed.

(** C10.  With foreign-key enforcement on, for an audit identifier that
    has no row in [audits], [saveWasteAudit] returns a failure result
    ([success: false] with one error message) and [updateWasteAudit]
    returns [false]; both leave the database, and so [waste_data], as it
    was, because the transaction rolls back. *)
Theorem unregistered_audit_is_rejected (db : database) (id : Z)
    (data updates : object J) (now : string) :
  foreign_keys db = true ->
  audit_exists db id = false ->
  (exists message,
     saveWasteAudit db id data now
     = (db, {| success := false; wasteAuditId := None;
               validationErrors := Some [message] |}))
  /\ updateWasteAudit db id updates now = (db, false).
Proof.
  intros Hon Hnone.
  assert (Hfk : foreign_key_ok db id = false)
    by (unfold foreign_key_ok; rewrite Hon, Hnone; reflexivity).
  split.
  - apply saveWasteAudit_foreign_key. exact Hfk.
  - apply updateWasteAudit_foreign_key. exact Hfk.
Qed.

(** ** One entry per item key: what each writer does to it *)

(** What [when c (fun db => s <- text ;; insert ...)] leaves: nothing, or
    the row of its item key. *)
Lemma when_insert_rows (id : Z) (c : bool) (text : result string)
    (key note : string) (db : database) :
  foreign_key_ok db id = true ->
  match when c (fun db => s <- text ;; insert false db id key s note) db with
  | Ok db' =>
      exists m, db' = append_rows db id m
                /\ (m = [] \/ exists s, m = [(key, s, note)])
  | Throw _ => True
  end.
Proof.
  intros Hfk. unfold when. destruct c.
  - destruct text as [s|e]; cbn [bind]; [|exact I].
    rewrite insert_ok by exact Hfk.
    exists [(key, s, note)]. split; [reflexivity|]. right. exists s. reflexivity.
  - exists []. split; [reflexivity | left; reflexivity].
Qed.

Lemma section_entries_filter (r : object J) :
  map fst (map entry_of (section_entries r))
  = filter (fun section => truthy (get r section)) sections.
Proof.
  unfold section_entries. generalize sections as keys.
  induction keys as [|key keys IH]; [reflexivity|].
  cbn [flat_map filter]. rewrite !map_app, IH.
  destruct (truthy (get r key)); reflexivity.
Qed.

(** After a save that succeeded the audit has one entry per item key. *)
Lemma saveWasteAudit_unique_keys (db : database) (id : Z) (r : object J)
    (now : string) :
  success (snd (saveWasteAudit db id r now)) = true ->
  unique_keys (fst (saveWasteAudit db id r now)) id = true.
Proof.
  intros Hsuccess.
  destruct (foreign_key_ok db id) eqn:Hfk.
  2: { destruct (saveWasteAudit_foreign_key db id r now Hfk) as [m Hm].
       rewrite Hm in Hsuccess. discriminate. }
  revert Hsuccess. unfold saveWasteAudit, transaction, saveTransaction.
  rewrite forEach_sections_ok by exact Hfk. cbn [bind].
  set (db1 := append_rows (delete db id) id (section_entries r)).
  assert (Hfk1 : foreign_key_ok db1 id = true)
    by (unfold db1; rewrite foreign_key_ok_append_rows; exact Hfk).
  run_when when_insert_rows id Hfk1 H2; [|discriminate].
  destruct H2 as (m2 & -> & Hm2).
  assert (Hfk2 : foreign_key_ok (append_rows db1 id m2) id = true)
    by (rewrite foreign_key_ok_append_rows; exact Hfk1).
  run_when when_insert_rows id Hfk2 H3; [|discriminate].
  destruct H3 as (m3 & -> & Hm3).
  assert (Hfk3 : foreign_key_ok
                   (append_rows (append_rows db1 id m2) id m3) id = true)
    by (rewrite foreign_key_ok_append_rows; exact Hfk2).
  run_when when_insert_rows id Hfk3 H4; [|discriminate].
  destruct H4 as (m4 & -> & Hm4).
  rewrite insert_ok by (rewrite foreign_key_ok_append_rows; exact Hfk3).
  cbn [bind fst snd]. intros _. unfold unique_keys.
  rewrite select_append_row, !select_append_rows.
  unfold db1. rewrite select_append_rows, select_delete. cbn [app].
  rewrite !map_app, section_entries_filter. unfold sections. cbn [filter].
  destruct Hm2 as [-> | (s2 & ->)];
  destruct Hm3 as [-> | (s3 & ->)];
  destruct Hm4 as [-> | (s4 & ->)];
    cbn [map entry_of fst snd app];
    destruct (truthy (get r "facilityInfrastructure")),
      (truthy (get r "wasteStreamsAssessment")),
      (truthy (get r "specialWasteManagement")),
      (truthy (get r "organicWasteComposting")),
      (truthy (get r "wastePreventionMeasures")),
      (truthy (get r "behavioralTraining"));
    reflexivity.
Qed.

Lemma all_distinct_repeated (k : string) (l1 l2 : list string) :
  In k l1 -> In k l2 -> all_distinct (l1 ++ l2) = false.
Proof.
  intros H1 H2. induction l1 as [|k1 l1 IH]; [destruct H1|].
  cbn [app all_distinct]. destruct H1 as [-> | H1].
  - assert (Hex : existsb (String.eqb k) (l1 ++ l2) = true).
    { apply existsb_exists. exists k. split.
      - apply in_or_app. right. exact H2.
      - apply String.eqb_refl. }
    rewrite Hex. reflexivity.
  - rewrite (IH H1). apply andb_false_r.
Qed.

(** An update that succeeds for an audit that has been saved, and so has
    its [lastSaved] entry, leaves it with two. *)
Lemma updateWasteAudit_repeats_lastSaved (db : database) (id : Z)
    (updates : object J) (now : string) :
  foreign_key_ok db id = true ->
  In "lastSaved" (map fst (select db id)) ->
  unique_keys (fst (updateWasteAudit db id updates now)) id = false.
Proof.
  intros Hfk Hsaved. rewrite updateWasteAudit_ok by exact Hfk. cbn [fst].
  unfold unique_keys. rewrite select_append_rows, map_app.
  apply all_distinct_repeated with (k := "lastSaved"%string); [exact Hsaved|].
  rewrite !map_app. apply in_or_app. right. left. reflexivity.
Qed.

End Reconstruction.

(** The theorems at the stored states of [Examples]. *)
Import JsonFragment.



(** The record of the save route is a valid partial record. *)
Lemma partial_record_valid : valid_partial Examples.partial_record.
Proof.
  repeat split.
  - intros section Hin. unfold sections in Hin. cbn [In] in Hin.
    destruct Hin as [<-|[<-|[<-|[<-|[<-|[<-|[]]]]]]];
      try (left; reflexivity).
    right. eexists. split; reflexivity.
  - right. exists 1. split; reflexivity.
  - right. exists false. reflexivity.
  - right. exists "synced"%string. split; [reflexivity | left; reflexivity].
Qed.

(** C2 at the record of the save route, saved for a registered audit. *)
Lemma save_then_get_round_trip_witness :
  valid_partial Examples.partial_record
  /\ success (snd (saveWasteAudit Examples.registered 1
                     Examples.partial_record "2024-03-01T09:00:01.000Z"))
     = true
  /\ getWasteAudit
       (fst (saveWasteAudit Examples.registered 1
               Examples.partial_record "2024-03-01T09:00:01.000Z")) 1
     = Some {| auditId := 1;
               facilityInfrastructure := None;
               wasteStreamsAssessment := None;
               specialWasteManagement := None;
               organicWasteComposting := None;
               wastePreventionMeasures := None;
               behavioralTraining := Some Examples.training;
               completedSections := Some (Num 1);
               isQuickMode := Some false;
               lastSaved := Some "2024-03-01T09:00:01.000Z"%string;
               syncStatus := Some "synced"%string |}.
Proof.
  split; [exact partial_record_valid | split; [reflexivity|]].
  exact (save_then_get_round_trip Examples.registered 1
           Examples.partial_record "2024-03-01T09:00:01.000Z"
           partial_record_valid eq_refl).
Defined.



(** C9, the claim as stated, at the empty entry set: the audit is not
    found before the entry of an unknown key is added, and found, as the
    bare record, after. *)
Lemma unknown_key_makes_the_audit_found :
  known_key (item_key Examples.foreign_row) = false
  /\ getWasteAudit Examples.registered 1 = None
  /\ getWasteAudit
       (with_waste_data Examples.registered [Examples.foreign_row] 1) 1
     = Some (empty_record 1)
  /\ getWasteAudit
       (with_waste_data Examples.registered [Examples.foreign_row] 1) 1
     <> getWasteAudit Examples.registered 1.
Proof.
  split; [reflexivity | split; [reflexivity | split; [reflexivity|]]].
  discriminate.
Qed.

(** C9, as amended: an unknown key added to an audit that has its
    quick-mode flag stored, and an update that carries [id] and
    [auditId]. *)
Lemma unknown_key_is_ignored_witness :
  (getWasteAudit
     (with_waste_data (Examples.stored [("isQuickMode", "true")])
        (waste_data (Examples.stored [("isQuickMode", "true")])
         ++ [ {| row_id := 2; audit_id := 1; item_key := "auditorSignature";
                 response := "J. Murphy"; notes := "" |} ]) 2) 1
   = getWasteAudit (Examples.stored [("isQuickMode", "true")]) 1)
  /\ In "id"
       (map fst
          (select
             (fst (updateWasteAudit Examples.registered 1
                     [("id", VNum (Num 7)); ("auditId", VNum (Num 1))]
                     "2024-03-01T09:00:01.000Z")) 1)).
Proof.
  pose proof
    (unknown_key_is_ignored
       (Examples.stored [("isQuickMode", "true")])
       (with_waste_data (Examples.stored [("isQuickMode", "true")])
          (waste_data (Examples.stored [("isQuickMode", "true")])
           ++ [ {| row_id := 2; audit_id := 1;
                   item_key := "auditorSignature";
                   response := "J. Murphy"; notes := "" |} ]) 2)
       (waste_data (Examples.stored [("isQuickMode", "true")])) []
       {| row_id := 2; audit_id := 1; item_key := "auditorSignature";
          response := "J. Murphy"; notes := "" |}
       1
       Examples.registered 1
       [("id", VNum (Num 7)); ("auditId", VNum (Num 1))]
       "2024-03-01T09:00:01.000Z" "id") as [Hget Hupdate].
  split.
  - apply (Hget eq_refl eq_refl eq_refl). discriminate.
  - apply Hupdate; [reflexivity | left; reflexivity | reflexivity].
Defined.

(** C10 at a database in which no audit is registered. *)
Lemma unregistered_audit_is_rejected_witness :
  (exists message,
     saveWasteAudit Examples.unregistered 1 Examples.partial_record
       "2024-03-01T09:00:01.000Z"
     = (Examples.unregistered,
        {| success := false; wasteAuditId := None;
           validationErrors := Some [message] |}))
  /\ updateWasteAudit Examples.unregistered 1 Examples.autosave_record
       "2024-03-01T09:05:01.000Z"
     = (Examples.unregistered, false).
Proof.
  exact (unregistered_audit_is_rejected Examples.unregistered 1
           Examples.partial_record Examples.autosave_record
           "2024-03-01T09:05:01.000Z" eq_refl eq_refl).
Defined.

(** C1, at the calls the two routes make.  A save leaves one entry per
    item key.  The autosave that follows appends its rows, since
    [INSERT OR REPLACE] finds no conflict on the only uniqueness constraint
    of the table, the rowid: the audit then has two entries under
    [syncStatus] and three under [lastSaved]. *)
Theorem update_duplicates_item_keys :
  let db1 := fst (saveWasteAudit Examples.registered 1
                    Examples.partial_record "2024-03-01T09:00:01.000Z") in
  let db2 := fst (updateWasteAudit db1 1
                    Examples.autosave_record "2024-03-01T09:05:01.000Z") in
  unique_keys db1 1 = true
  /\ map fst (select db2 1)
     = [ "behavioralTraining"; "completedSections"; "isQuickMode";
         "syncStatus"; "lastSaved";
         "facilityInfrastructure"; "syncStatus"; "lastSaved"; "lastSaved" ]
  /\ unique_keys db2 1 = false.
Proof. repeat split. Qed.

End DatabaseFacts.


(* ================================================================== *)
(** * Facts about the scoring engine                                   *)
(* ================================================================== *)

Module CalculateFacts.
Import Calculate.
Local Open Scope list_scope.
Local Open Scope Q_scope.

(** ** Quick wins *)

Lemma filter_nonempty_existsb {A : Type} (f : A -> bool) (l : list A) :
  (0 <? length (filter f l))%nat = existsb f l.
Proof.
  induction l as [|a l IH]; [reflexivity|].
  simpl. destruct (f a); [reflexivity | exact IH].
Qed.

Lemma negb_existsb_forallb {A : Type} (f : A -> bool) (l : list A) :
  negb (existsb f l) = forallb (fun a => negb (f a)) l.
Proof.
  induction l as [|a l IH]; [reflexivity|].
  simpl. rewrite negb_orb, IH. reflexivity.
Qed.

(** C8.  [generateQuickWins] emits exactly one recommendation per check
    that holds among its five (no dry-recyclables bin; a bin whose signage
    is present with quality below 3; a stream with contamination above 3;
    no waste champion appointed; a kitchen with composting system none),
    numbered from 1 in the order of declaration, hence sorted by priority,
    and at most five.  A record with a dry-recyclables bin and no champion
    appointed gets no 'add-recycling-bins' and gets 'appoint-champion'. *)
Theorem quick_wins_follow_the_checks (data : WasteAuditData) :
  map id (generateQuickWins data) = expected_quick_wins data
  /\ map priority (generateQuickWins data)
     = map Z.of_nat (seq 1 (length (expected_quick_wins data)))
  /\ (length (generateQuickWins data) <= 5)%nat
  /\ (forall bin,
        In bin (bins_of data) ->
        binType bin = BinType_DRY_RECYCLABLES ->
        signagePresent bin = false ->
        no_champion data = true ->
        ~ In "add-recycling-bins"%string (map id (generateQuickWins data))
        /\ In "appoint-champion"%string (map id (generateQuickWins data))).
Proof.
  assert (Hshape :
    map id (generateQuickWins data) = expected_quick_wins data
    /\ map priority (generateQuickWins data)
       = map Z.of_nat (seq 1 (length (expected_quick_wins data)))
    /\ (length (generateQuickWins data) <= 5)%nat).
  { unfold generateQuickWins, expected_quick_wins. cbv zeta.
    rewrite !filter_nonempty_existsb, negb_existsb_forallb.
    fold (bins_of data). fold (no_dry_recyclables_bin data).
    fold (some_poor_signage data).
    replace (match assessments_of data with
             | Some streams =>
                 filter (fun stream => gt (contaminationLevel stream) 3) streams
             | None => []
             end)
      with (filter (fun stream => gt (contaminationLevel stream) 3)
                   (streams_of data))
      by (unfold streams_of; destruct (assessments_of data); reflexivity).
    rewrite filter_nonempty_existsb. fold (some_contaminated_stream data).
    replace (negb match behavioralTraining data with
                  | Some b => wasteChampionAppointed b
                  | None => false
                  end)
      with (no_champion data)
      by (unfold no_champion; destruct (behavioralTraining data); reflexivity).
    fold (kitchen_without_composting data).
    destruct (no_dry_recyclables_bin data), (some_poor_signage data),
      (some_contaminated_stream data), (no_champion data),
      (kitchen_without_composting data);
      cbn; repeat split; lia. }
  destruct Hshape as (Hid & Hpriority & Hlength).
  split; [exact Hid | split; [exact Hpriority | split; [exact Hlength|]]].
  intros bin Hbin Hdry_bin _ Hchampion. rewrite Hid.
  unfold expected_quick_wins.
  assert (Hdry : no_dry_recyclables_bin data = false).
  { unfold no_dry_recyclables_bin.
    destruct (forallb _ (bins_of data)) eqn:Hall; [|reflexivity].
    rewrite forallb_forall in Hall. specialize (Hall bin Hbin).
    unfold is_dry_recyclables_bin in Hall. rewrite Hdry_bin in Hall.
    discriminate. }
  rewrite Hdry, Hchampion. cbn [filter fst map snd].
  destruct (some_poor_signage data), (some_contaminated_stream data),
    (kitchen_without_composting data);
    cbn; intuition discriminate.
Qed.

(** ** Metrics *)

Lemma nonzero_false (q : Q) : nonzero q = false -> q == 0.
Proof.
  unfold nonzero. intros Hq. apply negb_false_iff in Hq.
  apply Qeq_bool_iff. exact Hq.
Qed.

Lemma or_default_0 (x : option Q) :
  or_default x 0 == match x with Some v => v | None => 0 end.
Proof.
  unfold or_default. destruct x as [q|]; [|reflexivity].
  destruct (nonzero q) eqn:Hq; [reflexivity|].
  symmetry. apply nonzero_false. exact Hq.
Qed.

Lemma Qltb_lt (x y : Q) : Qltb x y = true <-> x < y.
Proof.
  unfold Qltb. rewrite negb_true_iff. split.
  - intros Hle. apply Qnot_le_lt. intros Hyx.
    apply Qle_bool_iff in Hyx. congruence.
  - intros Hlt. destruct (Qle_bool y x) eqn:Hle; [|reflexivity].
    apply Qle_bool_iff in Hle. exfalso. exact (Qlt_not_le _ _ Hlt Hle).
Qed.

Lemma Qltb_ge (x y : Q) : Qltb x y = false <-> y <= x.
Proof.
  unfold Qltb. rewrite negb_false_iff. apply Qle_bool_iff.
Qed.

Lemma Qltb_comp (x y x' y' : Q) :
  x == x' -> y == y' -> Qltb x y = Qltb x' y'.
Proof.
  intros Hx Hy. destruct (Qltb x' y') eqn:E.
  - apply Qltb_lt. apply Qltb_lt in E. rewrite Hx, Hy. exact E.
  - apply Qltb_ge. apply Qltb_ge in E. rewrite Hx, Hy. exact E.
Qed.

Lemma Math_round_comp (x y : Q) : x == y -> Math_round x = Math_round y.
Proof.
  intros Hxy. unfold Math_round. f_equal. apply Qfloor_comp.
  rewrite Hxy. reflexivity.
Qed.

(** The loop of [calculateWasteMetrics] adds up what the sums add up. *)
Lemma metrics_loop (streams : list WasteStreamAssessment) (t : totals) :
  let t' := fold_left metrics_step streams t in
  totalAnnualCost t' == totalAnnualCost t + Qsum (map cost streams)
  /\ totalWeeklyVolume t' == totalWeeklyVolume t + Qsum (map volume streams)
  /\ recyclableVolume t'
     == recyclableVolume t
        + Qsum (map volume (filter is_recyclable_stream streams))
  /\ contaminationIssues t'
     = (contaminationIssues t
        + Z.of_nat (length (filter (fun stream =>
                                      gt (contaminationLevel stream) 3)
                                   streams)))%Z.
Proof.
  revert t. induction streams as [|s streams IH]; intros t; cbv zeta.
  - cbn. repeat split; try ring.
  - cbn [fold_left]. specialize (IH (metrics_step t s)). cbv zeta in IH.
    destruct IH as (Hcost & Hvolume & Hrecyclable & Hissues).
    unfold Qsum in *.
    repeat split.
    + rewrite Hcost. cbn [map Qsum fold_right metrics_step totalAnnualCost].
      unfold cost at 2. destruct (annualCostEuros s) as [c|]; [|ring].
      destruct (nonzero c) eqn:Hc; [ring|].
      apply nonzero_false in Hc. rewrite Hc. ring.
    + rewrite Hvolume.
      cbn [map Qsum fold_right metrics_step totalWeeklyVolume].
      rewrite or_default_0. unfold volume at 2. ring.
    + rewrite Hrecyclable.
      cbn [filter metrics_step recyclableVolume].
      destruct (is_recyclable_stream s); [|reflexivity].
      cbn [map Qsum fold_right]. rewrite or_default_0.
      unfold volume at 2. ring.
    + rewrite Hissues. cbn [filter metrics_step contaminationIssues].
      destruct (gt (contaminationLevel s) 3); cbn [length]; lia.
Qed.

Lemma metrics_totals (data : WasteAuditData) :
  let t := match assessments_of data with
           | Some streams =>
               fold_left metrics_step streams
                 {| totalAnnualCost := 0; totalWeeklyVolume := 0;
                    recyclableVolume := 0; contaminationIssues := 0 |}
           | None =>
               {| totalAnnualCost := 0; totalWeeklyVolume := 0;
                  recyclableVolume := 0; contaminationIssues := 0 |}
           end in
  totalAnnualCost t == total_cost data
  /\ totalWeeklyVolume t == total_volume data
  /\ recyclableVolume t == recyclable_volume data
  /\ (0 <? contaminationIssues t)%Z = some_contaminated_stream data.
Proof.
  cbv zeta. unfold total_cost, total_volume, recyclable_volume,
    some_contaminated_stream, streams_of.
  destruct (assessments_of data) as [streams|].
  - destruct (metrics_loop streams
                {| totalAnnualCost := 0; totalWeeklyVolume := 0;
                   recyclableVolume := 0; contaminationIssues := 0 |})
      as (Hcost & Hvolume & Hrecyclable & Hissues).
    cbn [totalAnnualCost totalWeeklyVolume recyclableVolume
         contaminationIssues] in *.
    rewrite Hcost, Hvolume, Hrecyclable, Hissues.
    repeat split; try ring.
    rewrite <- filter_nonempty_existsb. cbn [Z.add].
    destruct (length _); reflexivity.
  - cbn. repeat split; reflexivity.
Qed.

(** ** Overall score *)



Lemma measure_points_bounds (value : option ImplementationLevel) :
  0 <= measure_points value /\ measure_points value <= 4.
Proof. destruct value as [[| | |]|]; cbn; split; lra. Qed.

Lemma calculatePreventionScore_bounds (p : option WastePreventionMeasures) :
  0 <= calculatePreventionScore p /\ calculatePreventionScore p <= 100.
Proof.
  destruct p as [p|]; [|cbn; split; lra].
  unfold calculatePreventionScore, measures. cbn [fold_left length].
  pose proof (measure_points_bounds (procurementPolicy p)).
  pose proof (measure_points_bounds (reusableCupsBottles p)).
  pose proof (measure_points_bounds (waterFountainsRefillStations p)).
  pose proof (measure_points_bounds (paperlessCommunication p)).
  pose proof (measure_points_bounds (donationSystem p)).
  pose proof (measure_points_bounds (repairCafe p)).
  pose proof (measure_points_bounds (bulkBuying p)).
  pose proof (measure_points_bounds (eliminateSingleUse p)).
  unfold Qdiv.
  change (/ (inject_Z (Z.of_nat 8) * 4)) with (1 # 32).
  split; lra.
Qed.





(** ** The theorems at the records of the examples *)

(** C8 at a record with one dry-recyclables bin, without signage, and no
    champion appointed. *)
Lemma quick_wins_follow_the_checks_witness :
  ~ In "add-recycling-bins"%string
       (map id (generateQuickWins recycling_bin_no_champion))
  /\ In "appoint-champion"%string
       (map id (generateQuickWins recycling_bin_no_champion)).
Proof.
  destruct (quick_wins_follow_the_checks recycling_bin_no_champion)
    as (_ & _ & _ & Hscenario).
  apply (Hscenario {| binType := BinType_DRY_RECYCLABLES;
                      signagePresent := false;
                      signageQuality := 1 |});
    [left; reflexivity | reflexivity | reflexivity | reflexivity].
Defined.




End CalculateFacts.

(* ================================================================== *)
(** * More facts about the store                                       *)
(* ================================================================== *)

Module OperationsFacts.
Import Js Sqlite SqliteFacts Database DatabaseFacts Operations.
Local Open Scope list_scope.

Lemma select_delete_other (db : database) (id a : Z) :
  a <> id -> select (delete db id) a = select db a.
Proof.
  intros Ha. unfold select, delete. cbn [waste_data with_waste_data].
  induction (waste_data db) as [|r rows IH]; [reflexivity|].
  cbn [filter]. destruct (audit_id r =? id) eqn:Eid; cbn [negb filter].
  - apply Z.eqb_eq in Eid.
    destruct (audit_id r =? a) eqn:Ea; [|exact IH].
    apply Z.eqb_eq in Ea. congruence.
  - destruct (audit_id r =? a); cbn [map]; [f_equal|]; exact IH.
Qed.

Lemma select_append_rows_other (db : database) (id a : Z)
    (es : list (string * string * string)) :
  a <> id -> select (append_rows db id es) a = select db a.
Proof.
  intros Ha. unfold append_rows. revert db.
  induction es as [|[[k t] n] es IH]; intros db; [reflexivity|].
  cbn [fold_left]. rewrite IH. unfold select, append_row.
  cbn [waste_data with_waste_data]. rewrite filter_app. cbn [filter audit_id].
  destruct (id =? a) eqn:E; [apply Z.eqb_eq in E; congruence|].
  rewrite app_nil_r. reflexivity.
Qed.

(** The rows [append_rows] adds, with the rowids they get. *)
Lemma waste_data_append_rows (db : database) (id : Z)
    (es : list (string * string * string)) :
  exists rows,
    waste_data (append_rows db id es) = waste_data db ++ rows
    /\ Forall (fun r => audit_id r = id) rows
    /\ map (fun r => (item_key r, response r)) rows = map entry_of es.
Proof.
  unfold append_rows. revert db.
  induction es as [|[[k t] n] es IH]; intros db.
  - exists []. rewrite app_nil_r. repeat split. constructor.
  - cbn [fold_left]. destruct (IH (append_row db id (k, t, n)))
      as (rows & Hrows & Hid & Hentries).
    eexists (_ :: rows). rewrite Hrows. unfold append_row.
    cbn [waste_data with_waste_data]. rewrite <- app_assoc.
    split; [reflexivity|]. split.
    + constructor; [reflexivity | exact Hid].
    + cbn [map]. rewrite Hentries. reflexivity.
Qed.

Lemma getWasteAudit_select {J : Type} {H : Host J} (db db' : database)
    (a : Z) :
  select db' a = select db a -> getWasteAudit db' a = getWasteAudit db a.
Proof. intros Hsel. unfold getWasteAudit. rewrite Hsel. reflexivity. Qed.

Section Writers.

Context {J : Type} {H : Host J}.

Lemma when_optional_entry (id : Z) (c : bool) (text : result string)
    (key note : string) (db : database) :
  foreign_key_ok db id = true ->
  when c (fun db => s <- text ;; insert false db id key s note) db
  = (m <- optional_entry c text key note ;; Ok (append_rows db id m)).
Proof.
  intros Hfk. unfold when, optional_entry. destruct c; [|reflexivity].
  destruct text as [s|e]; cbn [bind]; [|reflexivity].
  apply insert_ok. exact Hfk.
Qed.

(** [saveWasteAudit] deletes the rows of the audit and appends the rows
    of [save_entries], or throws where [save_entries] does. *)
Lemma saveTransaction_entries (db : database) (id : Z) (data : object J)
    (now : string) :
  foreign_key_ok db id = true ->
  saveTransaction id data now db
  = (es <- save_entries data now ;;
     Ok (append_rows (delete db id) id es,
         {| success := true; wasteAuditId := Some id;
            validationErrors := None |})).
Proof.
  intros Hfk. unfold saveTransaction, save_entries.
  rewrite forEach_sections_ok by exact Hfk. cbn [bind].
  set (db1 := append_rows (delete db id) id (section_entries data)).
  assert (Hfk1 : foreign_key_ok db1 id = true)
    by (unfold db1; rewrite foreign_key_ok_append_rows; exact Hfk).
  rewrite when_optional_entry by exact Hfk1.
  destruct (optional_entry _ (toString (get data "completedSections")) _ _)
    as [m1|e]; cbn [bind]; [|reflexivity].
  rewrite when_optional_entry
    by (rewrite foreign_key_ok_append_rows; exact Hfk1).
  destruct (optional_entry _ (toString (get data "isQuickMode")) _ _)
    as [m2|e]; cbn [bind]; [|reflexivity].
  rewrite when_optional_entry
    by (rewrite !foreign_key_ok_append_rows; exact Hfk1).
  destruct (optional_entry _ (bind_text (get data "syncStatus")) _ _)
    as [m3|e]; cbn [bind]; [|reflexivity].
  rewrite insert_ok by (rewrite !foreign_key_ok_append_rows; exact Hfk1).
  cbn [bind]. unfold db1.
  change (append_row ?d id ?e) with (append_rows d id [e]).
  rewrite <- !append_rows_app. reflexivity.
Qed.

(** What a save that succeeded did. *)
Lemma saveWasteAudit_success (db : database) (id : Z) (data : object J)
    (now : string) :
  success (snd (saveWasteAudit db id data now)) = true ->
  exists es,
    save_entries data now = Ok es
    /\ foreign_key_ok db id = true
    /\ fst (saveWasteAudit db id data now) = append_rows (delete db id) id es.
Proof.
  intros Hsuccess. destruct (foreign_key_ok db id) eqn:Hfk.
  2: { destruct (saveWasteAudit_foreign_key db id data now Hfk) as [m Hm].
       rewrite Hm in Hsuccess. discriminate. }
  revert Hsuccess. unfold saveWasteAudit, transaction.
  rewrite saveTransaction_entries by exact Hfk.
  destruct (save_entries data now) as [es|e]; cbn [bind fst snd success];
    [|discriminate].
  intros _. exists es. repeat split.
Qed.

(** What any save did: the rows of the audit replaced, or nothing. *)
Lemma saveWasteAudit_cases (db : database) (id : Z) (data : object J)
    (now : string) :
  fst (saveWasteAudit db id data now) = db
  \/ exists es,
       fst (saveWasteAudit db id data now)
       = append_rows (delete db id) id es.
Proof.
  destruct (foreign_key_ok db id) eqn:Hfk.
  - unfold saveWasteAudit, transaction.
    rewrite saveTransaction_entries by exact Hfk.
    destruct (save_entries data now) as [es|e]; cbn [bind fst];
      [right; exists es; reflexivity | left; reflexivity].
  - destruct (saveWasteAudit_foreign_key db id data now Hfk) as [m Hm].
    rewrite Hm. left. reflexivity.
Qed.

End Writers.

End OperationsFacts.

(* ================================================================== *)
(** * Saving, updating, deleting and reading back                      *)
(* ================================================================== *)

Module StoreFacts.
Import Js Sqlite SqliteFacts Database DatabaseFacts JsFacts.
Import Operations OperationsFacts Reading.
Local Open Scope list_scope.

Section Store.

Context {J : Type} {H : Host J}.

(** ** Reading *)

Lemma getWasteAudit_fields (db : database) (id : Z) :
  getWasteAudit db id
  = match select db id with
    | [] => None
    | records => Some (decode_fields (empty_record id) records)
    end.
Proof.
  unfold getWasteAudit. destruct (select db id) as [|r l] eqn:E;
    [reflexivity|].
  cbn [length Nat.eqb]. rewrite decode_fields_fold. reflexivity.
Qed.

Lemma read_section_select (db : database) (id : Z) (s : string) :
  In s sections ->
  read_section db id s = last_some (decode_section s) (select db id) None.
Proof.
  intros Hin. unfold read_section. rewrite getWasteAudit_fields.
  destruct (select db id) as [|r l]; [reflexivity|].
  rewrite get_section_decode_fields.
  - f_equal. unfold get_section, empty_record.
    cbn [facilityInfrastructure wasteStreamsAssessment specialWasteManagement
         organicWasteComposting wastePreventionMeasures behavioralTraining].
    repeat match goal with |- context [if ?c then _ else _] =>
      destruct c end; reflexivity.
  - apply existsb_exists. exists s. split; [exact Hin | apply String.eqb_refl].
Qed.

Lemma read_completedSections_select (db : database) (id : Z) :
  read_completedSections db id
  = last_some decode_completedSections (select db id) None.
Proof.
  unfold read_completedSections. rewrite getWasteAudit_fields.
  destruct (select db id); reflexivity.
Qed.

Lemma read_isQuickMode_select (db : database) (id : Z) :
  read_isQuickMode db id = last_some decode_isQuickMode (select db id) None.
Proof.
  unfold read_isQuickMode. rewrite getWasteAudit_fields.
  destruct (select db id); reflexivity.
Qed.

Lemma read_syncStatus_select (db : database) (id : Z) :
  read_syncStatus db id
  = last_some (decode_text "syncStatus") (select db id) None.
Proof.
  unfold read_syncStatus. rewrite getWasteAudit_fields.
  destruct (select db id); reflexivity.
Qed.

Lemma read_lastSaved_select (db : database) (id : Z) :
  read_lastSaved db id
  = last_some (decode_text "lastSaved") (select db id) None.
Proof.
  unfold read_lastSaved. rewrite getWasteAudit_fields.
  destruct (select db id); reflexivity.
Qed.

Lemma last_some_or_else {A : Type} (f : string * string -> option A) l init :
  last_some f l init = or_else (last_some f l None) init.
Proof. rewrite last_some_init. reflexivity. Qed.

Lemma get_absent (o : object J) (name : string) :
  existsb (String.eqb name) (Object_keys o) = false -> get o name = VUndefined.
Proof.
  unfold Object_keys. induction o as [|[k v] o IH]; [reflexivity|].
  cbn [get map existsb fst].
  destruct (String.eqb name k); [discriminate | exact IH].
Qed.

(** What the rows of an update decode to, for the property that the
    rows of item key [name] assign. *)
Lemma last_some_update_entries {A : Type} (g : string -> option A)
    (name : string) (updates : object J) (init : option A) :
  last_some (fun r : string * string =>
               if String.eqb (fst r) name then g (snd r) else None)
            (map entry_of (update_entries updates)) init
  = if is_undefined (get updates name) then init
    else or_else (g (update_text (get updates name))) init.
Proof.
  assert (Hkeys : forall keys init,
    last_some (fun r : string * string =>
                 if String.eqb (fst r) name then g (snd r) else None)
      (map entry_of
         (flat_map (fun key =>
                      if is_undefined (get updates key) then []
                      else [(key, update_text (get updates key),
                             ("Updated: " ++ key)%string)]) keys)) init
    = if existsb (String.eqb name) keys
         && negb (is_undefined (get updates name))
      then or_else (g (update_text (get updates name))) init
      else init).
  { induction keys as [|k keys IH]; intros init0; [reflexivity|].
    cbn [flat_map existsb]. rewrite map_app, last_some_app, IH.
    destruct (is_undefined (get updates k)) eqn:Ek.
    - cbn [map last_some fold_left].
      destruct (String.eqb name k) eqn:Enk; [|reflexivity].
      apply String.eqb_eq in Enk. subst k. rewrite Ek.
      rewrite andb_false_r. reflexivity.
    - cbn [map last_some fold_left entry_of fst snd].
      rewrite (String.eqb_sym k name).
      destruct (String.eqb name k) eqn:Enk.
      + apply String.eqb_eq in Enk. subst k. rewrite Ek. cbn [orb negb andb].
        rewrite andb_true_r.
        destruct (g (update_text (get updates name))) as [v|];
          cbn [or_else]; destruct (existsb _ keys); reflexivity.
      + reflexivity. }
  unfold update_entries. rewrite Hkeys.
  destruct (is_undefined (get updates name)) eqn:Eu.
  - rewrite andb_false_r. reflexivity.
  - rewrite andb_true_r.
    destruct (existsb (String.eqb name) (Object_keys updates)) eqn:Ex;
      [reflexivity|].
    rewrite (get_absent updates name Ex) in Eu. discriminate.
Qed.

(** The rows of the audit after an update that went through. *)
Lemma select_updateWasteAudit (db : database) (id : Z) (updates : object J)
    (now : string) :
  foreign_key_ok db id = true ->
  select (fst (updateWasteAudit db id updates now)) id
  = select db id ++ map entry_of (update_entries updates)
    ++ [("lastSaved", now)].
Proof.
  intros Hfk. rewrite updateWasteAudit_ok by exact Hfk. cbn [fst].
  rewrite select_append_rows, map_app. reflexivity.
Qed.

Lemma decode_section_lastSaved (s now : string) :
  In s sections -> decode_section s ("lastSaved", now) = None.
Proof.
  unfold sections, decode_section. cbn [In fst snd].
  intros [E|[E|[E|[E|[E|[E|[]]]]]]]; subst s; reflexivity.
Qed.

Lemma optional_entry_keys (c : bool) (text : result string)
    (key note : string) (m : list (string * string * string)) :
  optional_entry c text key note = Ok m ->
  forall k, In k (map fst (map entry_of m)) -> k = key.
Proof.
  unfold optional_entry. destruct c.
  - destruct text as [s|e]; cbn [bind]; [|discriminate].
    intros [= <-] k [Hk|[]]. symmetry. exact Hk.
  - intros [= <-] k [].
Qed.

(** The rows of the audit after a save that went through. *)
Lemma select_saveWasteAudit (db : database) (id : Z) (data : object J)
    (now : string) :
  success (snd (saveWasteAudit db id data now)) = true ->
  exists m1 m2 m3,
    optional_entry (negb (is_undefined (get data "completedSections")))
      (toString (get data "completedSections"))
      "completedSections" "Number of completed sections" = Ok m1
    /\ optional_entry (negb (is_undefined (get data "isQuickMode")))
         (toString (get data "isQuickMode"))
         "isQuickMode" "Quick mode flag" = Ok m2
    /\ optional_entry (truthy (get data "syncStatus"))
         (bind_text (get data "syncStatus"))
         "syncStatus" "Synchronization status" = Ok m3
    /\ select (fst (saveWasteAudit db id data now)) id
       = map entry_of (section_entries data)
         ++ map entry_of (m1 ++ m2 ++ m3) ++ [("lastSaved", now)].
Proof.
  intros Hsuccess.
  destruct (saveWasteAudit_success db id data now Hsuccess)
    as (es & Hes & _ & Hdb).
  rewrite Hdb, select_append_rows, select_delete. cbn [app].
  revert Hes. unfold save_entries.
  destruct (optional_entry _ (toString (get data "completedSections")) _ _)
    as [m1|e]; cbn [bind]; [|discriminate].
  destruct (optional_entry _ (toString (get data "isQuickMode")) _ _)
    as [m2|e]; cbn [bind]; [|discriminate].
  destruct (optional_entry _ (bind_text (get data "syncStatus")) _ _)
    as [m3|e]; cbn [bind]; [|discriminate].
  intros [= <-]. exists m1, m2, m3. repeat split.
  rewrite !map_app, <- !app_assoc. reflexivity.
Qed.

(** A save that fails is rolled back, the DELETE included. *)
Lemma saveWasteAudit_rollback (db : database) (id : Z) (data : object J)
    (now : string) :
  success (snd (saveWasteAudit db id data now)) = false ->
  fst (saveWasteAudit db id data now) = db.
Proof.
  destruct (foreign_key_ok db id) eqn:Hfk.
  - unfold saveWasteAudit, transaction.
    rewrite saveTransaction_entries by exact Hfk.
    destruct (save_entries data now) as [es|e]; cbn [bind fst snd success];
      [discriminate | reflexivity].
  - destruct (saveWasteAudit_foreign_key db id data now Hfk) as [m Hm].
    rewrite Hm. reflexivity.
Qed.

Lemma exists_when_found_select (db : database) (id : Z) :
  wasteAuditExists db id
  = match select db id with [] => false | _ :: _ => true end.
Proof.
  unfold wasteAuditExists, select. rewrite <- (length_map
    (fun r => (item_key r, response r))).
  destruct (map _ _); reflexivity.
Qed.

(** ** The properties *)

(** X1. [wasteAuditExists] answers [true] exactly for the audits that
    [getWasteAudit] finds: both look for a row of the audit. *)
Theorem exists_when_found (db : database) (id : Z) :
  wasteAuditExists db id
  = match getWasteAudit db id with Some _ => true | None => false end.
Proof.
  unfold wasteAuditExists, getWasteAudit, select. rewrite length_map.
  destruct (filter _ (waste_data db)); reflexivity.
Qed.

(** X2. A save that reports a failure leaves the table as it was: the
    DELETE at its start and the rows written before the exception are
    rolled back with the transaction. *)
Theorem failed_save_changes_nothing (db : database) (id : Z)
    (data : object J) (now : string) :
  success (snd (saveWasteAudit db id data now)) = false ->
  fst (saveWasteAudit db id data now) = db
  /\ wasteAuditId (snd (saveWasteAudit db id data now)) = None
  /\ exists message,
       validationErrors (snd (saveWasteAudit db id data now))
       = Some [message].
Proof.
  intros Hfail. split; [apply saveWasteAudit_rollback; exact Hfail|].
  revert Hfail. unfold saveWasteAudit, transaction.
  destruct (foreign_key_ok db id) eqn:Hfk.
  - rewrite saveTransaction_entries by exact Hfk.
    destruct (save_entries data now) as [es|e];
      cbn [bind fst snd success wasteAuditId validationErrors];
      [discriminate|].
    intros _. split; [reflexivity | eexists; reflexivity].
  - pose proof (saveWasteAudit_foreign_key db id data now Hfk) as [m Hm].
    unfold saveWasteAudit, transaction in Hm.
    destruct (saveTransaction id data now db) as [[db' r]|e].
    + injection Hm as _ Hr. subst r. intros _.
      split; [reflexivity | eexists; reflexivity].
    + intros _. split; [reflexivity | eexists; reflexivity].
Qed.

(** X3. A record whose [completedSections] or [isQuickMode] is [null]
    cannot be saved: the property is not [undefined], so [toString] is
    called on it and throws.  Nothing is written. *)
Theorem null_metadata_fails_the_save (db : database) (id : Z)
    (data : object J) (now : string) :
  get data "completedSections" = VNull \/ get data "isQuickMode" = VNull ->
  success (snd (saveWasteAudit db id data now)) = false
  /\ fst (saveWasteAudit db id data now) = db.
Proof.
  intros Hnull.
  assert (Hfail : success (snd (saveWasteAudit db id data now)) = false).
  { destruct (foreign_key_ok db id) eqn:Hfk.
    - unfold saveWasteAudit, transaction.
      rewrite saveTransaction_entries by exact Hfk.
      unfold save_entries. destruct Hnull as [Hn|Hn]; rewrite Hn.
      + reflexivity.
      + destruct (optional_entry _ _ "completedSections" _);
          reflexivity.
    - destruct (saveWasteAudit_foreign_key db id data now Hfk) as [m Hm].
      rewrite Hm. reflexivity. }
  split; [exact Hfail | apply saveWasteAudit_rollback; exact Hfail].
Qed.

(** X4. A save replaces the record: after it went through, a section
    the record does not carry, or carries as a falsy value, is absent
    even when it was stored before, and [lastSaved] is the time of the
    save. *)
Theorem save_erases_omitted_sections (db : database) (id : Z)
    (data : object J) (now : string) (s : string) :
  success (snd (saveWasteAudit db id data now)) = true ->
  In s sections ->
  truthy (get data s) = false ->
  read_section (fst (saveWasteAudit db id data now)) id s = None
  /\ read_lastSaved (fst (saveWasteAudit db id data now)) id = Some now.
Proof.
  intros Hsuccess Hin Hfalsy.
  destruct (select_saveWasteAudit db id data now Hsuccess)
    as (m1 & m2 & m3 & H1 & H2 & H3 & Hsel).
  split.
  - rewrite read_section_select by exact Hin. rewrite Hsel.
    rewrite !last_some_app, last_some_section_entries by exact Hin.
    rewrite Hfalsy. cbn [last_some fold_left].
    rewrite (decode_section_lastSaved s now Hin).
    apply (last_some_absent JSON_parse).
    rewrite !map_app. intros Hk.
    unfold sections in Hin. cbn [In] in Hin.
    apply in_app_or in Hk. destruct Hk as [Hk|Hk];
      [apply (optional_entry_keys _ _ _ _ _ H1) in Hk|].
    2: apply in_app_or in Hk; destruct Hk as [Hk|Hk];
      [apply (optional_entry_keys _ _ _ _ _ H2) in Hk
      |apply (optional_entry_keys _ _ _ _ _ H3) in Hk].
    all: subst s;
      destruct Hin as [E|[E|[E|[E|[E|[E|[]]]]]]]; discriminate E.
  - rewrite read_lastSaved_select, Hsel, !app_assoc, last_some_app.
    reflexivity.
Qed.

(** X5. What is read after a save that went through depends on the
    record and on the time of the save only, not on what the table held
    for the audit before. *)
Theorem save_forgets_earlier_rows (db1 db2 : database) (id : Z)
    (data : object J) (now : string) :
  success (snd (saveWasteAudit db1 id data now)) = true ->
  success (snd (saveWasteAudit db2 id data now)) = true ->
  getWasteAudit (fst (saveWasteAudit db1 id data now)) id
  = getWasteAudit (fst (saveWasteAudit db2 id data now)) id.
Proof.
  intros Hs1 Hs2. apply getWasteAudit_select.
  destruct (saveWasteAudit_success db1 id data now Hs1) as (es1 & He1 & _ & Hd1).
  destruct (saveWasteAudit_success db2 id data now Hs2) as (es2 & He2 & _ & Hd2).
  rewrite Hd1, Hd2, !select_append_rows, !select_delete.
  congruence.
Qed.

(** X6. Saving, updating or deleting one audit changes what is read for
    no other audit. *)
Theorem other_audits_are_untouched (db : database)
    (images : list image) (id a : Z) (data updates : object J)
    (now : string) :
  a <> id ->
  getWasteAudit (fst (saveWasteAudit db id data now)) a = getWasteAudit db a
  /\ getWasteAudit (fst (updateWasteAudit db id updates now)) a
     = getWasteAudit db a
  /\ getWasteAudit (fst (fst (deleteWasteAudit db images id))) a
     = getWasteAudit db a
  /\ (forall i, image_audit_id i = a ->
        In i (snd (fst (deleteWasteAudit db images id))) <-> In i images).
Proof.
  intros Ha. split; [|split; [|split]].
  - apply getWasteAudit_select.
    destruct (saveWasteAudit_cases db id data now) as [E|[es E]];
      rewrite E; [reflexivity|].
    rewrite select_append_rows_other by exact Ha.
    apply select_delete_other. exact Ha.
  - apply getWasteAudit_select.
    destruct (foreign_key_ok db id) eqn:Hfk.
    + rewrite updateWasteAudit_ok by exact Hfk. cbn [fst].
      apply select_append_rows_other. exact Ha.
    + rewrite updateWasteAudit_foreign_key by exact Hfk. reflexivity.
  - apply getWasteAudit_select. cbn [deleteWasteAudit fst].
    apply select_delete_other. exact Ha.
  - intros i Hi. cbn [deleteWasteAudit fst snd]. unfold delete_images.
    rewrite filter_In, Hi. destruct (a =? id) eqn:E.
    + apply Z.eqb_eq in E. contradiction.
    + cbn [negb]. tauto.
Qed.

(** X7. [updateWasteAudit] never replaces or removes a row, whatever
    the table holds: every row stays where it was and the new rows, all
    of the audit, come after them. *)
Theorem update_only_appends (db : database) (id : Z) (updates : object J)
    (now : string) :
  exists rows,
    waste_data (fst (updateWasteAudit db id updates now))
    = waste_data db ++ rows
    /\ Forall (fun r => audit_id r = id) rows.
Proof.
  destruct (foreign_key_ok db id) eqn:Hfk.
  - rewrite updateWasteAudit_ok by exact Hfk. cbn [fst].
    destruct (waste_data_append_rows db id
                (update_entries updates
                 ++ [("lastSaved", now, "Last updated timestamp")]))
      as (rows & Hrows & Hid & _).
    exists rows. split; assumption.
  - rewrite updateWasteAudit_foreign_key by exact Hfk. cbn [fst].
    exists []. rewrite app_nil_r. split; [reflexivity | constructor].
Qed.

(** X8. An update succeeds exactly when the insert passes the
    foreign-key check: for a registered audit no updates object makes it
    fail, and it needs no row of the audit to be there. *)
Theorem update_succeeds_when_registered (db : database) (id : Z)
    (updates : object J) (now : string) :
  snd (updateWasteAudit db id updates now) = foreign_key_ok db id
  /\ wasteAuditExists (fst (updateWasteAudit db id updates now)) id
     = wasteAuditExists db id || foreign_key_ok db id.
Proof.
  destruct (foreign_key_ok db id) eqn:Hfk.
  - split; [rewrite updateWasteAudit_ok by exact Hfk; reflexivity|].
    rewrite orb_true_r, exists_when_found_select.
    rewrite select_updateWasteAudit by exact Hfk.
    destruct (select db id); [|reflexivity].
    destruct (map entry_of (update_entries updates)); reflexivity.
  - rewrite updateWasteAudit_foreign_key by exact Hfk. cbn [fst snd].
    rewrite orb_false_r. split; reflexivity.
Qed.

(** The rows of a section after an update that went through. *)
Lemma section_rows_after_update (db : database) (id : Z)
    (updates : object J) (now : string) (s : string) :
  foreign_key_ok db id = true ->
  In s sections ->
  last_some (decode_section s)
            (select (fst (updateWasteAudit db id updates now)) id) None
  = if is_undefined (get updates s)
    then last_some (decode_section s) (select db id) None
    else or_else (JSON_parse (update_text (get updates s)))
                 (last_some (decode_section s) (select db id) None).
Proof.
  intros Hfk Hin.
  rewrite select_updateWasteAudit by exact Hfk.
  rewrite !last_some_app.
  cbn [last_some fold_left].
  rewrite (decode_section_lastSaved s now Hin).
  apply (last_some_update_entries JSON_parse).
Qed.

(** X9. An update merges: a section the updates object does not
    define reads as before; a defined one reads as [JSON.parse] of the
    text written for it, [JSON.stringify] of an object or [toString] of
    anything else, and as before when that text does not parse. *)
Theorem update_merges_sections (db : database) (id : Z)
    (updates : object J) (now : string) (s : string) :
  foreign_key_ok db id = true ->
  In s sections ->
  read_section (fst (updateWasteAudit db id updates now)) id s
  = if is_undefined (get updates s) then read_section db id s
    else or_else (JSON_parse (update_text (get updates s)))
                 (read_section db id s).
Proof.
  intros Hfk Hin.
  rewrite !read_section_select by exact Hin.
  apply section_rows_after_update; assumption.
Qed.

(** X10. The metadata an update carries is read back: a safe integer
    [completedSections] (below 2^53 in absolute value, where [toString]
    prints the digits of the number and [parseInt] reads them back
    exactly), a boolean [isQuickMode], any [syncStatus] string, the empty
    one included; [lastSaved] is the time of the update, whatever the
    updates object says. *)
Theorem update_metadata_round_trip (db : database) (id : Z)
    (updates : object J) (now : string) :
  foreign_key_ok db id = true ->
  let db' := fst (updateWasteAudit db id updates now) in
  read_lastSaved db' id = Some now
  /\ (forall z, isSafeInteger (Num z) = true ->
        get updates "completedSections" = VNum (Num z) ->
        read_completedSections db' id = Some (Num z))
  /\ (forall b, get updates "isQuickMode" = VBool b ->
        read_isQuickMode db' id = Some b)
  /\ (forall text, get updates "syncStatus" = VStr text ->
        read_syncStatus db' id = Some text)
  /\ (get updates "completedSections" = VUndefined ->
        read_completedSections db' id = read_completedSections db id)
  /\ (get updates "isQuickMode" = VUndefined ->
        read_isQuickMode db' id = read_isQuickMode db id)
  /\ (get updates "syncStatus" = VUndefined ->
        read_syncStatus db' id = read_syncStatus db id).
Proof.
  intros Hfk db'. subst db'.
  rewrite read_lastSaved_select, !read_completedSections_select,
    !read_isQuickMode_select, !read_syncStatus_select.
  rewrite select_updateWasteAudit by exact Hfk.
  rewrite !last_some_app.
  cbn [last_some fold_left decode_text decode_completedSections
       decode_isQuickMode fst snd String.eqb Ascii.eqb Bool.eqb].
  pose proof (last_some_update_entries (fun t => Some (parseInt t))
                "completedSections" updates) as HC.
  pose proof (last_some_update_entries
                (fun t => Some (String.eqb t "true"))
                "isQuickMode" updates) as HQ.
  pose proof (last_some_update_entries Some "syncStatus" updates) as HS.
  unfold decode_completedSections, decode_isQuickMode, decode_text.
  split; [reflexivity|].
  split; [|split; [|split; [|split; [|split]]]].
  - intros z _ Hz. rewrite HC, Hz. cbn [is_undefined or_else].
    unfold update_text. cbn [typeof_object toString].
    rewrite parseInt_toString. reflexivity.
  - intros b Hb. rewrite HQ, Hb. cbn [is_undefined or_else].
    unfold update_text. cbn [typeof_object toString].
    destruct b; reflexivity.
  - intros text Ht. rewrite HS, Ht. reflexivity.
  - intros Hu. rewrite HC, Hu. reflexivity.
  - intros Hu. rewrite HQ, Hu. reflexivity.
  - intros Hu. rewrite HS, Hu. reflexivity.
Qed.

(** X11. After [deleteWasteAudit] the audit is not found and has no
    image left, the images of the other audits are all there, and the
    audit is as registered as before: the row of [audits] is not
    deleted, so the audit can be saved again. *)
Theorem delete_removes_the_audit (db : database) (images : list image)
    (id : Z) :
  let '(db', images', deleted) := deleteWasteAudit db images id in
  deleted = true
  /\ getWasteAudit db' id = None
  /\ wasteAuditExists db' id = false
  /\ (forall i, In i images' <-> In i images /\ image_audit_id i <> id)
  /\ (forall a, foreign_key_ok db' a = foreign_key_ok db a).
Proof.
  cbn [deleteWasteAudit].
  assert (Hnone : getWasteAudit (delete db id) id = None)
    by (unfold getWasteAudit; rewrite select_delete; reflexivity).
  split; [reflexivity|]. split; [exact Hnone|].
  split; [rewrite exists_when_found_select, select_delete; reflexivity|].
  split; [|reflexivity].
  intros i. unfold delete_images. rewrite filter_In.
  destruct (image_audit_id i =? id) eqn:E; cbn [negb].
  - apply Z.eqb_eq in E. split; [intros [_ [=]] | tauto].
  - apply Z.eqb_neq in E. tauto.
Qed.

(** X12. Deleting an audit again changes nothing more. *)
Theorem delete_twice_is_delete_once (db : database) (images : list image)
    (id : Z) :
  let '(db', images', _) := deleteWasteAudit db images id in
  deleteWasteAudit db' images' id = (db', images', true).
Proof.
  unfold deleteWasteAudit, delete, delete_images, with_waste_data.
  cbn [waste_data waste_data_seq foreign_keys audits].
  assert (Hidem : forall (A : Type) (p : A -> bool) (l : list A),
             filter p (filter p l) = filter p l).
  { intros A p l. induction l as [|x l IH]; [reflexivity|].
    cbn [filter]. destruct (p x) eqn:E; [|exact IH].
    cbn [filter]. rewrite E, IH. reflexivity. }
  rewrite !Hidem. reflexivity.
Qed.

End Store.

Import JsonFragment.

(** X2 at a saved audit and a record whose counter is [null]: the rows
    of the first save are all there. *)
Lemma failed_save_changes_nothing_witness :
  success (snd (saveWasteAudit Scenarios.saved 1 Scenarios.null_counter
                  "2024-03-01T09:10:01.000Z")) = false
  /\ fst (saveWasteAudit Scenarios.saved 1 Scenarios.null_counter
            "2024-03-01T09:10:01.000Z") = Scenarios.saved
  /\ map fst (select Scenarios.saved 1)
     = [ "behavioralTraining"; "completedSections"; "isQuickMode";
         "syncStatus"; "lastSaved" ]%string.
Proof.
  assert (Hfail : success (snd (saveWasteAudit Scenarios.saved 1
                                  Scenarios.null_counter
                                  "2024-03-01T09:10:01.000Z")) = false)
    by (vm_compute; reflexivity).
  split; [exact Hfail|]. split; [|vm_compute; reflexivity].
  exact (proj1 (failed_save_changes_nothing Scenarios.saved 1
                  Scenarios.null_counter "2024-03-01T09:10:01.000Z"
                  Hfail)).
Defined.

(** X3 at the same record, for an audit nothing is stored for. *)
Lemma null_metadata_fails_the_save_witness :
  get Scenarios.null_counter "completedSections" = VNull
  /\ success (snd (saveWasteAudit Examples.registered 1
                     Scenarios.null_counter "2024-03-01T09:10:01.000Z"))
     = false
  /\ fst (saveWasteAudit Examples.registered 1 Scenarios.null_counter
            "2024-03-01T09:10:01.000Z") = Examples.registered.
Proof.
  assert (Hnull : get Scenarios.null_counter "completedSections" = VNull)
    by (vm_compute; reflexivity).
  split; [exact Hnull|].
  exact (null_metadata_fails_the_save Examples.registered 1
           Scenarios.null_counter "2024-03-01T09:10:01.000Z"
           (or_introl Hnull)).
Defined.

(** X4 at a saved audit with a training section, saved again with a
    record that carries the infrastructure only. *)
Lemma save_erases_omitted_sections_witness :
  success (snd (saveWasteAudit Scenarios.saved 1 Examples.autosave_record
                  "2024-03-01T09:10:01.000Z")) = true
  /\ In "behavioralTraining"%string sections
  /\ truthy (get Examples.autosave_record "behavioralTraining") = false
  /\ read_section Scenarios.saved 1 "behavioralTraining"
     = Some Examples.training
  /\ read_section
       (fst (saveWasteAudit Scenarios.saved 1 Examples.autosave_record
               "2024-03-01T09:10:01.000Z")) 1 "behavioralTraining" = None
  /\ read_lastSaved
       (fst (saveWasteAudit Scenarios.saved 1 Examples.autosave_record
               "2024-03-01T09:10:01.000Z")) 1
     = Some "2024-03-01T09:10:01.000Z"%string.
Proof.
  assert (Hin : In "behavioralTraining"%string sections)
    by (unfold sections; cbn [In]; tauto).
  assert (Hsaved : success (snd (saveWasteAudit Scenarios.saved 1
                                   Examples.autosave_record
                                   "2024-03-01T09:10:01.000Z")) = true)
    by (vm_compute; reflexivity).
  assert (Hfalsy : truthy (get Examples.autosave_record
                             "behavioralTraining") = false)
    by (vm_compute; reflexivity).
  split; [exact Hsaved|]. split; [exact Hin|].
  split; [exact Hfalsy|]. split; [vm_compute; reflexivity|].
  exact (save_erases_omitted_sections Scenarios.saved 1
           Examples.autosave_record "2024-03-01T09:10:01.000Z"
           "behavioralTraining" Hsaved Hin Hfalsy).
Defined.

(** X5 at the same record saved over an empty table and over a saved
    audit. *)
Lemma save_forgets_earlier_rows_witness :
  success (snd (saveWasteAudit Examples.registered 1
                  Examples.autosave_record "2024-03-01T09:10:01.000Z"))
  = true
  /\ success (snd (saveWasteAudit Scenarios.saved 1
                     Examples.autosave_record "2024-03-01T09:10:01.000Z"))
     = true
  /\ getWasteAudit
       (fst (saveWasteAudit Examples.registered 1
               Examples.autosave_record "2024-03-01T09:10:01.000Z")) 1
     = getWasteAudit
         (fst (saveWasteAudit Scenarios.saved 1
                 Examples.autosave_record "2024-03-01T09:10:01.000Z")) 1.
Proof.
  assert (Hfirst : success (snd (saveWasteAudit Examples.registered 1
                                   Examples.autosave_record
                                   "2024-03-01T09:10:01.000Z")) = true)
    by (vm_compute; reflexivity).
  assert (Hagain : success (snd (saveWasteAudit Scenarios.saved 1
                                   Examples.autosave_record
                                   "2024-03-01T09:10:01.000Z")) = true)
    by (vm_compute; reflexivity).
  split; [exact Hfirst|]. split; [exact Hagain|].
  exact (save_forgets_earlier_rows Examples.registered Scenarios.saved 1
           Examples.autosave_record "2024-03-01T09:10:01.000Z"
           Hfirst Hagain).
Defined.

(** X6 at two saved audits: audit 2 reads the same whatever is done to
    audit 1. *)
Lemma other_audits_are_untouched_witness :
  2 <> 1
  /\ getWasteAudit Scenarios.two_audits 2 <> None
  /\ getWasteAudit
       (fst (saveWasteAudit Scenarios.two_audits 1 Examples.autosave_record
               "2024-03-03T08:00:01.000Z")) 2
     = getWasteAudit Scenarios.two_audits 2
  /\ getWasteAudit
       (fst (updateWasteAudit Scenarios.two_audits 1
               Examples.autosave_record "2024-03-03T08:00:01.000Z")) 2
     = getWasteAudit Scenarios.two_audits 2
  /\ getWasteAudit
       (fst (fst (deleteWasteAudit Scenarios.two_audits Scenarios.photos 1)))
       2
     = getWasteAudit Scenarios.two_audits 2.
Proof.
  assert (Hne : 2 <> 1) by lia.
  split; [exact Hne|]. split; [vm_compute; discriminate|].
  pose proof (other_audits_are_untouched Scenarios.two_audits
                Scenarios.photos 1 2 Examples.autosave_record
                Examples.autosave_record "2024-03-03T08:00:01.000Z" Hne)
    as (Hsave & Hupdate & Hdelete & _).
  split; [exact Hsave|]. split; [exact Hupdate | exact Hdelete].
Defined.

(** X9 at a saved audit with a training section and an update that
    carries the infrastructure: the one is kept, the other read back. *)
Lemma update_merges_sections_witness :
  foreign_key_ok Scenarios.saved 1 = true
  /\ read_section
       (fst (updateWasteAudit Scenarios.saved 1 Examples.autosave_record
               "2024-03-01T09:05:01.000Z")) 1 "behavioralTraining"
     = Some Examples.training
  /\ read_section
       (fst (updateWasteAudit Scenarios.saved 1 Examples.autosave_record
               "2024-03-01T09:05:01.000Z")) 1 "facilityInfrastructure"
     = Some Examples.infrastructure.
Proof.
  assert (Hkept : In "behavioralTraining"%string sections)
    by (unfold sections; cbn [In]; tauto).
  assert (Hnew : In "facilityInfrastructure"%string sections)
    by (unfold sections; cbn [In]; tauto).
  assert (Hfk : foreign_key_ok Scenarios.saved 1 = true)
    by (vm_compute; reflexivity).
  split; [exact Hfk|]. split.
  - rewrite (update_merges_sections Scenarios.saved 1
               Examples.autosave_record "2024-03-01T09:05:01.000Z"
               "behavioralTraining" Hfk Hkept).
    vm_compute; reflexivity.
  - rewrite (update_merges_sections Scenarios.saved 1
               Examples.autosave_record "2024-03-01T09:05:01.000Z"
               "facilityInfrastructure" Hfk Hnew).
    vm_compute; reflexivity.
Defined.

(** X10 at the record of the autosave route: the status is the one of
    the update, the counter the one of the save and the time the one of
    the store; and at an update of the counter alone. *)
Lemma update_metadata_round_trip_witness :
  foreign_key_ok Scenarios.saved 1 = true
  /\ read_lastSaved
       (fst (updateWasteAudit Scenarios.saved 1 Examples.autosave_record
               "2024-03-01T09:05:01.000Z")) 1
     = Some "2024-03-01T09:05:01.000Z"%string
  /\ read_syncStatus
       (fst (updateWasteAudit Scenarios.saved 1 Examples.autosave_record
               "2024-03-01T09:05:01.000Z")) 1
     = Some "pending"%string
  /\ read_completedSections
       (fst (updateWasteAudit Scenarios.saved 1 Examples.autosave_record
               "2024-03-01T09:05:01.000Z")) 1
     = Some (Num 1)
  /\ read_completedSections
       (fst (updateWasteAudit Scenarios.saved 1
               [("completedSections", VNum (Num 4))]
               "2024-03-01T09:05:01.000Z")) 1
     = Some (Num 4).
Proof.
  assert (Hfk : foreign_key_ok Scenarios.saved 1 = true)
    by (vm_compute; reflexivity).
  assert (Hfour : get [("completedSections", VNum (Num 4) : value json)]
                    "completedSections"
                  = VNum (Num 4)) by (vm_compute; reflexivity).
  assert (Hsafe : isSafeInteger (Num 4) = true) by (vm_compute; reflexivity).
  pose proof (update_metadata_round_trip Scenarios.saved 1
                [("completedSections", VNum (Num 4))]
                "2024-03-01T09:05:01.000Z" Hfk)
    as (_ & Hfourth & _).
  assert (Hpending : get Examples.autosave_record "syncStatus"
                     = VStr "pending") by (vm_compute; reflexivity).
  assert (Hnone : get Examples.autosave_record "completedSections"
                  = VUndefined) by (vm_compute; reflexivity).
  pose proof (update_metadata_round_trip Scenarios.saved 1
                Examples.autosave_record "2024-03-01T09:05:01.000Z" Hfk)
    as (Htime & _ & _ & Hstatus & Hcounter & _).
  split; [exact Hfk|]. split; [exact Htime|].
  split; [exact (Hstatus "pending"%string Hpending)|].
  split; [rewrite (Hcounter Hnone); vm_compute; reflexivity|].
  exact (Hfourth 4 Hsafe Hfour).
Defined.

End StoreFacts.

(* ================================================================== *)
(** * Facts about the summaries and the statistics                     *)
(* ================================================================== *)

Module ListingFacts.
Import Js Sqlite SqliteFacts JsFacts Operations OperationsFacts Listing.
Local Open Scope list_scope.

(** ** Lists *)

Lemma filter_all {A : Type} (p : A -> bool) (l : list A) :
  (forall x, In x l -> p x = true) -> filter p l = l.
Proof.
  induction l as [|x l IH]; intros Hall; [reflexivity|].
  cbn [filter]. rewrite (Hall x (or_introl eq_refl)). f_equal.
  apply IH. intros y Hy. apply Hall. right. exact Hy.
Qed.

Lemma filter_none {A : Type} (p : A -> bool) (l : list A) :
  (forall x, In x l -> p x = false) -> filter p l = [].
Proof.
  induction l as [|x l IH]; intros Hall; [reflexivity|].
  cbn [filter]. rewrite (Hall x (or_introl eq_refl)).
  apply IH. intros y Hy. apply Hall. right. exact Hy.
Qed.

Lemma filter_map_swap {A B : Type} (f : A -> B) (p : B -> bool)
    (l : list A) :
  filter p (map f l) = map f (filter (fun x => p (f x)) l).
Proof.
  induction l as [|x l IH]; [reflexivity|].
  cbn [map filter]. destruct (p (f x)); cbn [map]; rewrite IH; reflexivity.
Qed.

Lemma filter_filter {A : Type} (p q : A -> bool) (l : list A) :
  filter p (filter q l) = filter (fun x => q x && p x) l.
Proof.
  induction l as [|x l IH]; [reflexivity|].
  cbn [filter]. destruct (q x); cbn [filter andb]; rewrite IH; reflexivity.
Qed.

Lemma existsb_map_swap {A B : Type} (f : A -> B) (p : B -> bool)
    (l : list A) :
  existsb p (map f l) = existsb (fun x => p (f x)) l.
Proof.
  induction l as [|x l IH]; [reflexivity|].
  cbn [map existsb]. rewrite IH. reflexivity.
Qed.

Lemma nonempty_filter {A : Type} (p : A -> bool) (l : list A) :
  (0 <? length (filter p l))%nat = existsb p l.
Proof.
  induction l as [|x l IH]; [reflexivity|].
  cbn [filter existsb]. destruct (p x); [reflexivity | exact IH].
Qed.

Lemma Permutation_filter_same {A : Type} (p : A -> bool) (l l' : list A) :
  Permutation l l' -> Permutation (filter p l) (filter p l').
Proof.
  induction 1 as [|x l l' _ IH|x y l|l l' l'' _ IH1 _ IH2].
  - constructor.
  - cbn [filter]. destruct (p x); [constructor|]; exact IH.
  - cbn [filter]. destruct (p x), (p y); try reflexivity. constructor.
  - exact (Permutation_trans IH1 IH2).
Qed.

Lemma list_sum_cons (n : nat) (l : list nat) :
  list_sum (n :: l) = (n + list_sum l)%nat.
Proof. reflexivity. Qed.

Lemma length_flat_map_sum {A B : Type} (f : A -> list B) (l : list A) :
  length (flat_map f l) = list_sum (map (fun x => length (f x)) l).
Proof.
  induction l as [|x l IH]; [reflexivity|].
  cbn [flat_map map]. rewrite list_sum_cons, length_app, IH. reflexivity.
Qed.

Lemma length_flat_map_const {A B : Type} (f : A -> list B) (n : nat)
    (l : list A) :
  (forall x, length (f x) = n) ->
  length (flat_map f l) = (length l * n)%nat.
Proof.
  intros Hn. induction l as [|x l IH]; [reflexivity|].
  cbn [flat_map length]. rewrite length_app, IH, Hn. lia.
Qed.

Lemma list_sum_le {A : Type} (f g : A -> nat) (l : list A) :
  (forall x, In x l -> (f x <= g x)%nat) ->
  (list_sum (map f l) <= list_sum (map g l))%nat.
Proof.
  induction l as [|x l IH]; intros Hle; [apply le_n|].
  cbn [map]. rewrite !list_sum_cons.
  pose proof (Hle x (or_introl eq_refl)).
  assert (list_sum (map f l) <= list_sum (map g l))%nat
    by (apply IH; intros y Hy; apply Hle; right; exact Hy).
  lia.
Qed.

Lemma list_sum_lt {A : Type} (f g : A -> nat) (l : list A) (a : A) :
  (forall x, In x l -> (f x <= g x)%nat) ->
  In a l -> (f a < g a)%nat ->
  (list_sum (map f l) < list_sum (map g l))%nat.
Proof.
  induction l as [|x l IH]; intros Hle Hin Hlt; [destruct Hin|].
  cbn [map]. rewrite !list_sum_cons.
  pose proof (Hle x (or_introl eq_refl)).
  assert (Htail : forall y, In y l -> (f y <= g y)%nat)
    by (intros y Hy; apply Hle; right; exact Hy).
  pose proof (list_sum_le f g l Htail).
  destruct Hin as [->|Hin]; [lia|].
  specialize (IH Htail Hin Hlt). lia.
Qed.

(** ** The query *)

Lemma insert_sorted_perm (x : joined) (l : list joined) :
  Permutation (insert_sorted x l) (x :: l).
Proof.
  induction l as [|y l IH]; [reflexivity|].
  cbn [insert_sorted]. destruct (sorts_before x y); [reflexivity|].
  apply Permutation_trans with (y :: x :: l);
    [constructor; exact IH | constructor].
Qed.

(** ORDER BY returns the rows it is given. *)
Lemma order_by_perm (l : list joined) : Permutation (order_by l) l.
Proof.
  unfold order_by. induction l as [|x l IH]; [reflexivity|].
  cbn [fold_right].
  apply Permutation_trans with (x :: fold_right insert_sorted [] l);
    [apply insert_sorted_perm | constructor; exact IH].
Qed.

Lemma length_left_join (db : database) (a : audit) (key : string) :
  length (left_join db a key) = Nat.max 1 (matches db a key).
Proof.
  unfold left_join, matches.
  destruct (filter _ (waste_data db)) as [|r rows]; [reflexivity|].
  rewrite length_map. cbn [length]. lia.
Qed.

Lemma length_join (db : database) (a : audit) :
  length (join db a)
  = (Nat.max 1 (matches db a "completedSections")
     * Nat.max 1 (matches db a "syncStatus")
     * Nat.max 1 (matches db a "lastSaved"))%nat.
Proof.
  unfold join.
  rewrite (length_flat_map_const _
             (Nat.max 1 (matches db a "syncStatus")
              * Nat.max 1 (matches db a "lastSaved"))).
  - rewrite length_left_join. lia.
  - intros completed.
    rewrite (length_flat_map_const _ (Nat.max 1 (matches db a "lastSaved"))).
    + rewrite length_left_join. reflexivity.
    + intros sync. rewrite length_map. apply length_left_join.
Qed.

Lemma join_audit (db : database) (a : audit) (j : joined) :
  In j (join db a) -> joined_audit j = a.
Proof.
  unfold join. intros Hj.
  apply in_flat_map in Hj. destruct Hj as (c & _ & Hj).
  apply in_flat_map in Hj. destruct Hj as (s & _ & Hj).
  apply in_map_iff in Hj. destruct Hj as (m & <- & _). reflexivity.
Qed.

(** The rows a join matches are the rows of the audit with the key. *)
Lemma left_join_select (db : database) (a : audit) (key : string) :
  map (fun r => (item_key r, response r))
      (filter (fun r => (audit_id r =? audits_id a)
                        && String.eqb (item_key r) key) (waste_data db))
  = filter (fun e => String.eqb (fst e) key) (select db (audits_id a)).
Proof.
  unfold select. rewrite filter_map_swap, filter_filter. reflexivity.
Qed.

Lemma matches_select (db : database) (a : audit) (key : string) :
  matches db a key
  = length (filter (fun e : string * string => String.eqb (fst e) key)
                   (select db (audits_id a))).
Proof.
  unfold matches. rewrite <- left_join_select, length_map. reflexivity.
Qed.

Lemma all_distinct_filter (key : string) (l : list (string * string)) :
  Database.all_distinct (map fst l) = true ->
  (length (filter (fun e => String.eqb (fst e) key) l) <= 1)%nat.
Proof.
  induction l as [|[k r] l IH]; [intros _; apply le_S, le_n|].
  cbn [map Database.all_distinct fst filter].
  intros Hd. apply andb_prop in Hd. destruct Hd as [Hfresh Hd].
  specialize (IH Hd). destruct (String.eqb k key) eqn:Ek; [|exact IH].
  apply String.eqb_eq in Ek. subst k.
  rewrite filter_none; [apply le_n|].
  intros [k' r'] Hin. cbn [fst].
  destruct (String.eqb k' key) eqn:Ek'; [|reflexivity].
  apply String.eqb_eq in Ek'. subst k'.
  apply negb_true_iff in Hfresh.
  assert (Hex : existsb (String.eqb key) (map fst l) = true).
  { apply existsb_exists. exists key. split; [|apply String.eqb_refl].
    apply in_map_iff. exists (key, r'). split; [reflexivity | exact Hin]. }
  congruence.
Qed.

(** ** The properties of the summaries *)

(** The number of summaries: every audit of the table is listed, once
    per combination of its [completedSections], [syncStatus] and
    [lastSaved] rows, a key without a row counting as one. *)
Lemma length_getAllWasteAudits (audits : list audit) (db : database) :
  length (getAllWasteAudits audits db)
  = list_sum
      (map (fun a =>
              Nat.max 1 (matches db a "completedSections")
              * Nat.max 1 (matches db a "syncStatus")
              * Nat.max 1 (matches db a "lastSaved"))%nat
           audits).
Proof.
  unfold getAllWasteAudits.
  rewrite length_map, (Permutation_length (order_by_perm _)).
  rewrite length_flat_map_sum. f_equal.
  apply map_ext. intros a. apply length_join.
Qed.

(** A join that matches one row at most returns one response. *)
Lemma left_join_once (db : database) (a : audit) (key : string) :
  (matches db a key <= 1)%nat ->
  left_join db a key = [hd None (left_join db a key)].
Proof.
  unfold matches, left_join.
  destruct (filter _ (waste_data db)) as [|r [|r' rows]];
    [reflexivity | reflexivity | cbn [length]; lia].
Qed.

Lemma join_once (db : database) (a : audit) :
  Database.unique_keys db (audits_id a) = true ->
  join db a = [joined_once db a].
Proof.
  intros Hunique. unfold Database.unique_keys in Hunique.
  assert (Hone : forall key, (matches db a key <= 1)%nat)
    by (intros key; rewrite matches_select;
        apply all_distinct_filter; exact Hunique).
  unfold join, joined_once.
  rewrite (left_join_once db a "completedSections") by apply Hone.
  rewrite (left_join_once db a "syncStatus") by apply Hone.
  rewrite (left_join_once db a "lastSaved") by apply Hone.
  reflexivity.
Qed.

Lemma flat_map_singletons (A B : Type) (f : A -> list B) (g : A -> B)
    (l : list A) :
  (forall a, In a l -> f a = [g a]) -> flat_map f l = map g l.
Proof.
  induction l as [|a l IH]; [reflexivity|].
  intros Hf. cbn [flat_map map].
  rewrite (Hf a (or_introl eq_refl)), IH
    by (intros b Hb; apply Hf; right; exact Hb).
  reflexivity.
Qed.

(** X13. When no audit has two rows of one item key, the list has
    exactly one summary per row of [audits]: it is, in some order, the
    summaries of the audits' rows, each joined to the one response (or
    NULL) of its [completedSections], [syncStatus] and [lastSaved]
    rows. *)
Theorem one_summary_per_audit (audits : list audit) (db : database) :
  (forall a, In a audits -> Database.unique_keys db (audits_id a) = true) ->
  Permutation (getAllWasteAudits audits db)
    (map (fun a => to_summary (joined_once db a)) audits).
Proof.
  intros Hunique. unfold getAllWasteAudits.
  rewrite (flat_map_singletons _ _ (join db) (joined_once db))
    by (intros a Ha; apply join_once, Hunique, Ha).
  rewrite <- (map_map (joined_once db) to_summary).
  apply Permutation_map, order_by_perm.
Qed.

(** X15. An audit nothing is stored for is listed all the same, with 0
    completed sections, status 'offline' and the time the audit was
    created. *)
Theorem never_saved_audit_is_listed (audits : list audit) (db : database)
    (a : audit) :
  In a audits ->
  wasteAuditExists db (audits_id a) = false ->
  In {| id := audits_id a; auditId := audits_id a;
        centreName := centre_name a; auditDate := audit_date a;
        auditorName := auditor_name a; completedSections := Num 0;
        lastModified := created_at a; syncStatus := "offline" |}
     (getAllWasteAudits audits db).
Proof.
  intros Hin Hnone. unfold getAllWasteAudits.
  assert (Hjoin : forall key, left_join db a key = [None]).
  { intros key. unfold left_join.
    rewrite filter_none; [reflexivity|].
    intros r Hr. destruct (audit_id r =? audits_id a) eqn:E; [|reflexivity].
    exfalso. revert Hnone. unfold wasteAuditExists.
    assert (Hr' : In r (filter (fun r => audit_id r =? audits_id a)
                               (waste_data db)))
      by (apply filter_In; split; assumption).
    destruct (filter _ (waste_data db)); [destruct Hr' | discriminate]. }
  apply in_map_iff.
  exists {| joined_audit := a; completed_sections := None;
            sync_status := None; last_modified := None |}.
  split; [reflexivity|].
  apply (Permutation_in _ (Permutation_sym (order_by_perm _))).
  apply in_flat_map. exists a. split; [exact Hin|].
  unfold join. rewrite !Hjoin. left. reflexivity.
Qed.

(** X16. The summaries of a centre are the summaries of all audits
    whose centre name is the one asked for, up to the order of the rows
    that tie in the ORDER BY. *)
Theorem center_list_is_the_filtered_list (centerName : string)
    (audits : list audit) (db : database) :
  Permutation
    (getWasteAuditsByCenter centerName audits db)
    (filter (fun s => String.eqb (centreName s) centerName)
            (getAllWasteAudits audits db)).
Proof.
  unfold getWasteAuditsByCenter, getAllWasteAudits.
  apply Permutation_trans
    with (map to_summary
            (flat_map (join db)
               (filter (fun a => String.eqb (centre_name a) centerName)
                       audits))).
  { apply Permutation_map, order_by_perm. }
  apply Permutation_trans
    with (filter (fun s => String.eqb (centreName s) centerName)
                 (map to_summary (flat_map (join db) audits))).
  2: { apply Permutation_filter_same, Permutation_map, Permutation_sym,
         order_by_perm. }
  rewrite filter_map_swap.
  replace (filter (fun j => String.eqb (centreName (to_summary j)) centerName)
                  (flat_map (join db) audits))
    with (flat_map (join db)
            (filter (fun a => String.eqb (centre_name a) centerName)
                    audits)); [reflexivity|].
  induction audits as [|a audits IH]; [reflexivity|].
  cbn [filter flat_map]. rewrite filter_app.
  destruct (String.eqb (centre_name a) centerName) eqn:E.
  - cbn [flat_map]. rewrite IH. f_equal. symmetry. apply filter_all.
    intros j Hj. rewrite <- (join_audit db a j Hj) in E. exact E.
  - rewrite IH, (filter_none _ (join db a)); [reflexivity|].
    intros j Hj. rewrite <- (join_audit db a j Hj) in E. exact E.
Qed.

(** ** The statistics *)

Lemma length_nodup_le (l : list Z) :
  (length (nodup Z.eq_dec l) <= length l)%nat.
Proof.
  induction l as [|x l IH]; [apply le_n|].
  cbn [nodup length]. destruct (in_dec Z.eq_dec x l); cbn [length]; lia.
Qed.

Lemma count_distinct_incl (l l' : list Z) :
  incl l l' -> (count_distinct l <= count_distinct l')%nat.
Proof.
  intros Hincl. unfold count_distinct.
  apply NoDup_incl_length; [apply NoDup_nodup|].
  intros x Hx. apply nodup_In. apply Hincl. apply nodup_In in Hx. exact Hx.
Qed.

(** Removing every occurrence of one value removes one distinct value,
    when it was there. *)
Lemma count_distinct_remove (id : Z) (l : list Z) :
  (count_distinct (filter (fun x => negb (x =? id)%Z) l)
   + (if existsb (fun x => (x =? id)%Z) l then 1 else 0)
   = count_distinct l)%nat.
Proof.
  unfold count_distinct. induction l as [|x l IH]; [reflexivity|].
  cbn [filter existsb nodup]. destruct (x =? id) eqn:E; cbn [negb orb].
  - apply Z.eqb_eq in E. subst x.
    destruct (in_dec Z.eq_dec id l) as [Hin|Hout].
    + assert (Hex : existsb (fun x => x =? id) l = true)
        by (apply existsb_exists; exists id; split;
            [exact Hin | apply Z.eqb_refl]).
      rewrite Hex in IH. exact IH.
    + assert (Hex : existsb (fun x => x =? id) l = false).
      { destruct (existsb (fun x => x =? id) l) eqn:Ex; [|reflexivity].
        apply existsb_exists in Ex. destruct Ex as (y & Hy & Ey).
        apply Z.eqb_eq in Ey. subst y. contradiction. }
      rewrite Hex in IH. cbn [length]. lia.
  - cbn [nodup].
    destruct (in_dec Z.eq_dec x (filter (fun x => negb (x =? id)) l))
      as [Hin|Hout];
      destruct (in_dec Z.eq_dec x l) as [Hin'|Hout']; cbn [length].
    + exact IH.
    + apply filter_In in Hin. destruct Hin as [Hin _]. contradiction.
    + exfalso. apply Hout. apply filter_In. split; [exact Hin'|].
      rewrite E. reflexivity.
    + lia.
Qed.

(** Values that are all the same and new add one distinct value. *)
Lemma count_distinct_app_fresh (id : Z) (l l' : list Z) :
  ~ In id l -> Forall (fun x => x = id) l' ->
  (count_distinct (l ++ l')
   = count_distinct l + match l' with [] => 0 | _ :: _ => 1 end)%nat.
Proof.
  unfold count_distinct. intros Hout Hsame.
  induction l as [|x l IH].
  - cbn [app nodup length]. induction Hsame as [|x l' Hx Hsame IH];
      [reflexivity|].
    subst x. cbn [nodup]. destruct (in_dec Z.eq_dec id l') as [Hin|Hnot].
    + destruct l' as [|y l']; [destruct Hin | exact IH].
    + destruct l' as [|y l']; [reflexivity|].
      exfalso. apply Hnot. left. inversion Hsame. assumption.
  - assert (Hx : x <> id) by (intros ->; apply Hout; left; reflexivity).
    assert (Hout' : ~ In id l) by (intros Hin; apply Hout; right; exact Hin).
    specialize (IH Hout').
    cbn [app nodup].
    destruct (in_dec Z.eq_dec x (l ++ l')) as [Hin|Hnot];
      destruct (in_dec Z.eq_dec x l) as [Hin'|Hnot']; cbn [length].
    + exact IH.
    + exfalso. apply in_app_or in Hin. destruct Hin as [Hin|Hin];
        [contradiction|].
      rewrite Forall_forall in Hsame. apply Hx. apply Hsame. exact Hin.
    + exfalso. apply Hnot. apply in_or_app. left. exact Hin'.
    + lia.
Qed.


(** The digits of an integer of 64 bits are cast to the integer. *)
Lemma cast_integer_uint (d : Decimal.uint) :
  d <> Decimal.Nil ->
  cast_integer (NilEmpty.string_of_uint d)
  = Z.max (- 2 ^ 63) (Z.min (2 ^ 63 - 1) (Z.of_N (Pos.of_uint d)))
  /\ cast_integer (String "-" (NilEmpty.string_of_uint d))
     = Z.max (- 2 ^ 63) (Z.min (2 ^ 63 - 1) (- Z.of_N (Pos.of_uint d))).
Proof.
  intros Hd. pose proof (parse_digits_uint d Hd) as Hp.
  assert (Hsign : forall n, 1 * Z.of_N n = Z.of_N n
                            /\ -1 * Z.of_N n = - Z.of_N n) by (intros; lia).
  destruct d as [|d|d|d|d|d|d|d|d|d|d]; [congruence | ..];
    split; unfold cast_integer; cbn [skip_spaces is_white_space];
    cbn [NilEmpty.string_of_uint] in *;
    cbn -[parse_digits Z.mul Z.opp Z.of_N Pos.of_uint Z.max Z.min Z.pow];
    rewrite Hp; do 2 f_equal; apply Hsign.
Qed.

Lemma cast_integer_toString (z : Z) :
  - 2 ^ 63 <= z < 2 ^ 63 ->
  cast_integer (Number_toString (Num z)) = z.
Proof.
  intros Hz.
  unfold Number_toString, NilZero.string_of_int, NilZero.string_of_uint.
  destruct z as [|p|p]; cbn [Z.to_int].
  - reflexivity.
  - pose proof (DecimalPos.Unsigned.to_uint_nonnil p) as Hnn.
    destruct (cast_integer_uint (Pos.to_uint p) Hnn) as [Hpos _].
    rewrite DecimalPos.Unsigned.of_to in Hpos.
    destruct (Pos.to_uint p); try congruence; rewrite Hpos;
      change (Z.of_N (N.pos p)) with (Z.pos p); lia.
  - pose proof (DecimalPos.Unsigned.to_uint_nonnil p) as Hnn.
    destruct (cast_integer_uint (Pos.to_uint p) Hnn) as [_ Hneg].
    rewrite DecimalPos.Unsigned.of_to in Hneg.
    destruct (Pos.to_uint p); try congruence; rewrite Hneg;
      change (- Z.of_N (N.pos p)) with (Z.neg p); lia.
Qed.

(** X18. The counts of [getWasteAuditStats] are ordered: no more
    completed audits than audits with data, no more of these than rows,
    and no more audits with photographs than photographs. *)
Theorem stats_counts_are_ordered (db : database) (images : list image) :
  let stats := getWasteAuditStats db images in
  (completedAudits stats <= totalAudits stats)%nat
  /\ (totalAudits stats <= length (waste_data db))%nat
  /\ (auditsWithPhotos stats <= length images)%nat.
Proof.
  cbn [getWasteAuditStats completedAudits totalAudits auditsWithPhotos].
  split; [|split].
  - apply count_distinct_incl. intros x Hx.
    apply in_map_iff in Hx. destruct Hx as (r & <- & Hr).
    apply in_map. apply filter_In in Hr. destruct Hr as [Hr _].
    unfold completedSections_rows in Hr. apply filter_In in Hr.
    exact (proj1 Hr).
  - unfold count_distinct.
    rewrite <- (length_map audit_id (waste_data db)). apply length_nodup_le.
  - unfold count_distinct.
    rewrite <- (length_map image_audit_id images). apply length_nodup_le.
Qed.


(** X20. Deleting an audit takes it, and nothing else, out of the
    counts: one audit less when it had rows, one audit with photographs
    less when it had one. *)
Theorem delete_lowers_the_counts (db : database) (images : list image)
    (id : Z) :
  let '(db', images', _) := deleteWasteAudit db images id in
  (totalAudits (getWasteAuditStats db' images')
   + (if wasteAuditExists db id then 1 else 0)
   = totalAudits (getWasteAuditStats db images))%nat
  /\ (auditsWithPhotos (getWasteAuditStats db' images')
      + (if existsb (fun i => (image_audit_id i =? id)%Z) images
         then 1 else 0)
      = auditsWithPhotos (getWasteAuditStats db images))%nat.
Proof.
  unfold deleteWasteAudit.
  cbn [getWasteAuditStats totalAudits auditsWithPhotos].
  split.
  - unfold delete, with_waste_data. cbn [waste_data].
    rewrite <- (count_distinct_remove id (map audit_id (waste_data db))).
    rewrite filter_map_swap, existsb_map_swap.
    unfold wasteAuditExists. rewrite nonempty_filter. reflexivity.
  - unfold delete_images.
    rewrite <- (count_distinct_remove id (map image_audit_id images)).
    rewrite filter_map_swap, existsb_map_swap. reflexivity.
Qed.

(** ** Summaries and updates *)

Section Updates.

Context {J : Type} {H : Host J}.

Lemma matches_update (db : database) (id : Z) (updates : object J)
    (now : string) (a : audit) (key : string) :
  foreign_key_ok db id = true ->
  (matches db a key
   <= matches (fst (Database.updateWasteAudit db id updates now)) a key)%nat.
Proof.
  intros Hfk. rewrite !matches_select.
  destruct (Z.eq_dec (audits_id a) id) as [E|E].
  - rewrite E, StoreFacts.select_updateWasteAudit by exact Hfk.
    rewrite filter_app, length_app. lia.
  - rewrite DatabaseFacts.updateWasteAudit_ok by exact Hfk. cbn [fst].
    rewrite select_append_rows_other by exact E. apply le_n.
Qed.

Lemma matches_update_lastSaved (db : database) (updates : object J)
    (now : string) (a : audit) :
  foreign_key_ok db (audits_id a) = true ->
  (matches db a "lastSaved" + 1
   <= matches (fst (Database.updateWasteAudit db (audits_id a) updates now))
        a "lastSaved")%nat.
Proof.
  intros Hfk. rewrite !matches_select.
  rewrite StoreFacts.select_updateWasteAudit by exact Hfk.
  rewrite !filter_app, !length_app.
  change (filter (fun e : string * string => String.eqb (fst e) "lastSaved")
                 [("lastSaved", now)]) with [("lastSaved", now)].
  cbn [length]. lia.
Qed.

Lemma matches_present (db : database) (a : audit) (key : string) :
  In key (map fst (select db (audits_id a))) ->
  (1 <= matches db a key)%nat.
Proof.
  intros Hin. rewrite matches_select.
  apply in_map_iff in Hin. destruct Hin as ([k r] & Hk & Hin).
  cbn [fst] in Hk. subst k.
  assert (Hf : In (key, r)
                  (filter (fun e : string * string => String.eqb (fst e) key)
                          (select db (audits_id a))))
    by (apply filter_In; split; [exact Hin | apply String.eqb_refl]).
  destruct (filter _ (select db (audits_id a))); [destruct Hf|].
  cbn [length]. lia.
Qed.

(** X14. Every update of an audit that has a [lastSaved] row makes the
    list of summaries longer: the update appends another [lastSaved]
    row and the joins return the audit once more for it. *)
Theorem update_lists_the_audit_again (audits : list audit) (db : database)
    (a : audit) (updates : object J) (now : string) :
  In a audits ->
  foreign_key_ok db (audits_id a) = true ->
  In "lastSaved" (map fst (select db (audits_id a))) ->
  (length (getAllWasteAudits audits db)
   < length (getAllWasteAudits audits
               (fst (Database.updateWasteAudit db (audits_id a) updates
                       now))))%nat.
Proof.
  intros Hin Hfk Hsaved. rewrite !length_getAllWasteAudits.
  set (db' := fst (Database.updateWasteAudit db (audits_id a) updates now)).
  assert (Hle : forall b key, (matches db b key <= matches db' b key)%nat)
    by (intros b key; apply matches_update; exact Hfk).
  apply list_sum_lt with (a := a); [|exact Hin|].
  - intros b _.
    pose proof (Hle b "completedSections"%string).
    pose proof (Hle b "syncStatus"%string).
    pose proof (Hle b "lastSaved"%string).
    apply Nat.mul_le_mono; [apply Nat.mul_le_mono|]; lia.
  - pose proof (Hle a "completedSections"%string) as Hc.
    pose proof (Hle a "syncStatus"%string) as Hs.
    pose proof (matches_update_lastSaved db updates now a Hfk) as Hl.
    fold db' in Hl.
    pose proof (matches_present db a "lastSaved" Hsaved) as H1.
    set (c := Nat.max 1 (matches db a "completedSections")).
    set (c' := Nat.max 1 (matches db' a "completedSections")).
    set (s := Nat.max 1 (matches db a "syncStatus")).
    set (s' := Nat.max 1 (matches db' a "syncStatus")).
    assert (Hcs : (1 <= c * s /\ c * s <= c' * s')%nat).
    { split; [subst c s; nia|].
      apply Nat.mul_le_mono; subst c c' s s'; lia. }
    rewrite (Nat.max_r 1 (matches db a "lastSaved")) by exact H1.
    rewrite (Nat.max_r 1 (matches db' a "lastSaved")) by lia.
    nia.
Qed.

(** ** Statistics and saves *)

Lemma filter_key_absent (key : string) (l : list (string * string)) :
  ~ In key (map fst l) ->
  filter (fun e : string * string => String.eqb (fst e) key) l = [].
Proof.
  intros Hout. apply filter_none. intros [k r] Hin. cbn [fst].
  destruct (String.eqb k key) eqn:E; [|reflexivity].
  apply String.eqb_eq in E. subst k. exfalso. apply Hout.
  apply in_map_iff. exists (key, r). split; [reflexivity | exact Hin].
Qed.

(** The one [completedSections] row of a save. *)
Lemma save_entries_counter (data : object J) (now : string) (z : Z)
    (es : list (string * string * string)) :
  save_entries data now = Ok es ->
  get data "completedSections" = VNum (Num z) ->
  es <> []
  /\ filter (fun e : string * string => String.eqb (fst e) "completedSections")
            (map entry_of es)
     = [("completedSections", Number_toString (Num z))].
Proof.
  unfold save_entries. intros Hes Hz. rewrite Hz in Hes.
  assert (H1 : optional_entry
                 (negb (is_undefined (VNum (Num z) : value J)))
                 (toString (VNum (Num z) : value J))
                 "completedSections" "Number of completed sections"
               = Ok [("completedSections", Number_toString (Num z),
                      "Number of completed sections")]) by reflexivity.
  rewrite H1 in Hes. cbn [bind] in Hes.
  destruct (optional_entry _ (toString (get data "isQuickMode")) _ _)
    as [m2|e] eqn:H2; cbn [bind] in Hes; [|discriminate].
  destruct (optional_entry _ (bind_text (get data "syncStatus")) _ _)
    as [m3|e] eqn:H3; cbn [bind] in Hes; [|discriminate].
  injection Hes as <-. split.
  - intros Hnil. apply app_eq_nil in Hnil. destruct Hnil as [_ Hnil].
    discriminate Hnil.
  - assert (Hcons : forall l,
      filter (fun e : string * string =>
                String.eqb (fst e) "completedSections")
             (map entry_of
                (("completedSections", Number_toString (Num z),
                  "Number of completed sections") :: l))
      = ("completedSections", Number_toString (Num z))
        :: filter (fun e : string * string =>
                     String.eqb (fst e) "completedSections")
                  (map entry_of l)) by reflexivity.
    rewrite map_app, filter_app, Hcons, !map_app, !filter_app.
    rewrite (filter_key_absent _ (map entry_of (Database.section_entries data))).
    2: { intros Hin. apply DatabaseFacts.section_entries_keys in Hin.
         unfold Database.sections in Hin. cbn [In] in Hin.
         destruct Hin as [E|[E|[E|[E|[E|[E|[]]]]]]]; discriminate E. }
    rewrite (filter_key_absent _ (map entry_of m2)).
    2: { intros Hin. apply (StoreFacts.optional_entry_keys _ _ _ _ _ H2) in Hin.
         discriminate Hin. }
    rewrite (filter_key_absent _ (map entry_of m3)).
    2: { intros Hin. apply (StoreFacts.optional_entry_keys _ _ _ _ _ H3) in Hin.
         discriminate Hin. }
    reflexivity.
Qed.

Lemma delete_absent (db : database) (id : Z) (p : row -> bool) :
  ~ In id (map audit_id (filter p (waste_data (delete db id)))).
Proof.
  intros Hin. apply in_map_iff in Hin. destruct Hin as (r & Hid & Hr).
  apply filter_In in Hr. destruct Hr as [Hr _].
  unfold delete, with_waste_data in Hr. cbn [waste_data] in Hr.
  apply filter_In in Hr. destruct Hr as [_ Hr].
  rewrite Hid, Z.eqb_refl in Hr. discriminate Hr.
Qed.

(** X21. A save counts in the statistics: the saved audit is one audit
    more than the table holds without it, and one completed audit more
    exactly when its counter is 6. *)
Theorem saved_counter_is_counted (db : database) (images : list image)
    (id : Z) (data : object J) (now : string) (z : Z) :
  Database.success (snd (Database.saveWasteAudit db id data now)) = true ->
  get data "completedSections" = VNum (Num z) ->
  - 2 ^ 63 <= z < 2 ^ 63 ->
  let before := getWasteAuditStats (delete db id) images in
  let after :=
    getWasteAuditStats (fst (Database.saveWasteAudit db id data now))
      images in
  (totalAudits after = totalAudits before + 1)%nat
  /\ (completedAudits after
      = completedAudits before + (if (z =? 6)%Z then 1 else 0))%nat.
Proof.
  intros Hsuccess Hz Hrange.
  destruct (saveWasteAudit_success db id data now Hsuccess)
    as (es & Hes & _ & Hdb).
  destruct (save_entries_counter data now z es Hes Hz) as [Hsome Hcounter].
  destruct (waste_data_append_rows (delete db id) id es)
    as (rows & Hrows & Hid & Hentries).
  rewrite <- Hdb in Hrows.
  cbn [getWasteAuditStats totalAudits completedAudits].
  unfold completedSections_rows. rewrite Hrows.
  assert (Hids : forall p, Forall (fun x => x = id)
                             (map audit_id (filter p rows))).
  { intros p. apply Forall_forall. intros x Hx.
    apply in_map_iff in Hx. destruct Hx as (r & <- & Hr).
    apply filter_In in Hr. rewrite Forall_forall in Hid.
    apply Hid. exact (proj1 Hr). }
  split.
  - rewrite map_app.
    rewrite (count_distinct_app_fresh id).
    + destruct rows as [|r rows]; [|reflexivity].
      destruct es; [congruence | discriminate Hentries].
    + rewrite <- (filter_all (fun _ => true) (waste_data (delete db id)))
        by reflexivity.
      apply delete_absent.
    + rewrite <- (filter_all (fun _ => true) rows) by reflexivity.
      apply Hids.
  - rewrite !filter_app, map_app.
    rewrite (count_distinct_app_fresh id).
    + f_equal.
      assert (Hsix :
        map (fun r => (item_key r, response r))
            (filter (fun r => cast_integer (response r) =? 6)
               (filter (fun r => String.eqb (item_key r) "completedSections")
                       rows))
        = if z =? 6 then [("completedSections", Number_toString (Num z))]
          else []).
      { rewrite <- (filter_map_swap (fun r => (item_key r, response r))
                      (fun e => cast_integer (snd e) =? 6)).
        rewrite <- (filter_map_swap (fun r => (item_key r, response r))
                      (fun e => String.eqb (fst e) "completedSections")).
        rewrite Hentries, Hcounter. cbn [filter snd].
        rewrite cast_integer_toString by exact Hrange. reflexivity. }
      destruct (filter _ (filter _ rows)) as [|r l];
        destruct (z =? 6); try discriminate Hsix; reflexivity.
    + rewrite filter_filter. apply delete_absent.
    + rewrite filter_filter. apply Hids.
Qed.

(** ** Summaries and records *)

Lemma last_some_filter {A : Type} (g : string -> option A) (key : string)
    (l : list (string * string)) (init : option A) :
  Database.last_some
    (fun r : string * string =>
       if String.eqb (fst r) key then g (snd r) else None) l init
  = Database.last_some
      (fun r : string * string =>
         if String.eqb (fst r) key then g (snd r) else None)
      (filter (fun e => String.eqb (fst e) key) l) init.
Proof.
  revert init. induction l as [|e l IH]; intros init; [reflexivity|].
  cbn [filter]. rewrite DatabaseFacts.last_some_cons.
  destruct (String.eqb (fst e) key) eqn:E.
  - rewrite DatabaseFacts.last_some_cons, E. apply IH.
  - apply IH.
Qed.

Lemma last_some_option_map {A : Type} (f : string -> A) (key : string)
    (l : list (string * string)) (init : option string) :
  Database.last_some
    (fun r : string * string =>
       if String.eqb (fst r) key then Some (f (snd r)) else None)
    l (option_map f init)
  = option_map f (Database.last_some (Database.decode_text key) l init).
Proof.
  revert init. induction l as [|e l IH]; intros init; [reflexivity|].
  rewrite !DatabaseFacts.last_some_cons. unfold Database.decode_text at 2.
  destruct (String.eqb (fst e) key).
  - apply (IH (Some (snd e))).
  - apply IH.
Qed.

(** With one row per key, a join returns the text the record is decoded
    from. *)
Lemma left_join_unique (db : database) (a : audit) (key : string)
    (text : option string) :
  Database.unique_keys db (audits_id a) = true ->
  In text (left_join db a key) ->
  text
  = Database.last_some (Database.decode_text key) (select db (audits_id a))
      None.
Proof.
  unfold Database.unique_keys. intros Hunique.
  pose proof (all_distinct_filter key _ Hunique) as Hone.
  unfold Database.decode_text. rewrite (last_some_filter Some).
  unfold left_join.
  pose proof (left_join_select db a key) as Hsel.
  destruct (filter _ (waste_data db)) as [|r rows].
  - cbn [map] in Hsel. rewrite <- Hsel in *.
    intros [<-|[]]. reflexivity.
  - cbn [map] in Hsel. rewrite <- Hsel in *. cbn [length] in Hone.
    destruct rows as [|r' rows]; [|cbn [map length] in Hone; lia].
    cbn [map]. intros [<-|[]].
    assert (Hkey : String.eqb (item_key r) key = true).
    { assert (Hr : In (item_key r, response r)
                      (filter (fun e : string * string =>
                                 String.eqb (fst e) key)
                              (select db (audits_id a))))
        by (rewrite <- Hsel; left; reflexivity).
      apply filter_In in Hr. exact (proj2 Hr). }
    cbn [Database.last_some fold_left fst snd]. rewrite Hkey. reflexivity.
Qed.

Lemma join_fields (db : database) (a : audit) (j : joined) :
  In j (join db a) ->
  In (completed_sections j) (left_join db a "completedSections")
  /\ In (sync_status j) (left_join db a "syncStatus")
  /\ In (last_modified j) (left_join db a "lastSaved").
Proof.
  unfold join. intros Hj.
  apply in_flat_map in Hj. destruct Hj as (c & Hc & Hj).
  apply in_flat_map in Hj. destruct Hj as (s & Hs & Hj).
  apply in_map_iff in Hj. destruct Hj as (m & <- & Hm).
  repeat split; assumption.
Qed.

(** X17. With one row per item key, a summary shows what the record
    holds: the same sync status and time, the defaults replacing an
    absent or empty text, and the same counter whenever the record's
    one is a number. *)
Theorem summary_agrees_with_record (audits : list audit) (db : database)
    (s : WasteAuditSummary) :
  In s (getAllWasteAudits audits db) ->
  Database.unique_keys db (auditId s) = true ->
  syncStatus s = text_or (Reading.read_syncStatus db (auditId s)) "offline"
  /\ (forall text, Reading.read_lastSaved db (auditId s) = Some text ->
        text <> "" -> lastModified s = text)
  /\ (forall z, Reading.read_completedSections db (auditId s) = Some (Num z)
        -> completedSections s = Num z)
  /\ (Reading.read_completedSections db (auditId s) = None ->
        completedSections s = Num 0).
Proof.
  unfold getAllWasteAudits. intros Hin.
  apply in_map_iff in Hin. destruct Hin as (j & <- & Hj).
  apply (Permutation_in _ (order_by_perm _)) in Hj.
  apply in_flat_map in Hj. destruct Hj as (a & _ & Hj).
  pose proof (join_audit db a j Hj) as Ha.
  destruct (join_fields db a j Hj) as (Hc & Hs & Hm).
  cbn [to_summary auditId syncStatus lastModified completedSections].
  rewrite Ha. intros Hunique.
  apply (left_join_unique db a _ _ Hunique) in Hc, Hs, Hm.
  rewrite StoreFacts.read_syncStatus_select,
    StoreFacts.read_lastSaved_select,
    StoreFacts.read_completedSections_select.
  rewrite <- Hs, <- Hm.
  assert (Hcounter :
    Database.last_some Database.decode_completedSections
      (select db (audits_id a)) None
    = option_map parseInt (completed_sections j)).
  { rewrite Hc. exact (last_some_option_map parseInt "completedSections"
                         (select db (audits_id a)) None). }
  rewrite Hcounter.
  split; [reflexivity|]. split; [|split].
  - intros text -> Hne. cbn [text_or].
    destruct (String.eqb text "") eqn:E; [|reflexivity].
    apply String.eqb_eq in E. contradiction.
  - intros z. destruct (completed_sections j) as [text|]; [|discriminate].
    cbn [option_map]. intros [= Hz].
    destruct (String.eqb text "") eqn:E; [|exact Hz].
    apply String.eqb_eq in E. subst text. discriminate Hz.
  - destruct (completed_sections j); [discriminate | reflexivity].
Qed.

End Updates.

Import JsonFragment.

(** X13 at three audits, two of them saved once. *)
Lemma one_summary_per_audit_witness :
  (forall a, In a Scenarios.centre_audits ->
     Database.unique_keys Scenarios.two_audits (audits_id a) = true)
  /\ map id (getAllWasteAudits Scenarios.centre_audits Scenarios.two_audits)
     = [3; 2; 1]
  /\ Permutation
       (getAllWasteAudits Scenarios.centre_audits Scenarios.two_audits)
       (map (fun a => to_summary (joined_once Scenarios.two_audits a))
            Scenarios.centre_audits).
Proof.
  assert (Hunique : forall a, In a Scenarios.centre_audits ->
            Database.unique_keys Scenarios.two_audits (audits_id a) = true)
    by (intros a [<-|[<-|[<-|[]]]]; vm_compute; reflexivity).
  split; [exact Hunique|]. split; [vm_compute; reflexivity|].
  exact (one_summary_per_audit Scenarios.centre_audits Scenarios.two_audits
           Hunique).
Defined.

(** X14 at the first of them, updated by the autosave route. *)
Lemma update_lists_the_audit_again_witness :
  In Scenarios.first_audit Scenarios.centre_audits
  /\ foreign_key_ok Scenarios.two_audits 1 = true
  /\ In "lastSaved"%string (map fst (select Scenarios.two_audits 1))
  /\ length (getAllWasteAudits Scenarios.centre_audits Scenarios.two_audits)
     = 3%nat
  /\ (3 < length
            (getAllWasteAudits Scenarios.centre_audits
               (fst (Database.updateWasteAudit Scenarios.two_audits 1
                       Examples.autosave_record
                       "2024-03-01T09:05:01.000Z"))))%nat.
Proof.
  assert (Hin : In Scenarios.first_audit Scenarios.centre_audits)
    by (left; reflexivity).
  assert (Hfk : foreign_key_ok Scenarios.two_audits
                  (audits_id Scenarios.first_audit) = true)
    by (vm_compute; reflexivity).
  assert (Hsaved : In "lastSaved"%string
                     (map fst (select Scenarios.two_audits
                                 (audits_id Scenarios.first_audit))))
    by (vm_compute; auto 10).
  assert (Hbefore : length (getAllWasteAudits Scenarios.centre_audits
                              Scenarios.two_audits) = 3%nat)
    by (vm_compute; reflexivity).
  split; [exact Hin|]. split; [exact Hfk|]. split; [exact Hsaved|].
  split; [exact Hbefore|].
  rewrite <- Hbefore.
  exact (update_lists_the_audit_again Scenarios.centre_audits
           Scenarios.two_audits Scenarios.first_audit
           Examples.autosave_record "2024-03-01T09:05:01.000Z"
           Hin Hfk Hsaved).
Defined.

(** X15 at the third audit, for which nothing was saved. *)
Lemma never_saved_audit_is_listed_witness :
  In Scenarios.third_audit Scenarios.centre_audits
  /\ wasteAuditExists Scenarios.two_audits 3 = false
  /\ In {| id := 3; auditId := 3;
           centreName := "Ballina Family Resource Centre";
           auditDate := "2024-03-04"; auditorName := "J. Murphy";
           completedSections := Num 0;
           lastModified := "2024-03-04 11:20:00";
           syncStatus := "offline" |}
        (getAllWasteAudits Scenarios.centre_audits Scenarios.two_audits).
Proof.
  assert (Hin : In Scenarios.third_audit Scenarios.centre_audits)
    by (right; right; left; reflexivity).
  assert (Hnone : wasteAuditExists Scenarios.two_audits
                    (audits_id Scenarios.third_audit) = false)
    by (vm_compute; reflexivity).
  split; [exact Hin|]. split; [exact Hnone|].
  exact (never_saved_audit_is_listed Scenarios.centre_audits
           Scenarios.two_audits Scenarios.third_audit Hin Hnone).
Defined.

(** X17 at the summary of the first audit. *)
Lemma summary_agrees_with_record_witness :
  let s := {| id := 1; auditId := 1;
              centreName := "Ballina Family Resource Centre";
              auditDate := "2024-03-01"; auditorName := "J. Murphy";
              completedSections := Num 1;
              lastModified := "2024-03-01T09:00:01.000Z";
              syncStatus := "synced" |} in
  In s (getAllWasteAudits Scenarios.centre_audits Scenarios.two_audits)
  /\ Database.unique_keys Scenarios.two_audits 1 = true
  /\ Reading.read_syncStatus Scenarios.two_audits 1 = Some "synced"%string
  /\ Reading.read_completedSections Scenarios.two_audits 1 = Some (Num 1)
  /\ syncStatus s
     = text_or (Reading.read_syncStatus Scenarios.two_audits 1) "offline".
Proof.
  intros s.
  assert (Hin : In s (getAllWasteAudits Scenarios.centre_audits
                        Scenarios.two_audits))
    by (vm_compute; auto 10).
  assert (Hunique : Database.unique_keys Scenarios.two_audits (auditId s)
                    = true) by (vm_compute; reflexivity).
  split; [exact Hin|]. split; [exact Hunique|].
  split; [vm_compute; reflexivity|]. split; [vm_compute; reflexivity|].
  exact (proj1 (summary_agrees_with_record Scenarios.centre_audits
                  Scenarios.two_audits s Hin Hunique)).
Defined.


(** X21 at a record with counter 6, saved for the third audit. *)
Lemma saved_counter_is_counted_witness :
  Database.success
    (snd (Database.saveWasteAudit Scenarios.two_audits 3
            Scenarios.complete_record "2024-03-04T11:30:01.000Z")) = true
  /\ get Scenarios.complete_record "completedSections" = VNum (Num 6)
  /\ - 2 ^ 63 <= 6 < 2 ^ 63
  /\ totalAudits
       (getWasteAuditStats
          (fst (Database.saveWasteAudit Scenarios.two_audits 3
                  Scenarios.complete_record "2024-03-04T11:30:01.000Z"))
          Scenarios.photos) = 3%nat
  /\ completedAudits
       (getWasteAuditStats
          (fst (Database.saveWasteAudit Scenarios.two_audits 3
                  Scenarios.complete_record "2024-03-04T11:30:01.000Z"))
          Scenarios.photos) = 1%nat.
Proof.
  assert (Hsaved : Database.success
            (snd (Database.saveWasteAudit Scenarios.two_audits 3
                    Scenarios.complete_record "2024-03-04T11:30:01.000Z"))
          = true) by (vm_compute; reflexivity).
  assert (Hsix : get Scenarios.complete_record "completedSections"
                 = VNum (Num 6)) by (vm_compute; reflexivity).
  assert (Hrange : - 2 ^ 63 <= 6 < 2 ^ 63) by lia.
  destruct (saved_counter_is_counted Scenarios.two_audits Scenarios.photos
              3 Scenarios.complete_record "2024-03-04T11:30:01.000Z" 6
              Hsaved Hsix Hrange) as [Htotal Hcompleted].
  split; [exact Hsaved|]. split; [exact Hsix|]. split; [exact Hrange|].
  split.
  - rewrite Htotal. vm_compute; reflexivity.
  - rewrite Hcompleted. vm_compute; reflexivity.
Defined.

End ListingFacts.

(* ================================================================== *)
(** * Facts about the insights of the engine                           *)
(* ================================================================== *)

Module InsightsFacts.
Import Calculate CalculateFacts Insights.
Local Open Scope list_scope.
Local Open Scope Q_scope.

(** The identifiers of the quick wins are those of the checks that
    hold. *)
Lemma generateQuickWins_ids (data : WasteAuditData) :
  map id (generateQuickWins data) = expected_quick_wins data.
Proof.
  unfold generateQuickWins, expected_quick_wins. cbv zeta.
  rewrite !filter_nonempty_existsb, negb_existsb_forallb.
  fold (bins_of data). fold (no_dry_recyclables_bin data).
  fold (some_poor_signage data).
  replace (match assessments_of data with
           | Some streams =>
               filter (fun stream => gt (contaminationLevel stream) 3) streams
           | None => []
           end)
    with (filter (fun stream => gt (contaminationLevel stream) 3)
                 (streams_of data))
    by (unfold streams_of; destruct (assessments_of data); reflexivity).
  rewrite filter_nonempty_existsb. fold (some_contaminated_stream data).
  replace (negb match behavioralTraining data with
                | Some b => wasteChampionAppointed b
                | None => false
                end)
    with (no_champion data)
    by (unfold no_champion; destruct (behavioralTraining data); reflexivity).
  fold (kitchen_without_composting data).
  destruct (no_dry_recyclables_bin data), (some_poor_signage data),
    (some_contaminated_stream data), (no_champion data),
    (kitchen_without_composting data); reflexivity.
Qed.

Lemma quick_win_of_check (data : WasteAuditData) :
  (In "contamination-training"%string (expected_quick_wins data)
   <-> some_contaminated_stream data = true)
  /\ (In "start-composting"%string (expected_quick_wins data)
      <-> kitchen_without_composting data = true).
Proof.
  unfold expected_quick_wins.
  destruct (no_dry_recyclables_bin data), (some_poor_signage data),
    (some_contaminated_stream data), (no_champion data),
    (kitchen_without_composting data);
    cbn [filter fst map snd In]; split; split;
    intuition discriminate.
Qed.

Lemma volume_fold (streams : list WasteStreamAssessment) (a : Q) :
  fold_left (fun sum stream =>
               sum + or_default (estimatedWeeklyVolumeLitres stream) 0)
            streams a
  == a + Qsum (map volume streams).
Proof.
  revert a. induction streams as [|s streams IH]; intros a.
  - cbn. ring.
  - cbn [fold_left map]. rewrite IH. unfold Qsum. cbn [fold_right].
    unfold volume at 2. rewrite or_default_0. ring.
Qed.

Lemma measure_points_full (value : option ImplementationLevel) :
  measure_points value == 4 -> value = Some FULL.
Proof. destruct value as [[| | |]|]; cbn; intros E; try reflexivity; discriminate E. Qed.

(** The points of the eight measures. *)
Lemma calculatePreventionScore_points (p : WastePreventionMeasures) :
  calculatePreventionScore (Some p)
  == (25 # 8) * Qsum (map (fun measure => measure_points (measure p))
                          measures).
Proof.
  unfold calculatePreventionScore, measures, Qsum.
  cbn [fold_left length map fold_right].
  unfold Qdiv. change (/ (inject_Z (Z.of_nat 8) * 4)) with (1 # 32). ring.
Qed.

(** X22. The prevention score is 3.125 points for every point of the
    eight measures, hence within 0 and 100: 0 without the section, 100
    exactly when all eight measures are fully in place, and 0 exactly
    when none is as much as planned. *)
Theorem prevention_score_extremes (p : WastePreventionMeasures) :
  calculatePreventionScore None == 0
  /\ calculatePreventionScore (Some p)
     == (25 # 8) * Qsum (map (fun measure => measure_points (measure p))
                             measures)
  /\ 0 <= calculatePreventionScore (Some p) <= 100
  /\ (calculatePreventionScore (Some p) == 100 <-> p = all_measures_full)
  /\ (calculatePreventionScore (Some p) == 0
      <-> forall measure, In measure measures ->
            measure_points (measure p) == 0).
Proof.
  split; [reflexivity|]. split; [apply calculatePreventionScore_points|].
  split; [apply calculatePreventionScore_bounds|].
  rewrite calculatePreventionScore_points.
  unfold measures, Qsum. cbn [map fold_right].
  pose proof (measure_points_bounds (procurementPolicy p)) as H1.
  pose proof (measure_points_bounds (reusableCupsBottles p)) as H2.
  pose proof (measure_points_bounds (waterFountainsRefillStations p)) as H3.
  pose proof (measure_points_bounds (paperlessCommunication p)) as H4.
  pose proof (measure_points_bounds (donationSystem p)) as H5.
  pose proof (measure_points_bounds (repairCafe p)) as H6.
  pose proof (measure_points_bounds (bulkBuying p)) as H7.
  pose proof (measure_points_bounds (eliminateSingleUse p)) as H8.
  split; split.
  - intros Hfull.
    assert (E1 : measure_points (procurementPolicy p) == 4)
      by (apply Qle_antisym; lra).
    assert (E2 : measure_points (reusableCupsBottles p) == 4)
      by (apply Qle_antisym; lra).
    assert (E3 : measure_points (waterFountainsRefillStations p) == 4)
      by (apply Qle_antisym; lra).
    assert (E4 : measure_points (paperlessCommunication p) == 4)
      by (apply Qle_antisym; lra).
    assert (E5 : measure_points (donationSystem p) == 4)
      by (apply Qle_antisym; lra).
    assert (E6 : measure_points (repairCafe p) == 4)
      by (apply Qle_antisym; lra).
    assert (E7 : measure_points (bulkBuying p) == 4)
      by (apply Qle_antisym; lra).
    assert (E8 : measure_points (eliminateSingleUse p) == 4)
      by (apply Qle_antisym; lra).
    apply measure_points_full in E1, E2, E3, E4, E5, E6, E7, E8.
    destruct p. cbn in *. subst. reflexivity.
  - intros ->. reflexivity.
  - intros Hzero measure Hin. cbn [In] in Hin.
    destruct Hin as [<-|[<-|[<-|[<-|[<-|[<-|[<-|[<-|[]]]]]]]]];
      apply Qle_antisym; lra.
  - intros Hnone.
    rewrite (Hnone procurementPolicy), (Hnone reusableCupsBottles),
      (Hnone waterFountainsRefillStations), (Hnone paperlessCommunication),
      (Hnone donationSystem), (Hnone repairCafe), (Hnone bulkBuying),
      (Hnone eliminateSingleUse) by (cbn [In]; tauto).
    reflexivity.
Qed.

(** X24. The three grant hints: the SEAI one when the prevention score
    is below 50, so always when the section is missing; the circular
    economy one when the repair cafe is not implemented; the composting
    one exactly when the quick wins propose to start composting. *)
Theorem grants_follow_the_checks (data : WasteAuditData) :
  (In seai_grant (generateGrantOpportunities data)
   <-> calculatePreventionScore (wastePreventionMeasures data) < 50)
  /\ (In circular_economy_grant (generateGrantOpportunities data)
      <-> exists p, wastePreventionMeasures data = Some p
                    /\ repairCafe p = Some NOT_IMPLEMENTED)
  /\ (In composting_grant (generateGrantOpportunities data)
      <-> In "start-composting"%string (map id (generateQuickWins data)))
  /\ (wastePreventionMeasures data = None ->
      In seai_grant (generateGrantOpportunities data)
      /\ ~ In circular_economy_grant (generateGrantOpportunities data)).
Proof.
  assert (Hseai :
    In seai_grant (generateGrantOpportunities data)
    <-> calculatePreventionScore (wastePreventionMeasures data) < 50).
  { unfold generateGrantOpportunities. cbv zeta. rewrite <- Qltb_lt.
    destruct (Qltb _ 50),
      (match wastePreventionMeasures data with
       | Some p => match repairCafe p with
                   | Some NOT_IMPLEMENTED => true
                   | _ => false
                   end
       | None => false
       end),
      (match organicWasteComposting data with
       | Some o => kitchenPresent o && _
       | None => false
       end);
      cbn [app In]; unfold seai_grant, circular_economy_grant,
      composting_grant; intuition discriminate. }
  assert (Hrepair :
    In circular_economy_grant (generateGrantOpportunities data)
    <-> exists p, wastePreventionMeasures data = Some p
                  /\ repairCafe p = Some NOT_IMPLEMENTED).
  { unfold generateGrantOpportunities. cbv zeta.
    assert (Hcheck :
      (match wastePreventionMeasures data with
       | Some p => match repairCafe p with
                   | Some NOT_IMPLEMENTED => true
                   | _ => false
                   end
       | None => false
       end) = true
      <-> exists p, wastePreventionMeasures data = Some p
                    /\ repairCafe p = Some NOT_IMPLEMENTED).
    { destruct (wastePreventionMeasures data) as [p|].
      - destruct (repairCafe p) as [[| | |]|] eqn:E; split;
          try discriminate;
          try (intros (q & [= <-] & Hq); congruence).
        intros _. exists p. split; [reflexivity | exact E].
      - split; [discriminate | intros (q & Hq & _); discriminate Hq]. }
    rewrite <- Hcheck.
    destruct (Qltb _ 50),
      (match wastePreventionMeasures data with
       | Some p => match repairCafe p with
                   | Some NOT_IMPLEMENTED => true
                   | _ => false
                   end
       | None => false
       end),
      (match organicWasteComposting data with
       | Some o => kitchenPresent o && _
       | None => false
       end);
      cbn [app In]; unfold seai_grant, circular_economy_grant,
      composting_grant; intuition discriminate. }
  split; [exact Hseai|]. split; [exact Hrepair|]. split.
  - rewrite generateQuickWins_ids, (proj2 (quick_win_of_check data)).
    unfold generateGrantOpportunities, kitchen_without_composting. cbv zeta.
    destruct (Qltb _ 50),
      (match wastePreventionMeasures data with
       | Some p => match repairCafe p with
                   | Some NOT_IMPLEMENTED => true
                   | _ => false
                   end
       | None => false
       end),
      (match organicWasteComposting data with
       | Some o => kitchenPresent o && _
       | None => false
       end);
      cbn [app In]; unfold seai_grant, circular_economy_grant,
      composting_grant; intuition discriminate.
  - intros Hnone. split.
    + apply Hseai. rewrite Hnone. cbn. lra.
    + rewrite Hrepair. intros (p & Hp & _). congruence.
Qed.

(** ** Metrics of volumes that are not negative *)






(** ** The reply of [POST] *)

(** X26. The reply to a request that carries a record is 200 with two
    recommendations, of the first tier exactly below a score of 40; the
    contamination training is among the quick wins whenever savings
    from contamination are reported; a user count that is missing or 0
    counts as 100; without a record the reply is 400. *)
Theorem calculate_reply_is_consistent (data : AuditData)
    (users : option Q) (now : string) :
  (exists r,
     POST (Some {| wasteAuditData := Some data; userCount := users |}) now
     = Json 200 r
     /\ calculatedAt r = now
     /\ length (recommendations r) = 2%nat
     /\ (overallScore r < 40
         <-> hd_error (recommendations r)
             = Some "Priority: Focus on basic infrastructure - ensure adequate bins and signage"%string)
     /\ (~ potentialSavingsFromContaminationReduction (calculations r) == 0
         -> In "contamination-training"%string (map id (quickWins r))))
  /\ POST (Some {| wasteAuditData := Some data; userCount := None |}) now
     = POST (Some {| wasteAuditData := Some data; userCount := Some 100 |})
         now
  /\ POST (Some {| wasteAuditData := Some data; userCount := Some 0 |}) now
     = POST (Some {| wasteAuditData := Some data; userCount := Some 100 |})
         now
  /\ POST (Some {| wasteAuditData := None; userCount := users |}) now
     = Error 400 "Waste audit data is required".
Proof.
  split; [|repeat split].
  eexists. split; [reflexivity|].
  cbn [calculatedAt recommendations overallScore calculations quickWins].
  split; [reflexivity|]. split; [|split].
  - unfold generateRecommendations. cbv zeta.
    destruct (Qltb (calculateOverallScore (scored data)) 40);
      [reflexivity|].
    destruct (Qltb (calculateOverallScore (scored data)) 70); reflexivity.
  - rewrite <- Qltb_lt. unfold generateRecommendations. cbv zeta.
    destruct (Qltb (calculateOverallScore (scored data)) 40).
    + split; reflexivity.
    + destruct (Qltb (calculateOverallScore (scored data)) 70);
        cbn [hd_error]; split; intros E; discriminate E.
  - intros Hsavings.
    rewrite generateQuickWins_ids,
      (proj1 (quick_win_of_check (scored data))).
    destruct (some_contaminated_stream (scored data)) eqn:E;
      [reflexivity|].
    exfalso. apply Hsavings.
    unfold calculateWasteMetrics. cbv zeta.
    cbn [potentialSavingsFromContaminationReduction].
    destruct (metrics_totals (scored data)) as (_ & _ & _ & Hissues).
    cbv zeta in Hissues. rewrite Hissues, E. reflexivity.
Qed.

(** ** The validation of the save route *)

Lemma streams_errors_none (streams : list WasteStreamAssessment)
    (index : nat) :
  Validation.streams_errors index streams = [] ->
  forall stream, In stream streams ->
    exists i, Validation.stream_errors i stream = [].
Proof.
  revert index. induction streams as [|s streams IH]; intros index Hnone.
  - intros stream [].
  - cbn [Validation.streams_errors] in Hnone.
    apply app_eq_nil in Hnone. destruct Hnone as [Hs Hrest].
    intros stream [<-|Hin]; [exists index; exact Hs|].
    exact (IH (S index) Hrest stream Hin).
Qed.

(** X27. A record the save route validates without an error, auto-save
    or not, has every contamination level that is given on the 1-5
    scale and no negative volume or cost among its streams; a bin
    inventory that is given is not empty unless the request is an
    auto-save. *)
Theorem validated_record_is_on_scale (checked : Validation.WasteAuditData)
    (isAutoSave : bool) (data : WasteAuditData) :
  Validation.validationErrors checked isAutoSave = [] ->
  Validation.wasteStreamsAssessment checked = wasteStreamsAssessment data ->
  Validation.facilityInfrastructure checked = facilityInfrastructure data ->
  contamination_on_scale data
  /\ (forall stream, In stream (streams_of data) ->
        0 <= volume stream /\ 0 <= cost stream)
  /\ (isAutoSave = false -> binInventory_of data <> Some []).
Proof.
  unfold Validation.validationErrors. intros Hnone Hstreams Hbins.
  apply app_eq_nil in Hnone. destruct Hnone as [Hb Hnone].
  apply app_eq_nil in Hnone. destruct Hnone as [Hs _].
  rewrite Hstreams in Hs. rewrite Hbins in Hb.
  assert (Hall : forall stream, In stream (streams_of data) ->
            exists i, Validation.stream_errors i stream = []).
  { unfold streams_of, assessments_of.
    destruct (wasteStreamsAssessment data) as [w|]; [|intros stream []].
    destruct (assessments w) as [streams|]; [|intros stream []].
    exact (streams_errors_none streams 0 Hs). }
  assert (Hone : forall stream, In stream (streams_of data) ->
            Validation.lt (estimatedWeeklyVolumeLitres stream) 0 = false
            /\ Validation.lt (contaminationLevel stream) 1 = false
            /\ gt (contaminationLevel stream) 5 = false
            /\ Validation.negative (annualCostEuros stream) = false).
  { intros stream Hin. destruct (Hall stream Hin) as [i Hi].
    unfold Validation.stream_errors in Hi.
    destruct (Validation.lt (estimatedWeeklyVolumeLitres stream) 0);
      [discriminate Hi|].
    destruct (Validation.lt (contaminationLevel stream) 1);
      [discriminate Hi|].
    destruct (gt (contaminationLevel stream) 5); [discriminate Hi|].
    destruct (Validation.negative (annualCostEuros stream));
      [discriminate Hi|].
    repeat split. }
  split; [|split].
  - intros stream Hin. destruct (Hone stream Hin) as (_ & Hlow & Hhigh & _).
    unfold Validation.lt, gt in Hlow, Hhigh.
    destruct (contaminationLevel stream) as [level|]; [|exact I].
    apply Qltb_ge in Hlow, Hhigh. split; assumption.
  - intros stream Hin. destruct (Hone stream Hin) as (Hv & _ & _ & Hc).
    unfold volume, cost, Validation.lt, Validation.negative in *.
    split.
    + destruct (estimatedWeeklyVolumeLitres stream) as [v|]; [|lra].
      apply Qltb_ge in Hv. exact Hv.
    + destruct (annualCostEuros stream) as [c|]; [|lra].
      apply andb_false_iff in Hc. destruct Hc as [Hc|Hc].
      * apply nonzero_false in Hc. rewrite Hc. lra.
      * apply Qltb_ge in Hc. exact Hc.
  - intros -> Hempty. unfold binInventory_of in Hempty.
    destruct (facilityInfrastructure data) as [f|]; [|discriminate Hempty].
    rewrite Hempty in Hb. discriminate Hb.
Qed.


(** X27 at the record of the community kitchen. *)
Lemma validated_record_is_on_scale_witness :
  Validation.validationErrors Routes.checked_kitchen false = []
  /\ Validation.validationErrors Routes.checked_negative false
     = ["Waste stream 1: Volume cannot be negative"%string]
  /\ contamination_on_scale (scored community_kitchen)
  /\ (forall stream, In stream (streams_of (scored community_kitchen)) ->
        0 <= volume stream /\ 0 <= cost stream)
  /\ (false = false -> binInventory_of (scored community_kitchen) <> Some []).
Proof.
  assert (Hnone : Validation.validationErrors Routes.checked_kitchen false
                  = []) by (vm_compute; reflexivity).
  split; [exact Hnone|]. split; [vm_compute; reflexivity|].
  exact (validated_record_is_on_scale Routes.checked_kitchen false
           (scored community_kitchen) Hnone eq_refl eq_refl).
Defined.

End InsightsFacts.

(* ================================================================== *)
(** * Facts about the route handlers                                   *)
(* ================================================================== *)

Module RoutesFacts.
Import Js Sqlite SqliteFacts JsFacts Database DatabaseFacts.
Import Operations OperationsFacts Reading StoreFacts Routes.
Local Open Scope list_scope.

Section Handlers.

Context {J : Type} {H : Host J}.
Context (checked : object J -> Validation.WasteAuditData).

Lemma get_set (o : object J) (key : string) (v : value J) (k : string) :
  get (set o key v) k = if String.eqb k key then v else get o k.
Proof.
  induction o as [|[k0 w] o IH].
  - reflexivity.
  - cbn [set]. destruct (String.eqb k0 key) eqn:E0.
    + apply String.eqb_eq in E0. subst k0. cbn [get].
      destruct (String.eqb k key); reflexivity.
    + cbn [get]. rewrite IH.
      destruct (String.eqb k k0) eqn:E1; [|reflexivity].
      apply String.eqb_eq in E1. subst k0. rewrite E0. reflexivity.
Qed.

(** What the routes pass on: the status they set, the time they read,
    and the rest of the record as it came. *)
Lemma get_dataToSave (data : object J) (status now : string) (k : string) :
  get (set (set data "syncStatus" (VStr status)) "lastSaved" (VStr now)) k
  = if String.eqb k "lastSaved" then VStr now
    else if String.eqb k "syncStatus" then VStr status
    else get data k.
Proof. rewrite !get_set. reflexivity. Qed.

Lemma get_dataToSave_section (data : object J) (status now : string)
    (s : string) :
  In s sections ->
  get (set (set data "syncStatus" (VStr status)) "lastSaved" (VStr now)) s
  = get data s.
Proof.
  intros Hin. rewrite get_dataToSave. unfold sections in Hin. cbn [In] in Hin.
  destruct Hin as [E|[E|[E|[E|[E|[E|[]]]]]]]; subst s; reflexivity.
Qed.

(** The status and the time read back after the save of a record whose
    status is a word. *)
Lemma saved_status (db : database) (id : Z) (data : object J)
    (status now : string) :
  success (snd (saveWasteAudit db id data now)) = true ->
  get data "syncStatus" = VStr status ->
  status <> "" ->
  read_syncStatus (fst (saveWasteAudit db id data now)) id = Some status
  /\ read_lastSaved (fst (saveWasteAudit db id data now)) id = Some now.
Proof.
  intros Hsuccess Hstatus Hword.
  destruct (select_saveWasteAudit db id data now Hsuccess)
    as (m1 & m2 & m3 & H1 & H2 & H3 & Hsel).
  rewrite read_syncStatus_select, read_lastSaved_select, Hsel.
  assert (Hm3 : m3 = [("syncStatus", status, "Synchronization status")]).
  { rewrite Hstatus in H3. cbn [truthy bind_text optional_entry bind] in H3.
    destruct (String.eqb status "") eqn:E;
      [apply String.eqb_eq in E; contradiction|].
    cbn [negb] in H3. injection H3 as <-. reflexivity. }
  subst m3. split.
  - rewrite !map_app, !app_assoc, !last_some_app. reflexivity.
  - rewrite !app_assoc, last_some_app. reflexivity.
Qed.

(** The save route on a body that has an audit and a record. *)
Lemma save_POST_present (db : database) (id : Z) (data : object J)
    (auto : bool) (route_now store_now : string) :
  id <> 0 ->
  let '(db', (status, response)) :=
    save_POST checked db
      (Some {| auditId := Some id; wasteAuditData := Some data;
               isAutoSave := auto |}) route_now store_now in
  (status <> 200 -> db' = db /\ success response = false)
  /\ (status = 200 ->
      success response = true
      /\ wasteAuditId response = Some id
      /\ read_syncStatus db' id = Some "synced"%string
      /\ read_lastSaved db' id = Some store_now)
  /\ (status = 400
      <-> auto = false
          /\ Validation.validationErrors (checked data) false <> []).
Proof.
  intros Hid.
  assert (Hpresent :
    save_POST checked db
      (Some {| auditId := Some id; wasteAuditData := Some data;
               isAutoSave := auto |}) route_now store_now
    = let validationErrors :=
        Validation.validationErrors (checked data) auto in
      if (0 <? length validationErrors)%nat && negb auto
      then (db, (400, {| success := false; wasteAuditId := None;
                         validationErrors := Some validationErrors |}))
      else
        let dataToSave :=
          set (set data "syncStatus" (VStr "synced"))
              "lastSaved" (VStr route_now) in
        let saveResult := saveWasteAudit db id dataToSave store_now in
        if negb (success (snd saveResult))
        then (fst saveResult, (500, snd saveResult))
        else
          (fst saveResult,
           (200, {| success := true; wasteAuditId := Some id;
                    validationErrors :=
                      if (0 <? length validationErrors)%nat
                      then Some validationErrors else None |})))
    by (destruct id; [contradiction | reflexivity | reflexivity]).
  rewrite Hpresent. cbv zeta.
  set (errors := Validation.validationErrors (checked data) auto).
  set (dataToSave := set (set data "syncStatus" (VStr "synced"))
                         "lastSaved" (VStr route_now)).
  destruct ((0 <? length errors)%nat && negb auto) eqn:Hcond.
  - apply andb_prop in Hcond. destruct Hcond as [Hsome Hauto].
    apply negb_true_iff in Hauto.
    split; [intros _; split; reflexivity|]. split; [discriminate|].
    split; [intros _|reflexivity]. split; [exact Hauto|].
    intros Hnil. subst errors. rewrite Hauto, Hnil in Hsome.
    discriminate Hsome.
  - assert (Hnot : ~ (auto = false
                      /\ Validation.validationErrors (checked data) false
                         <> [])).
    { intros [-> Hsome]. fold errors in Hsome.
      cbn [negb] in Hcond. rewrite andb_true_r in Hcond.
      destruct errors; [apply Hsome; reflexivity | discriminate Hcond]. }
    destruct (success (snd (saveWasteAudit db id dataToSave store_now)))
      eqn:Hsuccess; cbn [negb].
    + split; [intros Hstatus; exfalso; apply Hstatus; reflexivity|].
      split; [|split; [discriminate | intros Hv; contradiction]].
      intros _. split; [reflexivity|]. split; [reflexivity|].
      apply (saved_status db id dataToSave "synced" store_now Hsuccess);
        [subst dataToSave; rewrite get_dataToSave; reflexivity
        | discriminate].
    + split; [|split; [discriminate
                      |split; [discriminate | intros Hv; contradiction]]].
      intros _. split; [|exact Hsuccess].
      apply saveWasteAudit_rollback. exact Hsuccess.
Qed.

(** X28. The save route: a reply other than 200 leaves the table as it
    was; a reply of 200 means the record is stored for the audit of the
    request with status 'synced' and the time of the store, whatever
    status and time the client sent; validation errors refuse the
    request with 400 exactly when it is not an auto-save. *)
Theorem save_route_outcomes (db : database)
    (body : option SaveWasteAuditRequest) (route_now store_now : string) :
  let '(db', (status, response)) :=
    save_POST checked db body route_now store_now in
  (status <> 200 -> db' = db /\ success response = false)
  /\ (status = 200 ->
      success response = true
      /\ exists id data auto,
           body = Some {| auditId := Some id; wasteAuditData := Some data;
                          isAutoSave := auto |}
           /\ id <> 0
           /\ wasteAuditId response = Some id
           /\ read_syncStatus db' id = Some "synced"%string
           /\ read_lastSaved db' id = Some store_now)
  /\ (forall id data auto,
        body = Some {| auditId := Some id; wasteAuditData := Some data;
                       isAutoSave := auto |} ->
        id <> 0 ->
        (status = 400
         <-> auto = false
             /\ Validation.validationErrors (checked data) false <> [])).
Proof.
  assert (Hpresent : forall id data auto, id <> 0 ->
    let body := Some {| auditId := Some id; wasteAuditData := Some data;
                        isAutoSave := auto |} in
    let '(db', (status, response)) :=
      save_POST checked db body route_now store_now in
    (status <> 200 -> db' = db /\ success response = false)
    /\ (status = 200 ->
        success response = true
        /\ exists id0 data0 auto0,
             body = Some {| auditId := Some id0;
                            wasteAuditData := Some data0;
                            isAutoSave := auto0 |}
             /\ id0 <> 0
             /\ wasteAuditId response = Some id0
             /\ read_syncStatus db' id0 = Some "synced"%string
             /\ read_lastSaved db' id0 = Some store_now)
    /\ (forall id0 data0 auto0,
          body = Some {| auditId := Some id0; wasteAuditData := Some data0;
                         isAutoSave := auto0 |} ->
          id0 <> 0 ->
          (status = 400
           <-> auto0 = false
               /\ Validation.validationErrors (checked data0) false <> []))).
  { intros id data auto Hid. cbv zeta.
    pose proof (save_POST_present db id data auto route_now store_now Hid)
      as Hp.
    destruct (save_POST checked db _ route_now store_now)
      as [db' [status response]].
    destruct Hp as (Hother & Hok & Hrefused).
    split; [exact Hother|]. split.
    - intros Hstatus. destruct (Hok Hstatus) as (Hs & Hrest).
      split; [exact Hs|]. exists id, data, auto.
      split; [reflexivity|]. split; [exact Hid | exact Hrest].
    - intros id0 data0 auto0 [= <- <- <-] _. exact Hrefused. }
  destruct body as [[[[|p|p]|] [data|] auto]|].
  3: exact (Hpresent (Z.pos p) data auto ltac:(discriminate)).
  4: exact (Hpresent (Z.neg p) data auto ltac:(discriminate)).
  all: cbn [save_POST Routes.auditId wasteAuditData isAutoSave];
    (split; [intros _; split; reflexivity|]);
    (split; [discriminate|]);
    intros id0 data0 auto0 Hbody Hid0;
    try discriminate Hbody;
    injection Hbody as <- _ _; contradiction.
Qed.

(** The status and the time read back after an update that carries a
    status. *)
Lemma updated_status (db : database) (id : Z) (updates : object J)
    (status now : string) :
  foreign_key_ok db id = true ->
  get updates "syncStatus" = VStr status ->
  read_syncStatus (fst (updateWasteAudit db id updates now)) id = Some status
  /\ read_lastSaved (fst (updateWasteAudit db id updates now)) id = Some now.
Proof.
  intros Hfk Hstatus.
  rewrite read_syncStatus_select, read_lastSaved_select.
  rewrite select_updateWasteAudit by exact Hfk.
  rewrite !last_some_app. split; [|reflexivity].
  cbn [last_some fold_left].
  change (decode_text "syncStatus" ("lastSaved", now)) with (@None string).
  unfold decode_text.
  rewrite (last_some_update_entries Some), Hstatus. reflexivity.
Qed.

(** The auto-save route on a body that has an audit and a record. *)
Lemma autosave_POST_present (db : database) (id : Z) (data : object J)
    (auto : bool) (route_now store_now reply_now : string) :
  id <> 0 ->
  let '(db', (status, response)) :=
    autosave_POST db
      (Some {| auditId := Some id; wasteAuditData := Some data;
               isAutoSave := auto |}) route_now store_now reply_now in
  (autosave_success response = false -> db' = db)
  /\ (autosave_success response = true ->
      status = 200
      /\ autosave_timestamp response = Some reply_now
      /\ foreign_key_ok db id = true
      /\ read_syncStatus db' id = Some "pending"%string
      /\ read_lastSaved db' id = Some store_now
      /\ (forall s o, In s sections -> get data s = VObj o ->
            JSON_parse (JSON_stringify (VObj o)) = Some (VObj o) ->
            read_section db' id s = Some (VObj o))).
Proof.
  intros Hid.
  assert (Hpresent :
    autosave_POST db
      (Some {| auditId := Some id; wasteAuditData := Some data;
               isAutoSave := auto |}) route_now store_now reply_now
    = let dataToSave :=
        set (set data "syncStatus" (VStr "pending"))
            "lastSaved" (VStr route_now) in
      let updateResult := updateWasteAudit db id dataToSave store_now in
      if negb (snd updateResult)
      then (fst updateResult,
            (500, autosave_failure "Failed to auto-save waste audit data"))
      else
        (fst updateResult,
         (200, {| autosave_success := true; autosave_error := None;
                  autosave_timestamp := Some reply_now;
                  autosave_message := Some "Auto-save completed"%string |})))
    by (destruct id; [contradiction | reflexivity | reflexivity]).
  rewrite Hpresent. cbv zeta.
  set (dataToSave := set (set data "syncStatus" (VStr "pending"))
                         "lastSaved" (VStr route_now)).
  destruct (foreign_key_ok db id) eqn:Hfk.
  - pose proof (updated_status db id dataToSave "pending" store_now Hfk)
      as Hstatus.
    pose proof (fun s Hin =>
                  eq_trans
                    (read_section_select _ id s Hin)
                    (section_rows_after_update db id dataToSave store_now s
                       Hfk Hin)) as Hmerge.
    rewrite (updateWasteAudit_ok db id dataToSave store_now Hfk) in *.
    cbn [fst snd negb] in *.
    split; [discriminate|]. intros _.
    split; [reflexivity|]. split; [reflexivity|]. split; [reflexivity|].
    destruct Hstatus as [Hsync Hsaved];
      [subst dataToSave; rewrite get_dataToSave; reflexivity|].
    split; [exact Hsync|]. split; [exact Hsaved|].
    intros s o Hin Hobject Hjson. rewrite (Hmerge s Hin).
    subst dataToSave. rewrite get_dataToSave_section by exact Hin.
    rewrite Hobject. cbn [is_undefined].
    unfold update_text. cbn [typeof_object]. rewrite Hjson. reflexivity.
  - rewrite (updateWasteAudit_foreign_key db id dataToSave store_now Hfk).
    cbn [fst snd negb]. split; [reflexivity | discriminate].
Qed.

(** X29. The auto-save route: success is reported only when the record
    was merged into the rows of the audit, with status 'pending' and the
    time of the store, a section given as an object that survives JSON
    reading back as given; every other reply leaves the table as it
    was, the 200 for a body that is not JSON included. *)
Theorem autosave_route_outcomes (db : database)
    (body : option SaveWasteAuditRequest)
    (route_now store_now reply_now : string) :
  let '(db', (status, response)) :=
    autosave_POST db body route_now store_now reply_now in
  (autosave_success response = false -> db' = db)
  /\ (body = None -> status = 200 /\ autosave_success response = false)
  /\ (autosave_success response = true ->
      status = 200
      /\ autosave_timestamp response = Some reply_now
      /\ exists id data auto,
           body = Some {| auditId := Some id; wasteAuditData := Some data;
                          isAutoSave := auto |}
           /\ id <> 0
           /\ foreign_key_ok db id = true
           /\ read_syncStatus db' id = Some "pending"%string
           /\ read_lastSaved db' id = Some store_now
           /\ (forall s o, In s sections -> get data s = VObj o ->
                 JSON_parse (JSON_stringify (VObj o)) = Some (VObj o) ->
                 read_section db' id s = Some (VObj o))).
Proof.
  assert (Hpresent : forall id data auto, id <> 0 ->
    let body := Some {| auditId := Some id; wasteAuditData := Some data;
                        isAutoSave := auto |} in
    let '(db', (status, response)) :=
      autosave_POST db body route_now store_now reply_now in
    (autosave_success response = false -> db' = db)
    /\ (body = None -> status = 200 /\ autosave_success response = false)
    /\ (autosave_success response = true ->
        status = 200
        /\ autosave_timestamp response = Some reply_now
        /\ exists id0 data0 auto0,
             body = Some {| auditId := Some id0;
                            wasteAuditData := Some data0;
                            isAutoSave := auto0 |}
             /\ id0 <> 0
             /\ foreign_key_ok db id0 = true
             /\ read_syncStatus db' id0 = Some "pending"%string
             /\ read_lastSaved db' id0 = Some store_now
             /\ (forall s o, In s sections -> get data0 s = VObj o ->
                   JSON_parse (JSON_stringify (VObj o)) = Some (VObj o) ->
                   read_section db' id0 s = Some (VObj o)))).
  { intros id data auto Hid. cbv zeta.
    pose proof (autosave_POST_present db id data auto route_now store_now
                  reply_now Hid) as Hp.
    destruct (autosave_POST db _ route_now store_now reply_now)
      as [db' [status response]].
    destruct Hp as (Hfailed & Hok).
    split; [exact Hfailed|]. split; [discriminate|].
    intros Hsuccess. destruct (Hok Hsuccess) as (Hs & Ht & Hrest).
    split; [exact Hs|]. split; [exact Ht|]. exists id, data, auto.
    split; [reflexivity|]. split; [exact Hid | exact Hrest]. }
  destruct body as [[[[|p|p]|] [data|] auto]|].
  3: exact (Hpresent (Z.pos p) data auto ltac:(discriminate)).
  4: exact (Hpresent (Z.neg p) data auto ltac:(discriminate)).
  all: cbn [autosave_POST Routes.auditId wasteAuditData isAutoSave
            autosave_failure autosave_success];
    (split; [reflexivity|]); split; try discriminate.
  intros _. split; reflexivity.
Qed.

(** X30. The routes of one audit: DELETE answers 200 exactly where GET
    does, and GET answers 404 afterwards; where DELETE answers
    otherwise it answers what GET answers and deletes nothing; GET
    finds the audit under the decimal digits of its identifier exactly
    when [wasteAuditExists] says it has data. *)
Theorem id_routes_agree (db : database) (images : list image)
    (id : string) :
  let '(db', images', reply) := id_DELETE db images id in
  (message_status reply = 200 ->
   fst (id_GET db id) = 200 /\ fst (id_GET db' id) = 404)
  /\ (message_status reply <> 200 ->
      db' = db /\ images' = images
      /\ message_status reply = fst (id_GET db id))
  /\ (forall auditId,
        fst (id_GET db (Number_toString (Num auditId)))
        = if wasteAuditExists db auditId then 200 else 404).
Proof.
  assert (Hexists : forall auditId,
    fst (id_GET db (Number_toString (Num auditId)))
    = if wasteAuditExists db auditId then 200 else 404).
  { intros auditId. unfold id_GET.
    rewrite parseInt_toString, exists_when_found_select,
      getWasteAudit_fields.
    destruct (select db auditId); reflexivity. }
  unfold id_DELETE, id_GET.
  destruct (parseInt id) as [auditId|] eqn:Hid.
  - destruct (getWasteAudit db auditId) as [d|] eqn:Hfound.
    + cbn [deleteWasteAudit negb message_status fst].
      split; [|split; [intros Hne; exfalso; apply Hne; reflexivity
                      | exact Hexists]].
      intros _. split; [reflexivity|].
      assert (Hgone : getWasteAudit (delete db auditId) auditId = None)
        by (unfold getWasteAudit; rewrite select_delete; reflexivity).
      rewrite Hgone. reflexivity.
    + cbn [message_status fst].
      split; [discriminate|]. split; [|exact Hexists].
      intros _. repeat split.
  - cbn [message_status fst].
    split; [discriminate|]. split; [|exact Hexists].
    intros _. repeat split.
Qed.

End Handlers.

Import JsonFragment.

(** X28 at a record whose client says 'pending': it is stored as
    'synced', with the time of the store. *)
Lemma save_route_outcomes_witness :
  let reply :=
    save_POST (fun _ => Routes.checked_kitchen) Examples.registered
      (Some {| auditId := Some 1;
               wasteAuditData := Some Examples.autosave_record;
               isAutoSave := false |})
      "2024-03-01T09:10:00.000Z" "2024-03-01T09:10:01.000Z" in
  fst (snd reply) = 200
  /\ get Examples.autosave_record "syncStatus" = VStr "pending"
  /\ read_syncStatus (fst reply) 1 = Some "synced"%string
  /\ read_lastSaved (fst reply) 1 = Some "2024-03-01T09:10:01.000Z"%string.
Proof.
  intros reply.
  assert (Hstatus : fst (snd reply) = 200) by (vm_compute; reflexivity).
  split; [exact Hstatus|]. split; [vm_compute; reflexivity|].
  pose proof (save_route_outcomes (fun _ => Routes.checked_kitchen)
                Examples.registered
                (Some {| auditId := Some 1;
                         wasteAuditData := Some Examples.autosave_record;
                         isAutoSave := false |})
                "2024-03-01T09:10:00.000Z" "2024-03-01T09:10:01.000Z")
    as Hroute.
  fold reply in Hroute.
  destruct reply as [db' [status response]]. cbn [fst snd] in *.
  destruct Hroute as (_ & Hok & _).
  destruct (Hok Hstatus)
    as (_ & id & data & auto & Hbody & _ & _ & Hsync & Hsaved).
  injection Hbody as <- _ _. split; [exact Hsync | exact Hsaved].
Defined.

(** X29 at the same record, merged into a saved audit. *)
Lemma autosave_route_outcomes_witness :
  let reply :=
    autosave_POST Scenarios.saved
      (Some {| auditId := Some 1;
               wasteAuditData := Some Examples.autosave_record;
               isAutoSave := true |})
      "2024-03-01T09:05:00.000Z" "2024-03-01T09:05:01.000Z"
      "2024-03-01T09:05:02.000Z" in
  autosave_success (snd (snd reply)) = true
  /\ read_syncStatus Scenarios.saved 1 = Some "synced"%string
  /\ read_syncStatus (fst reply) 1 = Some "pending"%string
  /\ read_lastSaved (fst reply) 1 = Some "2024-03-01T09:05:01.000Z"%string.
Proof.
  intros reply.
  assert (Hsuccess : autosave_success (snd (snd reply)) = true)
    by (vm_compute; reflexivity).
  split; [exact Hsuccess|]. split; [vm_compute; reflexivity|].
  pose proof (autosave_route_outcomes Scenarios.saved
                (Some {| auditId := Some 1;
                         wasteAuditData := Some Examples.autosave_record;
                         isAutoSave := true |})
                "2024-03-01T09:05:00.000Z" "2024-03-01T09:05:01.000Z"
                "2024-03-01T09:05:02.000Z")
    as Hroute.
  fold reply in Hroute.
  destruct reply as [db' [status response]]. cbn [fst snd] in *.
  destruct Hroute as (_ & _ & Hok).
  destruct (Hok Hsuccess)
    as (_ & _ & id & data & auto & Hbody & _ & _ & Hsync & Hsaved & _).
  injection Hbody as <- _ _. split; [exact Hsync | exact Hsaved].
Defined.

End RoutesFacts.

(* ================================================================== *)
(** * Facts about the metrics and the alerts in binary64               *)
(* ================================================================== *)

Module Binary64Facts.
Import Floats.
Import Binary64.

Local Open Scope bool_scope.
Local Open Scope float_scope.

(** The loop of [calculateWasteMetrics] adds up, in the order of the
    streams, what the four sums add up. *)
Lemma sums_of_the_loop (streams : list WasteStreamAssessment) (t : totals) :
  let t' := fold_left metrics_step streams t in
  totalAnnualCost t'
  = fold_left add (map cost (filter has_cost streams)) (totalAnnualCost t)
  /\ totalWeeklyVolume t'
     = fold_left add (map volume streams) (totalWeeklyVolume t)
  /\ recyclableVolume t'
     = fold_left add (map volume (filter is_recyclable_stream streams))
         (recyclableVolume t)
  /\ contaminationIssues t'
     = (contaminationIssues t
        + Z.of_nat (length (filter (fun stream =>
                                      gt (contaminationLevel stream) 3)
                                   streams)))%Z.
Proof.
  revert t. induction streams as [|s streams IH]; intros t; cbv zeta.
  - cbn. repeat split. lia.
  - cbn [fold_left]. specialize (IH (metrics_step t s)). cbv zeta in IH.
    destruct IH as (Hcost & Hvolume & Hrecyclable & Hissues).
    repeat split.
    + rewrite Hcost. cbn [filter metrics_step totalAnnualCost].
      assert (Hc : cost s = match annualCostEuros s with
                            | Some c => c
                            | None => 0
                            end) by reflexivity.
      unfold has_cost at 2.
      destruct (annualCostEuros s) as [c|]; [|reflexivity].
      destruct (truthy c); [|reflexivity].
      cbn [map fold_left]. rewrite Hc. reflexivity.
    + rewrite Hvolume. reflexivity.
    + rewrite Hrecyclable. cbn [filter metrics_step recyclableVolume].
      destruct (is_recyclable_stream s); reflexivity.
    + rewrite Hissues. cbn [filter metrics_step contaminationIssues].
      destruct (gt (contaminationLevel s) 3); cbn [length]; lia.
Qed.

Lemma some_match_existsb (A : Type) (f : A -> bool) (l : list A) :
  (0 <? Z.of_nat (length (filter f l)))%Z = existsb f l.
Proof.
  induction l as [|a l IH]; [reflexivity|].
  cbn [filter existsb]. destruct (f a); [|exact IH].
  cbn [length orb]. apply Z.ltb_lt. lia.
Qed.

Lemma totals_of_the_loop (data : WasteAuditData) :
  let t := match assessments_of data with
           | Some streams =>
               fold_left metrics_step streams
                 {| totalAnnualCost := 0; totalWeeklyVolume := 0;
                    recyclableVolume := 0; contaminationIssues := 0 |}
           | None =>
               {| totalAnnualCost := 0; totalWeeklyVolume := 0;
                  recyclableVolume := 0; contaminationIssues := 0 |}
           end in
  totalAnnualCost t = total_cost data
  /\ totalWeeklyVolume t = total_volume data
  /\ recyclableVolume t = recyclable_volume data
  /\ (0 <? contaminationIssues t)%Z = some_contaminated_stream data.
Proof.
  cbv zeta. unfold total_cost, total_volume, recyclable_volume,
    some_contaminated_stream, streams_of, sum.
  destruct (assessments_of data) as [streams|].
  - destruct (sums_of_the_loop streams
                {| totalAnnualCost := 0; totalWeeklyVolume := 0;
                   recyclableVolume := 0; contaminationIssues := 0 |})
      as (Hcost & Hvolume & Hrecyclable & Hissues).
    cbn [totalAnnualCost totalWeeklyVolume recyclableVolume
         contaminationIssues] in *.
    rewrite Hcost, Hvolume, Hrecyclable, Hissues.
    repeat split. apply some_match_existsb.
  - repeat split.
Qed.

(** C7, as amended.  In binary64 arithmetic, the sums taken over the
    streams in their order, [calculateWasteMetrics] returns
    [recyclingRateEstimate] = recyclable volume / total volume x 100
    rounded to 2 decimals, and 0 when the total volume is not above 0;
    [potentialSavingsFromContaminationReduction] = the total annual cost
    x 0.15 when some stream has a contamination level above 3, and 0
    otherwise; [weeklyWastePerUser] = total volume x 0.5 / userCount
    rounded to 2 decimals, and 0 when userCount is not above 0;
    [carbonFootprintEstimate] = total volume x 0.5 x 52 x 0.5 rounded to
    the nearest integer.  Rounding to 2 decimals is [Math.round] of the
    hundredfold, divided by 100.  The single stream of 500 L of dry
    recyclables, contamination 2, 1000 euros, with 50 users yields 100,
    0 and 5. *)
Theorem metrics_follow_the_formulas (data : WasteAuditData)
    (userCount : float) :
  let m := calculateWasteMetrics data userCount in
  ((0 <? total_volume data) = true ->
   recyclingRateEstimate m
   = round_to_2_decimals (recyclable_volume data / total_volume data * 100))
  /\ ((0 <? total_volume data) = false -> recyclingRateEstimate m = 0)
  /\ (some_contaminated_stream data = true ->
      potentialSavingsFromContaminationReduction m
      = total_cost data * fifteen_percent)
  /\ (some_contaminated_stream data = false ->
      potentialSavingsFromContaminationReduction m = 0)
  /\ ((0 <? userCount) = true ->
      weeklyWastePerUser m
      = round_to_2_decimals (total_volume data * 0.5 / userCount))
  /\ ((0 <? userCount) = false -> weeklyWastePerUser m = 0)
  /\ carbonFootprintEstimate m
     = Math_round (total_volume data * 0.5 * 52 * 0.5)
  /\ estimatedAnnualWasteCost m = total_cost data
  /\ (let m1 := calculateWasteMetrics single_stream 50 in
      recyclingRateEstimate m1 = 100
      /\ potentialSavingsFromContaminationReduction m1 = 0
      /\ weeklyWastePerUser m1 = 5).
Proof.
  cbv zeta. unfold calculateWasteMetrics. cbv zeta.
  destruct (totals_of_the_loop data) as (Hcost & Hvolume & Hrecyclable & Hissues).
  cbv zeta in Hcost, Hvolume, Hrecyclable, Hissues.
  set (t := match assessments_of data with
            | Some streams => fold_left metrics_step streams _
            | None => _
            end) in *.
  clearbody t.
  cbn [recyclingRateEstimate potentialSavingsFromContaminationReduction
       weeklyWastePerUser carbonFootprintEstimate estimatedAnnualWasteCost].
  rewrite Hissues, Hcost, Hvolume, Hrecyclable.
  repeat split.
  - intros Hpos. rewrite Hpos. reflexivity.
  - intros Hneg. rewrite Hneg. vm_compute. reflexivity.
  - intros Hsome. rewrite Hsome. reflexivity.
  - intros Hnone. rewrite Hnone. reflexivity.
  - intros Hpos. rewrite Hpos. reflexivity.
  - intros Hneg. rewrite Hneg. vm_compute. reflexivity.
Qed.

(** Two volumes of 2^1023 L add up to infinity, and the rate of
    infinity to infinity is NaN. *)
Lemma overflowing_sum_has_no_rate :
  total_volume overflowing = infinity
  /\ is_nan (recyclingRateEstimate (calculateWasteMetrics overflowing 50))
     = true.
Proof. split; vm_compute; reflexivity. Qed.

(** ** The alerts *)

(** What [|| 0] replaces is not above 1000 either. *)
Lemma large_or_zero (x : float) :
  (1000 <? (if truthy x then x else 0)) = (1000 <? x).
Proof.
  destruct (truthy x) eqn:Hx; [reflexivity|].
  change (1000 <? 0) with false. symmetry.
  unfold truthy, is_nan in Hx. rewrite negb_involutive in Hx.
  rewrite ltb_spec. rewrite !eqb_spec in Hx.
  change (Prim2SF 0) with (S754_zero false) in Hx.
  destruct (Prim2SF x) as [s|s| |s m e].
  - destruct s; vm_compute; reflexivity.
  - destruct s; discriminate Hx.
  - reflexivity.
  - exfalso. revert Hx. unfold SFeqb, SFcompare.
    rewrite Z.compare_refl, Pos.compare_cont_refl.
    destruct s; discriminate.
Qed.

(** The [reduce] of the alerts adds up the volumes in their order. *)
Lemma volumes_of_the_reduce (streams : list WasteStreamAssessment) (acc : float) :
  fold_left (fun sum stream =>
               sum + or_default (estimatedWeeklyVolumeLitres stream) 0)
            streams acc
  = fold_left add (map volume streams) acc.
Proof.
  revert acc. induction streams as [|s streams IH]; intros acc;
    [reflexivity|].
  cbn [fold_left map]. apply IH.
Qed.

(** X23. The two compliance alerts: the hazardous one when a stream is
    hazardous and no [weeeCollection] entry is there, whatever the status
    of an entry that is; the large-facility one when the weekly volumes,
    added up in binary64 in the order of the streams, come to more than
    1000 L and the composting system is none.  A record without streams
    gets no alert. *)
Theorem alerts_follow_the_checks (data : WasteAuditData) :
  (In Insights.hazardous_alert (generateComplianceAlerts data)
   <-> (exists stream, In stream (streams_of data)
                       /\ wasteStream stream = Calculate.WasteStream_HAZARDOUS)
       /\ (specialWasteManagement data = None
           \/ specialWasteManagement data
              = Some {| Insights.weeeCollection := None |}))
  /\ (In Insights.large_facility_alert (generateComplianceAlerts data)
      <-> (1000 <? total_volume data) = true
          /\ composting_is_none data = true)
  /\ (streams_of data = [] -> generateComplianceAlerts data = []).
Proof.
  unfold generateComplianceAlerts. cbv zeta.
  set (hasHazardous := match assessments_of data with
                       | Some streams => existsb is_hazardous_stream streams
                       | None => false
                       end).
  set (weee := match specialWasteManagement data with
               | Some s =>
                   match Insights.weeeCollection s with
                   | Some _ => true
                   | None => false
                   end
               | None => false
               end).
  set (totalVolume := match assessments_of data with
                      | Some streams => _
                      | None => 0
                      end).
  assert (Hhazardous :
    hasHazardous = true
    <-> exists stream, In stream (streams_of data)
                       /\ wasteStream stream = Calculate.WasteStream_HAZARDOUS).
  { unfold hasHazardous, streams_of.
    destruct (assessments_of data) as [streams|].
    - rewrite existsb_exists. unfold is_hazardous_stream.
      split; intros (stream & Hin & Hs); exists stream; split; try exact Hin.
      + destruct (wasteStream stream); try discriminate Hs. reflexivity.
      + rewrite Hs. reflexivity.
    - split; [discriminate | intros (stream & [] & _)]. }
  assert (Hweee :
    weee = false
    <-> specialWasteManagement data = None
        \/ specialWasteManagement data
           = Some {| Insights.weeeCollection := None |}).
  { unfold weee. destruct (specialWasteManagement data) as [[[item|]]|];
      cbn [Insights.weeeCollection]; split; intros Hw; try discriminate Hw;
      try (right; reflexivity); try (left; reflexivity); try reflexivity.
    destruct Hw as [Hw|Hw]; discriminate Hw. }
  assert (Hlarge : (1000 <? totalVolume) = (1000 <? total_volume data)).
  { unfold totalVolume, total_volume, streams_of, sum.
    destruct (assessments_of data) as [streams|]; [|reflexivity].
    cbv zeta. rewrite large_or_zero, volumes_of_the_reduce. reflexivity. }
  assert (Hdistinct : Insights.hazardous_alert <> Insights.large_facility_alert)
    by discriminate.
  split; [|split].
  - rewrite <- Hhazardous, <- Hweee.
    destruct hasHazardous, weee,
      ((1000 <? totalVolume) && composting_is_none data);
      cbn [andb negb app In]; intuition congruence.
  - rewrite <- Hlarge.
    destruct (hasHazardous && negb weee), (1000 <? totalVolume),
      (composting_is_none data);
      cbn [andb app In]; intuition congruence.
  - intros Hnone.
    assert (Hh : hasHazardous = false).
    { unfold hasHazardous. unfold streams_of in Hnone.
      destruct (assessments_of data) as [streams|]; [|reflexivity].
      subst streams. reflexivity. }
    assert (Hv : (1000 <? totalVolume) = false).
    { rewrite Hlarge. unfold total_volume. rewrite Hnone. reflexivity. }
    rewrite Hh, Hv. reflexivity.
Qed.

(** C7, the claim as stated.  With a negative volume the total is not 0
    and the quotient of the claim is 100, yet the rate returned is 0.
    And the formulas hold in binary64 only: for 23 L of recyclables out
    of 160 L at 3 euros, exact arithmetic gives a rate of 14.375, 14.38
    to 2 decimals, and savings of 0.45, where the code returns 14.37 and
    0.44999999999999996. *)
#[warnings="-inexact-float"]
Lemma metrics_depart_from_the_formulas :
  total_volume negative_volume = -10
  /\ (total_volume negative_volume =? 0) = false
  /\ round_to_2_decimals
       (recyclable_volume negative_volume / total_volume negative_volume
        * 100)
     = 100
  /\ recyclingRateEstimate (calculateWasteMetrics negative_volume 50) = 0
  /\ (recyclingRateEstimate (calculateWasteMetrics negative_volume 50)
      =? round_to_2_decimals
           (recyclable_volume negative_volume / total_volume negative_volume
            * 100)) = false
  /\ (Calculate.round_to_2_decimals (23 / (23 + 137) * 100) == 1438 # 100)%Q
  /\ recyclingRateEstimate (calculateWasteMetrics two_streams 100) = 14.37
  /\ (3 * (15 # 100) == 45 # 100)%Q
  /\ potentialSavingsFromContaminationReduction
       (calculateWasteMetrics two_streams 100)
     = 0.44999999999999996
  /\ (0.44999999999999996 <? 0.45) = true.
Proof. repeat split. Qed.

(** C7, as amended, at the scenario of the specification, at the two
    streams and at the negative volume. *)
#[warnings="-inexact-float"]
Lemma metrics_follow_the_formulas_witness :
  (0 <? total_volume single_stream) = true
  /\ some_contaminated_stream single_stream = false
  /\ recyclingRateEstimate (calculateWasteMetrics single_stream 50) = 100
  /\ potentialSavingsFromContaminationReduction
       (calculateWasteMetrics single_stream 50) = 0
  /\ weeklyWastePerUser (calculateWasteMetrics single_stream 50) = 5
  /\ carbonFootprintEstimate (calculateWasteMetrics single_stream 50) = 6500
  /\ weeklyWastePerUser (calculateWasteMetrics single_stream 0) = 0
  /\ recyclingRateEstimate (calculateWasteMetrics two_streams 100)
     = round_to_2_decimals (23 / (23 + 137) * 100)
  /\ round_to_2_decimals (23 / (23 + 137) * 100) = 14.37
  /\ potentialSavingsFromContaminationReduction
       (calculateWasteMetrics two_streams 100)
     = 3 * fifteen_percent
  /\ (0 <? total_volume negative_volume) = false
  /\ recyclingRateEstimate (calculateWasteMetrics negative_volume 50) = 0.
Proof.
  assert (Hpos : (0 <? total_volume single_stream) = true)
    by (vm_compute; reflexivity).
  assert (Hclean : some_contaminated_stream single_stream = false)
    by (vm_compute; reflexivity).
  assert (Husers : (0 <? 50) = true) by (vm_compute; reflexivity).
  assert (Hnobody : (0 <? 0) = false) by (vm_compute; reflexivity).
  assert (Hpos2 : (0 <? total_volume two_streams) = true)
    by (vm_compute; reflexivity).
  assert (Hdirty : some_contaminated_stream two_streams = true)
    by (vm_compute; reflexivity).
  assert (Hneg : (0 <? total_volume negative_volume) = false)
    by (vm_compute; reflexivity).
  destruct (metrics_follow_the_formulas single_stream 50)
    as (Hrate & _ & _ & Hsavings & Husage & _ & Hcarbon & _).
  destruct (metrics_follow_the_formulas single_stream 0)
    as (_ & _ & _ & _ & _ & Hunused & _).
  destruct (metrics_follow_the_formulas two_streams 100)
    as (Hrate2 & _ & Hsavings2 & _).
  destruct (metrics_follow_the_formulas negative_volume 50)
    as (_ & Hrate3 & _).
  split; [exact Hpos|]. split; [exact Hclean|].
  split; [rewrite (Hrate Hpos); vm_compute; reflexivity|].
  split; [exact (Hsavings Hclean)|].
  split; [rewrite (Husage Husers); vm_compute; reflexivity|].
  split; [rewrite Hcarbon; vm_compute; reflexivity|].
  split; [exact (Hunused Hnobody)|].
  split; [rewrite (Hrate2 Hpos2); vm_compute; reflexivity|].
  split; [vm_compute; reflexivity|].
  split; [rewrite (Hsavings2 Hdirty); vm_compute; reflexivity|].
  split; [exact Hneg | exact (Hrate3 Hneg)].
Defined.

(** X23 at a large record with a hazardous stream, which gets both
    alerts, and at 1000 L and a trace, which the sum rounds to 1000 L:
    no alert. *)
Lemma alerts_follow_the_checks_witness :
  generateComplianceAlerts large_and_hazardous
  = [Insights.hazardous_alert; Insights.large_facility_alert]
  /\ In Insights.large_facility_alert
        (generateComplianceAlerts large_and_hazardous)
  /\ total_volume just_not_large = 1000
  /\ ~ In Insights.large_facility_alert
         (generateComplianceAlerts just_not_large).
Proof.
  assert (Hlarge : (1000 <? total_volume large_and_hazardous) = true
                   /\ composting_is_none large_and_hazardous = true)
    by (split; vm_compute; reflexivity).
  destruct (alerts_follow_the_checks large_and_hazardous)
    as (_ & Halert & _).
  destruct (alerts_follow_the_checks just_not_large) as (_ & Hnone & _).
  split; [vm_compute; reflexivity|].
  split; [exact (proj2 Halert Hlarge)|].
  split; [vm_compute; reflexivity|].
  intros Hin. apply (proj1 Hnone) in Hin. destruct Hin as [Hin _].
  vm_compute in Hin. discriminate Hin.
Defined.

End Binary64Facts.
